(** * Intent routing and tool orchestration of the Collega finance assistant

    A shallow embedding of [services/agent_service.py] (ticker extraction,
    intent routing, tool dispatch, orchestration, financial-query
    classification), of the provider client of
    [services/sectors_service.py], of the tools of
    [services/sectors_tools.py] and of the message handler of
    [ui/chat_interface.py] with the session store of [utils/memory.py],
    followed by the properties of the specification stated and proved over
    that embedding.

    Conventions of the embedding.
    - A Python [str] is a [string] of bytes. The string methods and the
      regular expression classes are those of Python on ASCII text, where
      the Unicode-aware classes of Python 3 coincide with the ASCII ones;
      the statements about the regular expressions carry the hypothesis
      [PyStr.is_ascii] on the text they read.
    - [int] on a string of digits raises [ValueError] when the string has
      more than 4300 digits, as CPython does.
    - What the provider returns is a decoded JSON value ([JValue]). The
      company list is a list of such values: reading a field of an item
      that is not an object, or lower-casing a field that is not a string,
      raises [AttributeError].
    - A [dict] with string keys is a [gmap string _]; a dict that is iterated
      in insertion order with "first hit wins" is an association list.
    - A call is a function from the state to an outcome, [Ok] with a value
      or [Raise] with the exception, and the state after it.
    - [print] calls are not modelled; the session file is a value of the
      application state, and a failure of the file system is not modelled.
    - What the service calls but does not define is a variable of the
      section [Agent]: the data provider, the completion service, the clock,
      the invocation of a tool (a provider call and its formatting) and the
      similarity ratio of difflib. The module [Difflib] gives that ratio
      concretely, and the modules [Sample], [Served] and [Flaky] concrete
      worlds, for the statements that are evaluated on data.
    - Floats are the rationals they denote. *)

From Stdlib Require Import ZArith QArith Ascii String List Lia.
From stdpp Require Import base option gmap strings pretty.

Open Scope Z_scope.

(** ** Python strings *)

Module PyStr.

Definition code (c : ascii) : N := N_of_ascii c.

Definition in_range (lo hi : N) (c : ascii) : bool :=
  ((lo <=? code c) && (code c <=? hi))%N.

(** [A-Z], [a-z], decimal digits, [\w] and blanks, as Python has them on
    the characters below 128. The classes and the case mapping of Python 3
    are those of Unicode: the methods and the patterns below are the ones
    of Python on a text of such characters ([is_ascii]). *)
Definition is_upper (c : ascii) : bool := in_range 65 90 c.
Definition is_lower (c : ascii) : bool := in_range 97 122 c.
Definition is_digit (c : ascii) : bool := in_range 48 57 c.
Definition is_word (c : ascii) : bool :=
  is_upper c || is_lower c || is_digit c || (code c =? 95)%N.
(** [str.isspace], also the class [\s] of a str pattern: tab, line feed,
    vertical tab, form feed, carriage return, the separators 28 to 31 and
    the space. *)
Definition is_space (c : ascii) : bool :=
  in_range 9 13 c || in_range 28 31 c || (code c =? 32)%N.

Definition lower_char (c : ascii) : ascii :=
  if is_upper c then ascii_of_N (code c + 32) else c.
Definition upper_char (c : ascii) : ascii :=
  if is_lower c then ascii_of_N (code c - 32) else c.

Fixpoint map (f : ascii → ascii) (s : string) : string :=
  match s with
  | EmptyString => EmptyString
  | String c s' => String (f c) (map f s')
  end.

(** [s.lower()] and [s.upper()]. *)
Definition lower : string → string := map lower_char.
Definition upper : string → string := map upper_char.

(** [s.startswith(p)]. *)
Fixpoint startswith (s p : string) : bool :=
  match p, s with
  | EmptyString, _ => true
  | String a p', String b s' => if ascii_dec a b then startswith s' p' else false
  | String _ _, EmptyString => false
  end.

(** [sub in s]. *)
Fixpoint contains (sub s : string) : bool :=
  startswith s sub ||
  match s with
  | EmptyString => false
  | String _ s' => contains sub s'
  end.

(** [s[:n]] and [s[n:]] for [n >= 0]. *)
Fixpoint take (n : nat) (s : string) : string :=
  match n, s with
  | S n', String c s' => String c (take n' s')
  | _, _ => EmptyString
  end.
Fixpoint drop (n : nat) (s : string) : string :=
  match n, s with
  | S n', String _ s' => drop n' s'
  | _, _ => s
  end.

(** [s.lstrip()], [s.rstrip()], [s.strip()] (no argument: blanks). *)
Fixpoint lstrip (s : string) : string :=
  match s with
  | String c s' => if is_space c then lstrip s' else s
  | EmptyString => EmptyString
  end.
Fixpoint rstrip (s : string) : string :=
  match s with
  | EmptyString => EmptyString
  | String c s' =>
      match rstrip s' with
      | EmptyString => if is_space c then EmptyString else String c EmptyString
      | r => String c r
      end
  end.
Definition strip (s : string) : string := rstrip (lstrip s).

(** [s.split()] (no argument): the maximal runs of non-blank characters.
    [cur] is the run being read, [None] between two runs. *)
Fixpoint split_go (cur : option string) (s : string) : list string :=
  match s with
  | EmptyString => match cur with Some w => [w] | None => [] end
  | String c s' =>
      if is_space c
      then match cur with Some w => w :: split_go None s' | None => split_go None s' end
      else split_go (Some (match cur with Some w => w +:+ String c "" | None => String c "" end)) s'
  end.
Definition split : string → list string := split_go None.

(** [sep.join(ws)]. *)
Fixpoint join (sep : string) (ws : list string) : string :=
  match ws with
  | [] => ""
  | [w] => w
  | w :: ws' => w +:+ sep +:+ join sep ws'
  end.

(** [s.replace(" ", "")], the only use of [replace] in the router. *)
Fixpoint remove_spaces (s : string) : string :=
  match s with
  | EmptyString => EmptyString
  | String c s' => if (code c =? 32)%N then remove_spaces s' else String c (remove_spaces s')
  end.

(** The number that a string of decimal digits denotes, most significant
    digit first. *)
Definition digit_value (c : ascii) : Z := Z.of_N (code c) - 48.
Fixpoint int_go (acc : Z) (s : string) : Z :=
  match s with
  | EmptyString => acc
  | String c s' => int_go (10 * acc + digit_value c) s'
  end.
Definition decimal : string → Z := int_go 0.

(** [sys.get_int_max_str_digits()], at its default: [int] refuses a string
    of more digits, leading zeros included. *)
Definition int_max_str_digits : Z := 4300.

(** The characters of the ASCII range, on which the methods and the
    classes above are those of Python. *)
Definition is_ascii_char (c : ascii) : bool := (code c <? 128)%N.
Fixpoint is_ascii (s : string) : bool :=
  match s with
  | EmptyString => true
  | String c s' => is_ascii_char c && is_ascii s'
  end.

(** [any(w in s for w in ws)]. *)
Definition any_in (ws : list string) (s : string) : bool :=
  existsb (fun w => contains w s) ws.

(** Truth value of a character at the head of a string, [false] at the
    end: used for "the next character is a word character". *)
Definition head_is (p : ascii → bool) (s : string) : bool :=
  match s with
  | String c _ => p c
  | EmptyString => false
  end.

End PyStr.

(** ** The four regular expressions of the router

    Each matcher is [re.search] for one pattern: it returns the first
    group of the leftmost match. [prev] tells whether the character before
    the current position is a word character ([false] at the start), which
    is what [\b] needs. *)

Module Re.
Import PyStr.

(** One attempt of [\b([A-Z]{4})\b] at the head of [s]. *)
Definition ticker_at (prev : bool) (s : string) : option string :=
  match s with
  | String a (String b (String c (String d rest))) =>
      if negb prev && is_upper a && is_upper b && is_upper c && is_upper d
         && negb (head_is is_word rest)
      then Some (String a (String b (String c (String d ""))))
      else None
  | _ => None
  end.

(** [re.search(r'\b([A-Z]{4})\b', s)]. *)
Fixpoint search_ticker_from (prev : bool) (s : string) : option string :=
  match ticker_at prev s with
  | Some w => Some w
  | None =>
      match s with
      | EmptyString => None
      | String c s' => search_ticker_from (is_word c) s'
      end
  end.
Definition search_ticker : string → option string := search_ticker_from false.

(** The longest prefix of decimal digits: what the greedy [\d+] takes. *)
Fixpoint digits_prefix (s : string) : string :=
  match s with
  | String c s' => if is_digit c then String c (digits_prefix s') else ""
  | EmptyString => ""
  end.

(** One attempt of [\b(\d+)\b] at the head of [s]: a digit after a
    boundary, then the whole run of digits, then a boundary. A shorter run
    ends between two digits, where there is no boundary, so backtracking
    finds nothing more. *)
Definition int_at (prev : bool) (s : string) : option string :=
  let run := digits_prefix s in
  if negb prev && head_is is_digit s
     && negb (head_is is_word (drop (String.length run) s))
  then Some run else None.

(** [re.search(r'\b(\d+)\b', s)]. *)
Fixpoint search_int_from (prev : bool) (s : string) : option string :=
  match int_at prev s with
  | Some w => Some w
  | None =>
      match s with
      | EmptyString => None
      | String c s' => search_int_from (is_word c) s'
      end
  end.
Definition search_int : string → option string := search_int_from false.

(** One alternative of [(?:quarter|q|kuartal)\s*(\d)] at the head of
    [s]: the word, then all the blanks, then one digit. *)
Definition quarter_alt_at (alt s : string) : option string :=
  if startswith s alt then
    match lstrip (drop (String.length alt) s) with
    | String d _ => if is_digit d then Some (String d "") else None
    | EmptyString => None
    end
  else None.

(** The alternatives are tried in the order of the pattern. *)
Definition quarter_at (s : string) : option string :=
  match quarter_alt_at "quarter" s with
  | Some d => Some d
  | None =>
      match quarter_alt_at "q" s with
      | Some d => Some d
      | None => quarter_alt_at "kuartal" s
      end
  end.

(** [re.search(r'(?:quarter|q|kuartal)\s*(\d)', s)]. *)
Fixpoint search_quarter (s : string) : option string :=
  match quarter_at s with
  | Some d => Some d
  | None =>
      match s with
      | EmptyString => None
      | String _ s' => search_quarter s'
      end
  end.

(** One attempt of [20\d{2}] at the head of [s]. *)
Definition year_at (s : string) : option string :=
  match s with
  | String a (String b (String c (String d _))) =>
      if (code a =? 50)%N && (code b =? 48)%N && is_digit c && is_digit d
      then Some (String a (String b (String c (String d ""))))
      else None
  | _ => None
  end.

(** [re.search(r'20\d{2}', s)], group 0. *)
Fixpoint search_year (s : string) : option string :=
  match year_at s with
  | Some y => Some y
  | None =>
      match s with
      | EmptyString => None
      | String _ s' => search_year s'
      end
  end.

End Re.

(** ** Values, results and effects *)

(** The values stored in a parameter mapping: strings, integers, [None]. *)
Inductive pyval : Type :=
  | VStr (s : string)
  | VInt (z : Z)
  | VNone.

Definition of_opt_str (o : option string) : pyval :=
  match o with Some s => VStr s | None => VNone end.
Definition of_opt_int (o : option Z) : pyval :=
  match o with Some z => VInt z | None => VNone end.

(** Python truth values of an optional string, an optional integer and a
    list: [None], the empty string, zero and the empty list are false. *)
Definition truthy_str (o : option string) : bool :=
  match o with
  | Some (String _ _) => true
  | _ => false
  end.
Definition truthy_int (o : option Z) : bool :=
  match o with
  | Some z => negb (z =? 0)
  | None => false
  end.
Definition truthy_list {A : Type} (o : option (list A)) : bool :=
  match o with
  | Some (_ :: _) => true
  | _ => false
  end.

(** A decoded JSON document: what [response.json()] gives. The fields of
    an object are its items, in order, each key once. *)
#[warnings="-register-all"] Inductive JValue : Type :=
  | JNull
  | JBool (b : bool)
  | JInt (n : Z)
  | JFloat (x : Q)
  | JString (s : string)
  | JArray (items : list JValue)
  | JObject (fields : list (string * JValue)).

(** [d.get(key)] on the items of a dict. *)
Fixpoint assoc (key : string) (fields : list (string * JValue)) : option JValue :=
  match fields with
  | [] => None
  | (k, v) :: rest => if String.eqb k key then Some v else assoc key rest
  end.

(** [type(v).__name__]. *)
Definition type_name (v : JValue) : string :=
  match v with
  | JNull => "NoneType"
  | JBool _ => "bool"
  | JInt _ => "int"
  | JFloat _ => "float"
  | JString _ => "str"
  | JArray _ => "list"
  | JObject _ => "dict"
  end.

(** A company of the list of the provider: an item of the decoded answer,
    whatever it is. *)
Abbreviation Company := JValue.

(** The string that a company holds under a key, [""] when it holds none:
    what [company.get(key, "")] gives on a record with string fields. *)
Definition dict_get (c : Company) (key : string) : string :=
  match c with
  | JObject fields =>
      match assoc key fields with
      | Some (JString s) => s
      | _ => ""
      end
  | _ => ""
  end.

(** A record whose name and symbol can be read by [find_ticker_by_name]:
    an object in which [company_name] and [symbol] are strings or absent. *)
Definition string_or_absent (v : option JValue) : bool :=
  match v with
  | None | Some (JString _) => true
  | Some _ => false
  end.
Definition readable (c : Company) : bool :=
  match c with
  | JObject fields =>
      string_or_absent (assoc "company_name" fields)
      && string_or_absent (assoc "symbol" fields)
  | _ => false
  end.

(** The conversation turns handed to the core ([langchain_core.messages]). *)
Inductive Message : Type :=
  | HumanMessage (content : string)
  | AIMessage (content : string)
  | SystemMessage (content : string).

Definition msg_content (m : Message) : string :=
  match m with
  | HumanMessage c | AIMessage c | SystemMessage c => c
  end.

(** One entry of a completion request: [{"role": ..., "content": ...}]. *)
Record ChatTurn : Type := { role : string; content : string }.

(** The ten tools imported by [agent_service]. *)
Inductive Tool : Type :=
  | get_stock_info
  | get_top_stocks_by_market_cap
  | get_companies_by_subsector
  | get_companies_by_index
  | search_companies
  | get_subsector_report
  | get_company_segments
  | get_market_news
  | get_idx_market_cap_history
  | get_quarterly_financials.

(** A raised exception, with its message. *)
Inductive PyExn : Type := Exception (msg : string).

(** The outcome of a call: a value or a raised exception. *)
Inductive Res (A : Type) : Type :=
  | Ok (a : A)
  | Raise (e : PyExn).
Arguments Ok {A} a.
Arguments Raise {A} e.

(** The rest of a block runs on the value of a call that returns. *)
Definition and_then {A B : Type} (r : Res A) (k : A → Res B) : Res B :=
  match r with
  | Ok a => k a
  | Raise e => Raise e
  end.

(** The [ValueError] of [int] on more than [int_max_str_digits] digits. *)
Definition ValueError_int_limit (digits : string) : PyExn :=
  Exception ("Exceeds the limit (" +:+ pretty PyStr.int_max_str_digits
             +:+ " digits) for integer string conversion: value has "
             +:+ pretty (String.length digits)
             +:+ " digits; use sys.set_int_max_str_digits() to increase the limit").

(** [int(s)] for a string of decimal digits. *)
Definition int (digits : string) : Res Z :=
  if Z.of_nat (String.length digits) <=? PyStr.int_max_str_digits
  then Ok (PyStr.decimal digits)
  else Raise (ValueError_int_limit digits).

(** The [AttributeError] of a method that the value does not have. *)
Definition AttributeError (v : JValue) (attribute : string) : PyExn :=
  Exception ("'" +:+ type_name v +:+ "' object has no attribute '" +:+ attribute +:+ "'").

(** [v.get(key, default)]: only a dict has the method. *)
Definition get (v : JValue) (key : string) (default_ : JValue) : Res JValue :=
  match v with
  | JObject fields => Ok (default default_ (assoc key fields))
  | _ => Raise (AttributeError v "get")
  end.

(** The receiver of a method of [str]: the string that the value is. *)
Definition str_receiver (v : JValue) (method : string) : Res string :=
  match v with
  | JString s => Ok s
  | _ => Raise (AttributeError v method)
  end.

(** [s[-n:]] on a list, for [n > 0]: the last [n] elements. *)
Definition last_n {A : Type} (n : nat) (l : list A) : list A :=
  skipn (length l - n) l.

(** Comparison of scores. The scores are the rationals that the floats of
    the source denote: [2.0 * matches / length] with small integers,
    [0.85] and [0.7]. *)
Definition Qgtb (a b : Q) : bool := negb (Qle_bool a b).
Definition Qmax (a b : Q) : Q := if Qle_bool a b then b else a.

(** ** The agent service *)

Section Agent.
Import PyStr.

(** The world outside the process: the provider, the completion service
    and the clock. A call to it may change it and may answer differently
    the next time. *)
Variable World : Type.

(** [datetime.now().year]. *)
Variable now_year : World → Z.

(** [difflib.SequenceMatcher(None, a, b).ratio()]. *)
Variable ratio : string → string → Q.

(** The module-level flag set by the import of the tools. *)
Variable SECTORS_AVAILABLE : bool.

(** The two methods of [SectorsAPI] used for the company list, with their
    [n_stock] argument. *)
Record SectorsAPI : Type := {
  api_get_companies : Z → World → Res JValue * World;
  api_get_companies_by_subsector : string → Z → World → Res JValue * World
}.

(** The module-level client: [None] when its construction failed. *)
Variable sectors_api : option SectorsAPI.

(** [tool.invoke(params)] for each imported tool. *)
Variable tool_invoke : Tool → gmap string pyval → World → Res (option string) * World.

(** [get_chat_response(messages)] of the completion service. *)
Variable get_chat_response : list ChatTurn → World → Res string * World.

(** The state of the process: the module-level company cache and the
    world. *)
Record State : Type := {
  COMPANY_CACHE : option (list Company);
  world : World
}.

(** Computations: they read and write the state and return or raise. *)
Definition M (A : Type) : Type := State → Res A * State.

Definition ret {A : Type} (a : A) : M A := fun st => (Ok a, st).

Definition bind {A B : Type} (m : M A) (k : A → M B) : M B :=
  fun st =>
    match m st with
    | (Ok a, st') => k a st'
    | (Raise e, st') => (Raise e, st')
    end.

(** [try: body except Exception as e: handler]. *)
Definition try_except {A : Type} (body : M A) (handler : PyExn → M A) : M A :=
  fun st =>
    match body st with
    | (Ok a, st') => (Ok a, st')
    | (Raise e, st') => handler e st'
    end.

(** A computation that does not touch the state. *)
Definition lift {A : Type} (r : Res A) : M A := fun st => (r, st).

(** A call to the outside world. *)
Definition call {A : Type} (f : World → Res A * World) : M A :=
  fun st =>
    match f (world st) with
    | (r, w') => (r, {| COMPANY_CACHE := COMPANY_CACHE st; world := w' |})
    end.

Definition read_cache : M (option (list Company)) :=
  fun st => (Ok (COMPANY_CACHE st), st).
Definition write_cache (cs : list Company) : M unit :=
  fun st => (Ok tt, {| COMPANY_CACHE := Some cs; world := world st |}).
Definition read_year : M Z :=
  fun st => (Ok (now_year (world st)), st).

Notation "'let*' x ':=' m 'in' k" := (bind m (fun x => k))
  (at level 10, x name, m at level 100, k at level 200).
Notation "'let?' x ':=' r 'in' k" := (and_then r (fun x => k))
  (at level 10, x name, r at level 100, k at level 200).

(** *** Entity cache *)

Definition common_subsectors : list string :=
  [ "banks"; "telecommunication"; "energy"; "consumer-goods";
    "mining"; "property"; "infrastructure"; "finance" ].

(** One turn of the fallback loop: the items of the answer for one
    subsector are appended when the answer is a list; a failure skips the
    subsector. *)
Definition fetch_subsector (api : SectorsAPI) (all_companies : list Company)
    (subsector : string) : M (list Company) :=
  try_except
    (let* companies := call (api_get_companies_by_subsector api subsector 50) in
     match companies with
     | JArray cs => ret (all_companies ++ cs)
     | _ => ret all_companies
     end)
    (fun _ => ret all_companies).

Fixpoint fetch_subsectors (api : SectorsAPI) (subsectors : list string)
    (all_companies : list Company) : M (list Company) :=
  match subsectors with
  | [] => ret all_companies
  | subsector :: rest =>
      let* all_companies' := fetch_subsector api all_companies subsector in
      fetch_subsectors api rest all_companies'
  end.

Definition get_all_companies : M (list Company) :=
  let* cache := read_cache in
  match cache with
  | Some companies => ret companies
  | None =>
      match sectors_api with
      | None => ret []
      | Some api =>
          try_except
            (let* companies := call (api_get_companies api 200) in
             match companies with
             | JArray (c :: cs) =>
                 let* _ := write_cache (c :: cs) in
                 ret (c :: cs)
             | _ =>
                 let* all_companies := fetch_subsectors api common_subsectors [] in
                 let* _ := write_cache all_companies in
                 ret all_companies
             end)
            (fun _ => ret [])
      end
  end.

(** *** Fuzzy lookup of a ticker by company name *)

(** The score of one company for a lowercased candidate: the similarity
    ratio, raised to 0.85 when the candidate occurs in the name. *)
Definition match_score (company_name_lower name : string) : Q :=
  let score := ratio company_name_lower name in
  if contains company_name_lower name then Qmax score (85 # 100) else score.

(** The loop of [find_ticker_by_name] over the companies, with its two
    running variables, then the acceptance test on the best score. An item
    that is no dict has no [get], and a name or a symbol that is no string
    has no [lower]: the exception leaves the loop. *)
Fixpoint find_ticker_loop (company_name_lower : string) (companies : list Company)
    (best_match : option string) (best_score : Q) : Res (option string) :=
  match companies with
  | [] => Ok (if Qgtb best_score (7 # 10) then best_match else None)
  | company :: rest =>
      let? name_value := get company "company_name" (JString "") in
      let? name_str := str_receiver name_value "lower" in
      let name := lower name_str in
      let? ticker_value := get company "symbol" (JString "") in
      let? ticker := str_receiver ticker_value "lower" in
      if String.eqb (lower ticker) company_name_lower then Ok (Some ticker)
      else
        let score := match_score company_name_lower name in
        if Qgtb score best_score
        then find_ticker_loop company_name_lower rest (Some ticker) score
        else find_ticker_loop company_name_lower rest best_match best_score
  end.

Definition find_ticker_by_name (company_name : string) : M (option string) :=
  if String.eqb company_name "" then ret None
  else
    let* companies := get_all_companies in
    match companies with
    | [] => ret None
    | _ => lift (find_ticker_loop (strip (lower company_name)) companies None 0%Q)
    end.

(** *** Ticker extraction *)

(** The alias table, in the order of the source. *)
Definition quick_map : list (string * string) :=
  [ ("bca", "BBCA"); ("bank bca", "BBCA"); ("pt bank central asia", "BBCA");
    ("bri", "BBRI"); ("bank bri", "BBRI"); ("bank rakyat indonesia", "BBRI");
    ("mandiri", "BMRI"); ("bank mandiri", "BMRI");
    ("telkom", "TLKM"); ("telkomsel", "TLKM");
    ("astra", "ASII");
    ("goto", "GOTO"); ("gojek", "GOTO"); ("tokopedia", "GOTO");
    ("bukalapak", "BUKA"); ("buka", "BUKA");
    ("unilever", "UNVR"); ("indofood", "INDF"); ("adaro", "ADRO") ].

(** The first alias contained in the lowercased text. *)
Fixpoint quick_match (items : list (string * string)) (text_lower : string) : option string :=
  match items with
  | [] => None
  | (key, ticker) :: rest =>
      if contains key text_lower then Some ticker else quick_match rest text_lower
  end.

Definition common_words : list string :=
  [ "DARI"; "YANG"; "AKAN"; "INFO"; "DATA"; "HARI"; "SAYA"; "BANK";
    "JUGA"; "ATAU"; "KATA"; "BISA"; "MANA"; "INI" ].

(** [w in ws] for a list of strings. *)
Definition in_list (w : string) (ws : list string) : bool := existsb (String.eqb w) ws.

(** The explicit ticker: the first 4-letter token of the uppercased text,
    unless it is a common word. *)
Definition explicit_ticker (text : string) : option string :=
  match Re.search_ticker (upper text) with
  | Some potential_ticker =>
      if negb (in_list potential_ticker common_words) then Some potential_ticker else None
  | None => None
  end.

(** [words[i:j]]. *)
Definition slice {A : Type} (i j : nat) (l : list A) : list A :=
  firstn (j - i) (skipn i l).

(** The candidate names: the capitalised words longer than 3, then, for
    every [i], the phrases [words[i:j]] for [j] from [i+1] below
    [min(i+4, len(words)+1)] that are longer than 3. *)
Definition potential_names (text : string) : list string :=
  let words := split text in
  let n := length words in
  filter (fun word => (3 <? String.length word)%nat && head_is is_upper word) words
  ++ flat_map (fun i =>
       flat_map (fun j =>
         let phrase := join " " (slice i j words) in
         if (3 <? String.length phrase)%nat then [phrase] else [])
         (seq (i + 1) (Nat.min (i + 4) (n + 1) - (i + 1))))
       (seq 0 n).

(** The loop over the candidates: the first one that resolves to a
    non-empty ticker. *)
Fixpoint first_ticker_by_name (names : list string) : M (option string) :=
  match names with
  | [] => ret None
  | name :: rest =>
      let* ticker := find_ticker_by_name name in
      if truthy_str ticker then ret ticker else first_ticker_by_name rest
  end.

Definition extract_ticker (text : string) : M (option string) :=
  match quick_match quick_map (lower text) with
  | Some ticker => ret (Some ticker)
  | None =>
      match explicit_ticker text with
      | Some potential_ticker => ret (Some potential_ticker)
      | None => first_ticker_by_name (potential_names text)
      end
  end.

(** *** Intent routing *)

Definition top_words : list string :=
  [ "top"; "terbesar"; "tertinggi"; "ranking"; "papan atas" ].
Definition mcap_words : list string :=
  [ "market cap"; "kapitalisasi"; "nilai pasar" ].
Definition entity_words : list string :=
  [ "perusahaan"; "saham"; "emiten" ].
Definition quarter_words : list string :=
  [ "quarter"; "kuartal"; "q1"; "q2"; "q3"; "q4"; "quarterly"; "triwulan" ].
Definition segment_words : list string :=
  [ "segmen"; "segment"; "bisnis"; "breakdown"; "pembagian" ].
Definition news_words : list string :=
  [ "berita"; "news"; "kabar" ].
Definition index_keywords : list string :=
  [ "lq45"; "lq 45"; "idx30"; "idx 30"; "kompas100" ].
Definition subsector_map : list (string * string) :=
  [ ("bank", "banks"); ("banking", "banks"); ("perbankan", "banks");
    ("telekomunikasi", "telecommunication"); ("energi", "energy");
    ("tambang", "mining") ].
Definition report_words : list string :=
  [ "laporan"; "report"; "analisis" ].

(** Rule 1: the count of a ranking request. *)
Definition top_limit (user_input : string) : Res Z :=
  match Re.search_int user_input with
  | Some digits =>
      let? number := int digits in
      Ok (Z.min number 50)
  | None => Ok 5
  end.

(** [int(match.group(...))] when the pattern matched, [None] otherwise. *)
Definition int_of_match (group : option string) : Res (option Z) :=
  match group with
  | Some digits =>
      let? number := int digits in
      Ok (Some number)
  | None => Ok None
  end.

Definition is_top_rule (text_lower : string) : bool :=
  any_in top_words text_lower
  && (any_in mcap_words text_lower || any_in entity_words text_lower).

(** Rule 2, first sub-rule: the quarterly request. [None] when the block
    does not return, so that the next sub-rules are tried. *)
Definition quarterly_rule (ticker : option string) (user_input text_lower : string)
    : M (option (string * gmap string pyval)) :=
  if any_in quarter_words text_lower then
    let* quarter := lift (int_of_match (Re.search_quarter text_lower)) in
    let* year :=
      match Re.search_year user_input with
      | Some digits =>
          let* number := lift (int digits) in
          ret (Some number)
      | None =>
          if truthy_int quarter
          then (let* y := read_year in ret (Some y))
          else ret None
      end in
    if truthy_int quarter || truthy_int year
    then ret (Some ("quarterly_financials",
                    {[ "ticker" := of_opt_str ticker;
                       "quarter" := of_opt_int quarter;
                       "year" := of_opt_int year ]}))
    else ret None
  else ret None.

(** Rule 3, index queries: the first index keyword of the text. *)
Fixpoint index_rule (keywords : list string) (text_lower : string) : option string :=
  match keywords with
  | [] => None
  | keyword :: rest =>
      if contains keyword text_lower
      then Some (upper (remove_spaces keyword))
      else index_rule rest text_lower
  end.

(** Rule 3, subsector queries: the first subsector keyword of the text. *)
Fixpoint subsector_rule (items : list (string * string)) (text_lower : string)
    : option string :=
  match items with
  | [] => None
  | (keyword, subsector) :: rest =>
      if contains keyword text_lower then Some subsector
      else subsector_rule rest text_lower
  end.

(** The rules that apply when no ticker was found. *)
Definition general_rules (text_lower : string) : string * gmap string pyval :=
  if any_in news_words text_lower
  then ("market_news", {[ "query" := VNone; "limit" := VInt 10 ]})
  else
    match index_rule index_keywords text_lower with
    | Some index_name =>
        ("companies_by_index", {[ "index" := VStr index_name; "limit" := VInt 20 ]})
    | None =>
        match subsector_rule subsector_map text_lower with
        | Some subsector =>
            if any_in report_words text_lower
            then ("subsector_report", {[ "subsector" := VStr subsector ]})
            else ("companies_subsector",
                  {[ "subsector" := VStr subsector; "limit" := VInt 20 ]})
        | None => ("unknown", ∅)
        end
    end.

Definition detect_intent_and_route (user_input : string)
    (chat_history : option (list Message)) : M (string * gmap string pyval) :=
  let text_lower := lower user_input in
  let* ticker := extract_ticker user_input in
  if is_top_rule text_lower
  then
    let* number := lift (top_limit user_input) in
    ret ("top_market_cap", {[ "limit" := VInt number ]})
  else if truthy_str ticker then
    let* quarterly := quarterly_rule ticker user_input text_lower in
    match quarterly with
    | Some decision => ret decision
    | None =>
        if any_in segment_words text_lower
        then ret ("company_segments", {[ "ticker" := of_opt_str ticker ]})
        else if any_in news_words text_lower
        then ret ("market_news", {[ "query" := of_opt_str ticker; "limit" := VInt 10 ]})
        else ret ("stock_info", {[ "ticker" := of_opt_str ticker ]})
    end
  else ret (general_rules text_lower).

(** *** Tool execution *)

(** The dispatch of [execute_tool]: the tool of each intent tag. *)
Definition dispatch (intent : string) : option Tool :=
  if String.eqb intent "stock_info" then Some get_stock_info
  else if String.eqb intent "quarterly_financials" then Some get_quarterly_financials
  else if String.eqb intent "company_segments" then Some get_company_segments
  else if String.eqb intent "market_news" then Some get_market_news
  else if String.eqb intent "top_market_cap" then Some get_top_stocks_by_market_cap
  else if String.eqb intent "companies_by_index" then Some get_companies_by_index
  else if String.eqb intent "companies_subsector" then Some get_companies_by_subsector
  else if String.eqb intent "subsector_report" then Some get_subsector_report
  else if String.eqb intent "idx_market_cap_history" then Some get_idx_market_cap_history
  else None.

Definition execute_tool (intent : string) (params : gmap string pyval)
    : M (option string) :=
  try_except
    (match dispatch intent with
     | Some tool =>
         let* result := call (tool_invoke tool params) in
         ret result
     | None => ret None
     end)
    (fun _ => ret None).

(** *** Context resolution *)

Definition nl : string := String "010" "".
Definition dq : string := String "034" "".
Definition lines : list string → string := join nl.

Definition recent_context_line (msg : Message) : list string :=
  match msg with
  | HumanMessage c => [ "User: " +:+ c ]
  | AIMessage c => [ "Assistant: " +:+ take 200 c +:+ "..." ]
  | SystemMessage _ => []
  end.

Definition resolution_prompt (context_str user_input : string) : string :=
  lines
    [ "You are a context resolver. Given a conversation history and a new user query, your job is to rewrite the query to include all necessary context.";
      "";
      "CONVERSATION HISTORY:";
      context_str;
      "";
      "NEW USER QUERY: " +:+ dq +:+ user_input +:+ dq;
      "";
      "TASK:";
      "If the user query refers to something from previous messages (like " +:+ dq +:+ "saham ini" +:+ dq +:+ ", " +:+ dq +:+ "perusahaan tersebut" +:+ dq +:+ ", " +:+ dq +:+ "data quarter" +:+ dq +:+ ", etc.), rewrite the query to include the full context (ticker symbol, company name, etc.).";
      "";
      "If the query is already complete and clear, return it as-is.";
      "";
      "OUTPUT FORMAT:";
      "Return ONLY the resolved query text, nothing else. No explanation, no markdown.";
      "";
      "RESOLVED QUERY:" ].

Definition resolve_query_with_context (user_input : string)
    (chat_history : option (list Message)) : M string :=
  match chat_history with
  | Some (m1 :: m2 :: more) =>
      let history := m1 :: m2 :: more in
      let recent_context := flat_map recent_context_line (last_n 5 history) in
      let context_str := lines recent_context in
      try_except
        (let messages :=
           [ {| role := "system";
                content := "You are a context resolver. Return only the resolved query, no explanation." |};
             {| role := "user"; content := resolution_prompt context_str user_input |} ] in
         let* reply := call (get_chat_response messages) in
         ret (strip reply))
        (fun _ => ret user_input)
  | _ => ret user_input
  end.

(** *** Orchestration *)

Definition system_prompt (user_input resolved_query tool_result rag_context : string)
    : string :=
  lines
    [ "You are Collega AI Assistant, a helpful financial chatbot specializing in Indonesian stock market.";
      "";
      "ORIGINAL USER QUESTION: " +:+ dq +:+ user_input +:+ dq;
      "(Note: This may have been resolved from context to: " +:+ dq +:+ resolved_query +:+ dq +:+ ")";
      "";
      "RAW DATA FROM FINANCIAL DATABASE:";
      tool_result;
      "";
      "INSTRUCTIONS:";
      "1. Answer the ORIGINAL question naturally, as if continuing the conversation";
      "2. Extract relevant information from the raw data above";
      "3. Present in Bahasa Indonesia with proper formatting";
      "4. If the user said " +:+ dq +:+ "saham ini" +:+ dq +:+ " or similar pronouns, use them naturally in your response";
      "5. Format numbers with thousand separators (Rp)";
      "6. Highlight key metrics that answer the question";
      "7. Keep response concise but informative";
      "";
      "Now, provide a natural conversational response:" ]
  +:+ (match rag_context with
       | EmptyString => ""
       | _ =>
           lines
             [ ""; "";
               "ADDITIONAL CONTEXT FROM UPLOADED DOCUMENTS:";
               rag_context;
               "" ]
       end).

Definition history_turn (msg : Message) : list ChatTurn :=
  match msg with
  | HumanMessage c => [ {| role := "user"; content := c |} ]
  | AIMessage c => [ {| role := "assistant"; content := c |} ]
  | SystemMessage _ => []
  end.

Definition error_marker : string := "❌".

Definition run_agent (user_input : string) (chat_history : option (list Message))
    (rag_context : string) : M (option string) :=
  try_except
    (let* resolved_query := resolve_query_with_context user_input chat_history in
     let* decision := detect_intent_and_route resolved_query chat_history in
     let '(intent, params) := decision in
     if negb (String.eqb intent "unknown") then
       let* tool_result := execute_tool intent params in
       match tool_result with
       | Some (String c r) =>
           let tool_result := String c r in
           if negb (startswith tool_result error_marker) then
             let messages :=
               [ {| role := "system";
                    content := system_prompt user_input resolved_query tool_result rag_context |} ]
               ++ (if truthy_list chat_history
                   then flat_map history_turn (last_n 5 (default [] chat_history))
                   else [])
               ++ [ {| role := "user"; content := user_input |} ] in
             let* response := call (get_chat_response messages) in
             ret (Some response)
           else ret None
       | _ => ret None
       end
     else ret None)
    (fun _ => ret None).

(** *** Financial-query classification *)

Definition specific_financial_terms : list string :=
  [ "saham"; "stock"; "emiten"; "ticker"; "ihsg"; "idx"; "bursa";
    "per"; "pbv"; "roe"; "roa"; "market cap"; "kapitalisasi";
    "gainer"; "loser"; "volume"; "transaksi";
    "bbca"; "bbri"; "bmri"; "tlkm"; "asii"; "unvr"; "goto"; "buka";
    "adro"; "indf"; "icbp"; "klbf"; "eraa"; "antm"; "ptba";
    "bank bca"; "bank bri"; "bank mandiri"; "bank rakyat";
    "lq45"; "lq 45"; "idx30"; "kompas100";
    "perbankan"; "telekomunikasi"; "tambang"; "properti"; "energi";
    "berita saham"; "info saham"; "harga saham";
    "finansial"; "financial"; "laporan"; "quarter"; "kuartal" ].

(** The scan of the recent turns, most recent first, for a ticker. *)
Fixpoint context_ticker_scan (msgs : list Message) : M (option string) :=
  match msgs with
  | [] => ret None
  | SystemMessage _ :: rest => context_ticker_scan rest
  | msg :: rest =>
      let* potential_ticker := extract_ticker (msg_content msg) in
      if truthy_str potential_ticker then ret potential_ticker
      else context_ticker_scan rest
  end.

Definition is_financial_query (user_input : string)
    (chat_history : option (list Message)) : M bool :=
  if negb SECTORS_AVAILABLE then ret false
  else
    let text_lower := lower user_input in
    let has_financial_term := any_in specific_financial_terms text_lower in
    let* ticker := extract_ticker user_input in
    let* context_ticker :=
      if negb (truthy_str ticker) && truthy_list chat_history
      then context_ticker_scan (rev (last_n 5 (default [] chat_history)))
      else ret None in
    let* decision := detect_intent_and_route user_input chat_history in
    let '(intent, _) := decision in
    ret (has_financial_term || bool_decide (is_Some ticker)
         || bool_decide (is_Some context_ticker)
         || negb (String.eqb intent "unknown")).

End Agent.

(** ** The similarity ratio of difflib

    [SequenceMatcher(None, a, b).ratio()] as the router calls it: no junk
    predicate, [autojunk] left to its default. It instantiates the variable
    [ratio] wherever a statement is evaluated on concrete data. *)

Module Difflib.

Definition nth_char (l : list ascii) (i : nat) : ascii := nth i l "000"%char.
Definition same (x y : ascii) : bool := if ascii_dec x y then true else false.

(** The characters that [__chain_b] removes from the index of [b] as
    popular: only when [b] has 200 characters or more, those that occur
    more than [len(b) // 100 + 1] times. *)
Definition popular (b : list ascii) (c : ascii) : bool :=
  let n := length b in
  (200 <=? n)%nat && (n / 100 + 1 <? length (filter (fun x => same x c) b))%nat.

(** One turn of the outer loop of [find_longest_match]: the new [j2len]
    for the character [ai], from the one of the turn before. Both are
    lists indexed by [j], with 0 where the dict has no entry. [before] is
    the entry at [j - 1]. *)
Fixpoint next_j2len (b : list ascii) (blo bhi : nat) (ai : ascii)
    (bs : list ascii) (j : nat) (before : nat) (j2len : list nat) : list nat :=
  match bs with
  | [] => []
  | bj :: bs' =>
      let k :=
        if same bj ai && negb (popular b bj) && (blo <=? j)%nat && (j <? bhi)%nat
        then S before else 0%nat in
      k :: next_j2len b blo bhi ai bs' (S j) (hd 0%nat j2len) (tl j2len)
  end.

(** The inner loop: the best block so far, replaced by a strictly longer
    one, [j] ascending. *)
Fixpoint scan_row (i j : nat) (row : list nat) (best : nat * nat * nat) : nat * nat * nat :=
  match row with
  | [] => best
  | k :: row' =>
      let '(_, _, bestsize) := best in
      scan_row i (S j) row'
        (if (bestsize <? k)%nat then ((i + 1 - k)%nat, (j + 1 - k)%nat, k) else best)
  end.

Fixpoint outer (a b : list ascii) (blo bhi : nat) (i : nat) (steps : nat)
    (j2len : list nat) (best : nat * nat * nat) : nat * nat * nat :=
  match steps with
  | O => best
  | S steps' =>
      let row := next_j2len b blo bhi (nth_char a i) b 0 0 j2len in
      outer a b blo bhi (S i) steps' row (scan_row i 0 row best)
  end.

(** The two extension loops over the characters that are not junk. *)
Fixpoint extend_left (a b : list ascii) (alo blo : nat) (fuel : nat)
    (best : nat * nat * nat) : nat * nat * nat :=
  match fuel with
  | O => best
  | S fuel' =>
      let '(besti, bestj, bestsize) := best in
      if (alo <? besti)%nat && (blo <? bestj)%nat
         && same (nth_char a (besti - 1)) (nth_char b (bestj - 1))
      then extend_left a b alo blo fuel' ((besti - 1)%nat, (bestj - 1)%nat, S bestsize)
      else best
  end.

Fixpoint extend_right (a b : list ascii) (ahi bhi : nat) (fuel : nat)
    (best : nat * nat * nat) : nat * nat * nat :=
  match fuel with
  | O => best
  | S fuel' =>
      let '(besti, bestj, bestsize) := best in
      if (besti + bestsize <? ahi)%nat && (bestj + bestsize <? bhi)%nat
         && same (nth_char a (besti + bestsize)) (nth_char b (bestj + bestsize))
      then extend_right a b ahi bhi fuel' (besti, bestj, S bestsize)
      else best
  end.

Definition find_longest_match (a b : list ascii) (alo ahi blo bhi : nat)
    : nat * nat * nat :=
  let best := outer a b blo bhi alo (ahi - alo) (repeat 0%nat (length b)) (alo, blo, 0%nat) in
  let best := extend_left a b alo blo (length a) best in
  extend_right a b ahi bhi (length a) best.

(** The sum of the sizes of [get_matching_blocks]: the longest block of
    the range, then the ranges on its left and on its right. *)
Fixpoint matches (a b : list ascii) (fuel : nat) (alo ahi blo bhi : nat) : nat :=
  match fuel with
  | O => 0
  | S fuel' =>
      let '(i, j, k) := find_longest_match a b alo ahi blo bhi in
      if (k =? 0)%nat then 0%nat
      else
        (k
         + (if (alo <? i)%nat && (blo <? j)%nat
            then matches a b fuel' alo i blo j else 0)
         + (if (i + k <? ahi)%nat && (j + k <? bhi)%nat
            then matches a b fuel' (i + k) ahi (j + k) bhi else 0))%nat
  end.

(** [2.0 * matches / length], and [1.0] for two empty strings. *)
Definition ratio (sa sb : string) : Q :=
  let a := list_ascii_of_string sa in
  let b := list_ascii_of_string sb in
  let la := length a in
  let lb := length b in
  match (la + lb)%nat with
  | O => 1%Q
  | S n => Qmake (2 * Z.of_nat (matches a b (S la) 0 la 0 lb)) (Pos.of_succ_nat n)
  end.

End Difflib.

(** ** A concrete world

    The world on which statements are evaluated: the clock shows the year
    held by the world, the provider client was not constructed (so every
    tool answers with its "not configured" error marker and the company
    list is whatever the cache already holds), and the completion service
    echoes the last turn of the request. *)

Module Sample.

Definition World : Type := Z.
Definition now_year (w : World) : Z := w.

Definition sectors_api : option (SectorsAPI World) := None.

Definition tool_invoke (t : Tool) (params : gmap string pyval) (w : World)
    : Res (option string) * World :=
  (Ok (Some "❌ Sectors API not configured."), w).

Definition get_chat_response (messages : list ChatTurn) (w : World)
    : Res string * World :=
  (Ok (content (List.last messages {| role := ""; content := "" |})), w).

Definition bca : Company :=
  JObject [ ("symbol", JString "BBCA"); ("company_name", JString "PT Bank Central Asia") ].
Definition bri : Company :=
  JObject [ ("symbol", JString "BBRI");
            ("company_name", JString "PT Bank Rakyat Indonesia") ].


(** The state with the given cache in the given year. *)
Definition state (cache : option (list Company)) (year : Z) : State World :=
  {| COMPANY_CACHE := cache; world := year |}.

Definition extract_ticker : string → M World (option string) :=
  extract_ticker World Difflib.ratio sectors_api.
Definition detect_intent_and_route
    : string → option (list Message) → M World (string * gmap string pyval) :=
  detect_intent_and_route World now_year Difflib.ratio sectors_api.
Definition execute_tool : string → gmap string pyval → M World (option string) :=
  execute_tool World tool_invoke.
Definition run_agent : string → option (list Message) → string → M World (option string) :=
  run_agent World now_year Difflib.ratio sectors_api tool_invoke get_chat_response.
Definition is_financial_query : string → option (list Message) → M World bool :=
  is_financial_query World now_year Difflib.ratio true sectors_api.

End Sample.

(** ** The signatures of the tools

    The arguments of each tool of [services/sectors_tools.py], as its [def]
    line declares them: name, type, and whether it has no default. *)

Inductive ArgType : Type := TStr | TInt | TOptStr | TOptInt.

Record Arg : Type := { arg_name : string; arg_type : ArgType; arg_required : bool }.

Definition tool_signature (tool : Tool) : list Arg :=
  match tool with
  | get_stock_info =>
      [ {| arg_name := "ticker"; arg_type := TStr; arg_required := true |} ]
  | get_top_stocks_by_market_cap =>
      [ {| arg_name := "limit"; arg_type := TInt; arg_required := false |};
        {| arg_name := "sector"; arg_type := TOptStr; arg_required := false |} ]
  | get_companies_by_subsector =>
      [ {| arg_name := "subsector"; arg_type := TStr; arg_required := true |};
        {| arg_name := "limit"; arg_type := TInt; arg_required := false |} ]
  | get_companies_by_index =>
      [ {| arg_name := "index"; arg_type := TStr; arg_required := true |};
        {| arg_name := "limit"; arg_type := TInt; arg_required := false |} ]
  | search_companies =>
      [ {| arg_name := "sub_sector"; arg_type := TStr; arg_required := false |};
        {| arg_name := "min_mcap_billion"; arg_type := TInt; arg_required := false |};
        {| arg_name := "limit"; arg_type := TInt; arg_required := false |} ]
  | get_subsector_report =>
      [ {| arg_name := "subsector"; arg_type := TStr; arg_required := true |} ]
  | get_company_segments =>
      [ {| arg_name := "ticker"; arg_type := TStr; arg_required := true |} ]
  | get_market_news =>
      [ {| arg_name := "query"; arg_type := TOptStr; arg_required := false |};
        {| arg_name := "limit"; arg_type := TInt; arg_required := false |} ]
  | get_idx_market_cap_history =>
      [ {| arg_name := "start_date"; arg_type := TStr; arg_required := true |};
        {| arg_name := "end_date"; arg_type := TStr; arg_required := true |} ]
  | get_quarterly_financials =>
      [ {| arg_name := "ticker"; arg_type := TStr; arg_required := true |};
        {| arg_name := "quarter"; arg_type := TOptInt; arg_required := false |};
        {| arg_name := "year"; arg_type := TOptInt; arg_required := false |} ]
  end.

(** A value is of the declared type of an argument. *)
Definition has_type (ty : ArgType) (v : pyval) : bool :=
  match ty, v with
  | TStr, VStr _ | TInt, VInt _ => true
  | TOptStr, (VStr _ | VNone) | TOptInt, (VInt _ | VNone) => true
  | _, _ => false
  end.

(** A parameter mapping fits a signature: each of its keys is an argument,
    with a value of the declared type, and no required argument is
    missing. *)
Definition accepts (signature : list Arg) (params : gmap string pyval) : bool :=
  forallb
    (fun entry : string * pyval =>
       existsb (fun a => String.eqb (arg_name a) (fst entry)
                         && has_type (arg_type a) (snd entry)) signature)
    (map_to_list params)
  && forallb
       (fun a => negb (arg_required a) || bool_decide (is_Some (params !! arg_name a)))
       signature.

(** ** The provider client and the tools

    [services/sectors_service.py] and [services/sectors_tools.py]. The
    provider is reached through [requests.get], of which the world gives
    the outcome. *)

(** Python truth value of a document. *)
Definition truthy (v : JValue) : bool :=
  match v with
  | JNull => false
  | JBool b => b
  | JInt n => negb (n =? 0)
  | JFloat x => negb (Qeq_bool x 0)
  | JString s => negb (String.eqb s "")
  | JArray items => match items with [] => false | _ => true end
  | JObject fields => match fields with [] => false | _ => true end
  end.

(** The query parameters of a request, in order. *)
Definition Params : Type := list (string * pyval).

(** The outcome of [requests.get(url, headers=..., params=..., timeout=10)]:
    a response, with its status code, its text and what [response.json()]
    gives, or an exception. [HTTPError] is a class of its own in
    [_make_request], and so is [Timeout]. *)
Inductive HttpResult : Type :=
  | Responded (status_code : Z) (text : string) (json : Res JValue)
  | RaisedTimeout
  | RaisedHTTPError
  | RaisedOther (e : PyExn).

(** A [SectorsAPI] object. *)
Record Client : Type := { api_key : string }.

(** What the interpreter raises inside the code of the tools; the text of
    each exception is left to the world. *)
Inductive Fault : Type :=
  | UnboundResponse
  | NotIterable (v : JValue)
  | NotSubscriptable (v : JValue)
  | NoLen (v : JValue)
  | NoAttribute (v : JValue) (attribute : string)
  | UnexpectedKeyword (function keyword : string)
  | InvalidInput (tool : Tool).

Definition message (e : PyExn) : string :=
  match e with Exception msg => msg end.

(** [s.title()]: the first letter of every run of letters in upper case,
    the others in lower case. *)
Fixpoint title_go (previous_is_cased : bool) (s : string) : string :=
  match s with
  | EmptyString => EmptyString
  | String c s' =>
      if PyStr.is_lower c
      then String (if previous_is_cased then c else PyStr.upper_char c) (title_go true s')
      else if PyStr.is_upper c
      then String (if previous_is_cased then PyStr.lower_char c else c) (title_go true s')
      else String c (title_go false s')
  end.
Definition title : string → string := title_go false.

(** [s.replace(old, new)] for a non-empty [old]: [skip] characters of a
    match are still to be dropped. *)
Fixpoint replace_go (old new : string) (skip : nat) (s : string) : string :=
  match s with
  | EmptyString => EmptyString
  | String c s' =>
      match skip with
      | S k => replace_go old new k s'
      | O =>
          if PyStr.startswith s old
          then new +:+ replace_go old new (String.length old - 1) s'
          else String c (replace_go old new 0 s')
      end
  end.
Definition replace (old new s : string) : string := replace_go old new 0 s.

(** [items[:limit]], where a negative [limit] counts from the end. *)
Definition upto {A : Type} (limit : Z) (items : list A) : list A :=
  if 0 <=? limit then take (Z.to_nat limit) items
  else take (length items - Z.to_nat (- limit)) items.

(** [max(1, min(limit, top))]. *)
Definition clamp (top limit : Z) : Z := Z.max 1 (Z.min limit top).

(** [isinstance(data, dict) and "error" in data], with [data['error']]. *)
Definition error_of (data : JValue) : option JValue :=
  match data with
  | JObject fields => assoc "error" fields
  | _ => None
  end.

Section Provider.
Import PyStr.

Variable World : Type.

(** The year of [datetime.now()]. *)
Variable now_year : World → Z.

(** [requests.get] on a URL, with the [Authorization] header and the
    query parameters. *)
Variable requests_get : string → string → option Params → World → HttpResult * World.

(** [json.dumps(v, indent=2, ensure_ascii=False)] on a decoded document. *)
Variable json_dumps : JValue → string.

(** [str(v)] for a document that is not a string. *)
Variable repr : JValue → string.

(** [str(e)] for an exception of the interpreter. *)
Variable error_text : Fault → string.

(** [traceback.format_exc()] in a handler. *)
Variable format_exc : PyExn → string.

(** The parts of three tools that are not modelled: the report of
    [get_company_segments] and of [get_idx_market_cap_history] once the
    answer is known not to be an error, and the filtered report of
    [get_quarterly_financials] on a list. *)
Variable segments_report : string → JValue → Res string.
Variable idx_report : string → string → list JValue → Res string.
Variable quarterly_filtered_report
  : string → option Z → option Z → list JValue → Res string.

(** [sectors_client] of [sectors_tools]: [None] without an API key. *)
Variable sectors_client : option Client.

(** Computations on the world that return or raise. *)
Definition IO (A : Type) : Type := World → Res A * World.

Definition io_ret {A : Type} (a : A) : IO A := fun w => (Ok a, w).

Definition io_bind {A B : Type} (m : IO A) (k : A → IO B) : IO B :=
  fun w =>
    match m w with
    | (Ok a, w') => k a w'
    | (Raise e, w') => (Raise e, w')
    end.

Definition io_lift {A : Type} (r : Res A) : IO A := fun w => (r, w).

Definition fault {A : Type} (f : Fault) : Res A := Raise (Exception (error_text f)).

Notation "'let!' x ':=' m 'in' k" := (io_bind m (fun x => k))
  (at level 10, x name, m at level 100, k at level 200).

(** [str(v)], as an f-string renders a value. *)
Definition str (v : JValue) : string :=
  match v with
  | JString s => s
  | _ => repr v
  end.

(** *** The requests

    The methods of [SectorsAPI] carry the prefix [client_], the tools of
    [sectors_tools] the prefix [tool_]: their names are those of the
    constructors of [Tool]. *)

Definition BASE_URL : string := "https://api.sectors.app/v1".

Definition error_dict (text : string) : JValue := JObject [ ("error", JString text) ].

(** [raise_for_status] raises [HTTPError] on the codes 400 to 599. *)
Definition is_http_error (status_code : Z) : bool :=
  (400 <=? status_code) && (status_code <? 600).

(** [SectorsAPI._make_request]. When [requests.get] itself raises
    [HTTPError], the handler reads [response] before it is bound, and that
    exception leaves the method. *)
Definition make_request (self : Client) (endpoint : string) (params : option Params)
    : IO JValue :=
  fun w =>
    let url := BASE_URL +:+ "/" +:+ endpoint in
    match requests_get url (strip (api_key self)) params w with
    | (Responded status_code text json, w') =>
        if is_http_error status_code then
          if status_code =? 429
          then (Ok (error_dict "Rate limit exceeded. Tunggu beberapa saat."), w')
          else if status_code =? 400
          then (Ok (error_dict ("Bad request: " +:+ text)), w')
          else if status_code =? 404
          then (Ok (error_dict ("Endpoint not found: " +:+ endpoint)), w')
          else (Ok (error_dict ("HTTP Error " +:+ pretty status_code +:+ ": " +:+ text)), w')
        else
          match json with
          | Ok data => (Ok data, w')
          | Raise e => (Ok (error_dict ("Request failed: " +:+ message e)), w')
          end
    | (RaisedTimeout, w') => (Ok (error_dict "Request timeout. API tidak merespons."), w')
    | (RaisedHTTPError, w') => (fault UnboundResponse, w')
    | (RaisedOther e, w') => (Ok (error_dict ("Request failed: " +:+ message e)), w')
    end.

Definition client_get_companies (self : Client) (sections : string) (n_stock : Z) : IO JValue :=
  make_request self "companies/"
    (Some [ ("sections", VStr sections); ("n_stock", VInt n_stock) ]).

(** [str(include_none).lower()]. *)
Definition bool_text (b : bool) : string := if b then "true" else "false".

Definition client_get_companies_top (self : Client) (n_stock : Z) (classifications : string)
    (year : option Z) (min_mcap_billion : Z) (logic : string) (include_none : bool)
    : IO JValue :=
  let params :=
    [ ("n_stock", VInt n_stock);
      ("classifications", VStr classifications);
      ("year", of_opt_int year);
      ("min_mcap_billion", VInt min_mcap_billion);
      ("logic", VStr logic);
      ("include_none", VStr (bool_text include_none)) ] in
  make_request self "companies/top/"
    (Some (List.filter (fun kv => match snd kv with VNone => false | _ => true end) params)).

Definition client_get_companies_by_index (self : Client) (index sections : string) (n_stock : Z)
    : IO JValue :=
  make_request self ("index/" +:+ index +:+ "/")
    (Some [ ("sections", VStr sections); ("n_stock", VInt n_stock) ]).

Definition client_get_companies_by_subsector (self : Client) (subsector sections : string)
    (n_stock : Z) : IO JValue :=
  make_request self "companies/"
    (Some [ ("sections", VStr sections); ("n_stock", VInt n_stock);
            ("sub_sector", VStr subsector) ]).

(** [ticker.upper().replace(".JK", "")]. *)
Definition plain_ticker (ticker : string) : string := replace ".JK" "" (upper ticker).

Definition client_get_company_overview (self : Client) (ticker sections : string) : IO JValue :=
  let ticker := plain_ticker ticker in
  let params :=
    if String.eqb sections "" then [] else [ ("sections", VStr sections) ] in
  make_request self ("company/report/" +:+ ticker +:+ "/") (Some params).

Definition client_get_company_segments (self : Client) (ticker : string) : IO JValue :=
  let ticker := plain_ticker ticker in
  make_request self ("company/get-segments/" +:+ ticker +:+ "/") None.

Definition client_get_subsector_report (self : Client) (subsector sections : string)
    : IO JValue :=
  let params :=
    if String.eqb sections "" then [] else [ ("sections", VStr sections) ] in
  make_request self ("subsector/report/" +:+ subsector +:+ "/") (Some params).

Definition client_get_idx_total (self : Client) (start end_ : option string) : IO JValue :=
  let params :=
    (if truthy_str start then [ ("start", of_opt_str start) ] else [])
    ++ (if truthy_str end_ then [ ("end", of_opt_str end_) ] else []) in
  make_request self "idx-total/"
    (match params with [] => None | _ => Some params end).

Definition client_get_news (self : Client) (query sources from_date : option string)
    (order : string) : IO JValue :=
  let params :=
    [ ("order", VStr order) ]
    ++ (if truthy_str query then [ ("query", of_opt_str query) ] else [])
    ++ (if truthy_str sources then [ ("sources", of_opt_str sources) ] else [])
    ++ (if truthy_str from_date then [ ("from", of_opt_str from_date) ] else []) in
  make_request self "news/" (Some params).

Definition client_get_quarterly_financials (self : Client) (ticker : string) (n_quarters : Z)
    : IO JValue :=
  let ticker := plain_ticker ticker in
  make_request self ("financials/quarterly/" +:+ ticker +:+ "/")
    (Some [ ("n_quarters", VInt n_quarters) ]).

(** The client as the agent service uses it for the company list: the
    two requests, with the default of [sections]. *)
Definition sectors_api_of (self : Client) : SectorsAPI World :=
  {| api_get_companies := fun n_stock => client_get_companies self "all" n_stock;
     api_get_companies_by_subsector :=
       fun subsector n_stock =>
         client_get_companies_by_subsector self subsector "all" n_stock |}.

(** *** The formatters *)

(** [len(data)]. *)
Definition len (data : JValue) : Res nat :=
  match data with
  | JString s => Ok (String.length s)
  | JArray items => Ok (length items)
  | JObject fields => Ok (length fields)
  | _ => fault (NoLen data)
  end.

(** [data[:n]]. *)
Definition first_n (n : nat) (data : JValue) : Res JValue :=
  match data with
  | JString s => Ok (JString (PyStr.take n s))
  | JArray items => Ok (JArray (firstn n items))
  | _ => fault (NotSubscriptable data)
  end.

(** The body shared by [format_companies_list] and [format_news]: the
    error of the provider, the text for no data, or the heading with the
    two counts, the first [shown] items and the note; a failure on the way
    is reported in the text. *)
Definition format_listing (data : JValue) (empty_text : string) (shown : nat)
    (heading : nat → nat → string) (note : string) : string :=
  match error_of data with
  | Some text => "❌ Error: " +:+ str text
  | None =>
      if negb (truthy data) then empty_text
      else
        match len data with
        | Raise e => "❌ Error formatting data: " +:+ message e
        | Ok total =>
            match (if (shown <? total)%nat then first_n shown data else Ok data) with
            | Raise e => "❌ Error formatting data: " +:+ message e
            | Ok limited_data =>
                match len limited_data with
                | Raise e => "❌ Error formatting data: " +:+ message e
                | Ok showing =>
                    strip (lines [ ""; heading total showing; "";
                                   json_dumps limited_data; ""; note; "" ])
                end
            end
        end
  end.

Definition format_companies_list (data : JValue) (title : string) : string :=
  format_listing data "Tidak ada data perusahaan ditemukan." 20
    (fun total showing =>
       upper title +:+ " (Total: " +:+ pretty total +:+ " companies, showing "
       +:+ pretty showing +:+ "):")
    "CATATAN: Silakan present data ini dalam format yang user-friendly.".

Definition format_news (data : JValue) : string :=
  format_listing data "Tidak ada berita ditemukan." 10
    (fun total showing =>
       "BERITA TERKINI (Total: " +:+ pretty total +:+ " articles, showing "
       +:+ pretty showing +:+ "):")
    "CATATAN: Silakan summarize berita-berita ini dalam format yang mudah dibaca.".

(** ["error" in data], for any document. *)
Definition has_error (data : JValue) : Res bool :=
  match data with
  | JObject fields => Ok (bool_decide (is_Some (assoc "error" fields)))
  | JArray items =>
      Ok (existsb (fun v => match v with JString s => String.eqb s "error" | _ => false end)
            items)
  | JString s => Ok (contains "error" s)
  | _ => fault (NotIterable data)
  end.

Definition format_company_overview (data : JValue) : Res string :=
  match has_error data with
  | Raise e => Raise e
  | Ok true =>
      match data with
      | JObject fields => Ok ("❌ Error: " +:+ str (default JNull (assoc "error" fields)))
      | _ => fault (NotSubscriptable data)
      end
  | Ok false =>
      match data with
      | JObject _ =>
          Ok (strip (lines
                [ ""; "DATA SAHAM (Raw API Response):"; ""; json_dumps data; "";
                  "CATATAN: Data di atas adalah response langsung dari API Sectors.app.";
                  "Silakan extract dan present informasi yang relevan sesuai pertanyaan user.";
                  "" ]))
      | _ =>
          Ok ("❌ Error formatting data: " +:+ error_text (NoAttribute data "keys")
              +:+ nl +:+ nl +:+ "Raw response: " +:+ PyStr.take 1000 (str data))
      end
  end.

(** *** The tools *)

Definition not_configured : string := "❌ Sectors API not configured.".

(** The frame of every tool: the constant text without a client, else the
    body, of which an exception is turned into a text. *)
Definition guarded (on_error : PyExn → string) (body : Client → IO string)
    : World → string * World :=
  fun w =>
    match sectors_client with
    | None => (not_configured, w)
    | Some client =>
        match body client w with
        | (Ok result, w') => (result, w')
        | (Raise e, w') => (on_error e, w')
        end
    end.

Definition tool_get_stock_info (ticker : string) : World → string * World :=
  guarded (fun e => "❌ Error fetching stock info: " +:+ message e)
    (fun client =>
       let! data := client_get_company_overview client (upper ticker) "overview" in
       io_lift (format_company_overview data)).

(** [data if isinstance(data, list) else data.get('data', [])]. *)
Definition data_of (data : JValue) : Res JValue :=
  match data with
  | JArray _ => Ok data
  | JObject fields => Ok (default (JArray []) (assoc "data" fields))
  | _ => fault (NoAttribute data "get")
  end.

Definition tool_get_top_stocks_by_market_cap (limit : Z) (sector : option string)
    : World → string * World :=
  guarded (fun e => "❌ Error fetching top stocks: " +:+ message e)
    (fun client =>
       let limit := clamp 50 limit in
       let! data := client_get_companies_top client limit "all" None 1 "and" false in
       let! listed := io_lift (data_of data) in
       io_ret (format_companies_list listed "Top Companies by Market Cap")).

Definition tool_get_companies_by_subsector (subsector : string) (limit : Z)
    : World → string * World :=
  guarded (fun e => "❌ Error fetching companies: " +:+ message e)
    (fun client =>
       let limit := clamp 200 limit in
       let! data := client_get_companies_by_subsector client (lower subsector) "all" limit in
       io_ret (format_companies_list data
                 ("Companies in " +:+ title subsector +:+ " subsector"))).

Definition tool_get_companies_by_index (index : string) (limit : Z)
    : World → string * World :=
  guarded (fun e => "❌ Error fetching index data: " +:+ message e)
    (fun client =>
       let limit := clamp 200 limit in
       let! data := client_get_companies_by_index client (upper index) "all" limit in
       io_ret (format_companies_list data
                 ("Companies in " +:+ upper index +:+ " index"))).

(** The binding of the keywords of a call to the parameters of the
    function: a keyword that is no parameter raises. *)
Definition bind_keywords (function : string) (parameters keywords : list string)
    : Res unit :=
  match List.filter (fun k => negb (in_list k parameters)) keywords with
  | [] => Ok tt
  | keyword :: _ => fault (UnexpectedKeyword function keyword)
  end.

(** [search_companies] calls [get_companies] with the keywords
    [sub_sector], [min_mcap_billion] and [n_stock]; the method has the
    parameters [sections] and [n_stock]. *)
Definition tool_search_companies (sub_sector : string) (min_mcap_billion limit : Z)
    : World → string * World :=
  guarded (fun e => "❌ Error searching companies: " +:+ message e)
    (fun client =>
       let limit := clamp 200 limit in
       let! _ := io_lift (bind_keywords "get_companies" [ "sections"; "n_stock" ]
                            [ "sub_sector"; "min_mcap_billion"; "n_stock" ]) in
       let! data := client_get_companies client "all" limit in
       io_ret (format_companies_list data "Search Results")).

(** The lines of the report of a subsector: one for each item of the
    answer but [error] and [companies]. *)
Definition report_line (item : string * JValue) : string :=
  let '(key, value) := item in
  if in_list key [ "error"; "companies" ] then ""
  else "**" +:+ title (replace "_" " " key) +:+ ":** " +:+ str value +:+ nl.

Definition tool_get_subsector_report (subsector : string) : World → string * World :=
  guarded (fun e => "❌ Error fetching subsector report: " +:+ message e)
    (fun client =>
       let! data := client_get_subsector_report client (lower subsector) "all" in
       match error_of data with
       | Some text => io_ret ("❌ Error: " +:+ str text)
       | None =>
           let result := "📊 **Subsector Report: " +:+ title subsector +:+ "**" +:+ nl +:+ nl in
           let result :=
             match data with
             | JObject fields => result +:+ String.concat "" (List.map report_line fields)
             | _ => result
             end in
           io_ret (strip result)
       end).

Definition tool_get_company_segments (ticker : string) : World → string * World :=
  guarded (fun e => "❌ Error fetching segments: " +:+ message e)
    (fun client =>
       let ticker := plain_ticker ticker in
       let! data := client_get_company_segments client ticker in
       match error_of data with
       | Some text => io_ret ("❌ Error: " +:+ str text)
       | None => io_lift (segments_report ticker data)
       end).

Definition tool_get_market_news (query : option string) (limit : Z)
    : World → string * World :=
  guarded (fun e => "❌ Error fetching news: " +:+ message e)
    (fun client =>
       let! data := client_get_news client query None None "desc" in
       let data :=
         match data with
         | JArray items => JArray (upto limit items)
         | _ => data
         end in
       io_ret (format_news data)).

Definition tool_get_idx_market_cap_history (start_date end_date : string)
    : World → string * World :=
  guarded (fun e => "❌ Error fetching market cap data: " +:+ message e)
    (fun client =>
       let! data := client_get_idx_total client (Some start_date) (Some end_date) in
       match error_of data with
       | Some text => io_ret ("❌ Error: " +:+ str text)
       | None =>
           match data with
           | JArray (entry :: entries) =>
               io_lift (idx_report start_date end_date (entry :: entries))
           | _ => io_ret "Tidak ada data ditemukan untuk periode tersebut."
           end
       end).

(** The two debugging prints of [get_quarterly_financials] read the keys of
    the first item of a list. *)
Definition quarterly_debug (data : JValue) : Res unit :=
  match data with
  | JArray (JObject _ :: _) => Ok tt
  | JArray (first :: _) => fault (NoAttribute first "keys")
  | _ => Ok tt
  end.

(** The report on all the quarters of the answer. *)
Definition quarterly_report (ticker : string) (data : JValue) : string :=
  lines [ ""; "📊 QUARTERLY FINANCIAL DATA"; "Company: " +:+ ticker;
          "Period: Last 8 Quarters"; ""; json_dumps data; "";
          "INSTRUCTIONS: Extract and present quarterly financial metrics."; "" ].

Definition tool_get_quarterly_financials (ticker : string) (quarter year : option Z)
    : World → string * World :=
  guarded
    (fun e => "❌ Error fetching quarterly data: " +:+ message e +:+ nl +:+ nl
              +:+ "Traceback:" +:+ nl +:+ format_exc e)
    (fun client =>
       let ticker := plain_ticker ticker in
       let! year :=
         (fun w => if truthy_int quarter && negb (truthy_int year)
                   then (Ok (Some (now_year w)), w) else (Ok year, w)) in
       let! data := client_get_quarterly_financials client ticker 8 in
       let! _ := io_lift (quarterly_debug data) in
       let! result :=
         match data with
         | JArray items =>
             if truthy_int quarter || truthy_int year
             then io_lift (quarterly_filtered_report ticker quarter year items)
             else io_ret (quarterly_report ticker data)
         | _ => io_ret (quarterly_report ticker data)
         end in
       io_ret (strip result)).

(** *** The invocation of a tool

    [tool.invoke(params)]: the dictionary is bound to the arguments of the
    tool, with the defaults of its [def] line; a dictionary that does not
    fit the signature raises. *)

Definition arg_str (params : gmap string pyval) (name default_ : string) : string :=
  match params !! name with Some (VStr s) => s | _ => default_ end.
Definition arg_int (params : gmap string pyval) (name : string) (default_ : Z) : Z :=
  match params !! name with Some (VInt z) => z | _ => default_ end.
Definition arg_opt_str (params : gmap string pyval) (name : string) : option string :=
  match params !! name with Some (VStr s) => Some s | _ => None end.
Definition arg_opt_int (params : gmap string pyval) (name : string) : option Z :=
  match params !! name with Some (VInt z) => Some z | _ => None end.

Definition run_tool (tool : Tool) (params : gmap string pyval) : World → string * World :=
  match tool with
  | get_stock_info => tool_get_stock_info (arg_str params "ticker" "")
  | get_top_stocks_by_market_cap =>
      tool_get_top_stocks_by_market_cap (arg_int params "limit" 5)
        (arg_opt_str params "sector")
  | get_companies_by_subsector =>
      tool_get_companies_by_subsector (arg_str params "subsector" "")
        (arg_int params "limit" 20)
  | get_companies_by_index =>
      tool_get_companies_by_index (arg_str params "index" "") (arg_int params "limit" 20)
  | search_companies =>
      tool_search_companies (arg_str params "sub_sector" "all")
        (arg_int params "min_mcap_billion" 5000) (arg_int params "limit" 10)
  | get_subsector_report => tool_get_subsector_report (arg_str params "subsector" "")
  | get_company_segments => tool_get_company_segments (arg_str params "ticker" "")
  | get_market_news =>
      tool_get_market_news (arg_opt_str params "query") (arg_int params "limit" 10)
  | get_idx_market_cap_history =>
      tool_get_idx_market_cap_history (arg_str params "start_date" "")
        (arg_str params "end_date" "")
  | get_quarterly_financials =>
      tool_get_quarterly_financials (arg_str params "ticker" "")
        (arg_opt_int params "quarter") (arg_opt_int params "year")
  end.

Definition invoke (tool : Tool) (params : gmap string pyval)
    : World → Res (option string) * World :=
  fun w =>
    if accepts (tool_signature tool) params
    then let '(result, w') := run_tool tool params w in (Ok (Some result), w')
    else (fault (InvalidInput tool), w).

End Provider.

(** ** A scripted provider

    A concrete world for the statements on the provider: the year on the
    clock and the answers to the requests to come, each a document served
    with status 200 or a timeout; when no answer is left the request times
    out. *)

Module Served.

Record World : Type := { year : Z; answers : list (option JValue) }.

Definition now_year (w : World) : Z := year w.

Definition requests_get (url authorization : string) (params : option Params) (w : World)
    : HttpResult * World :=
  match answers w with
  | Some body :: rest => (Responded 200 "" (Ok body), {| year := year w; answers := rest |})
  | None :: rest => (RaisedTimeout, {| year := year w; answers := rest |})
  | [] => (RaisedTimeout, w)
  end.

Definition json_dumps (v : JValue) : string := "[...]".
Definition repr (v : JValue) : string := "...".
Definition error_text (f : Fault) : string := "error".
Definition format_exc (e : PyExn) : string := "traceback".
Definition segments_report (ticker : string) (data : JValue) : Res string := Ok "segments".
Definition idx_report (start_date end_date : string) (data : list JValue) : Res string :=
  Ok "history".
Definition quarterly_filtered_report (ticker : string) (quarter year : option Z)
    (items : list JValue) : Res string := Ok "quarters".

Definition client : Client := {| api_key := "key" |}.

Definition bca : JValue := Sample.bca.

(** The completion service of the sample: it repeats the last turn. *)
Definition get_chat_response (messages : list ChatTurn) (w : World) : Res string * World :=
  (Ok (content (List.last messages {| role := ""; content := "" |})), w).

(** The state of the agent with the given cache, in the given year, with
    the given answers to come. *)
Definition state (cache : option (list Company)) (year : Z)
    (answers : list (option JValue)) : State World :=
  {| COMPANY_CACHE := cache; world := {| year := year; answers := answers |} |}.

Definition run_tool (sectors_client : option Client)
    : Tool → gmap string pyval → World → string * World :=
  run_tool World now_year requests_get json_dumps repr error_text format_exc
    segments_report idx_report quarterly_filtered_report sectors_client.

Definition invoke (sectors_client : option Client)
    : Tool → gmap string pyval → World → Res (option string) * World :=
  invoke World now_year requests_get json_dumps repr error_text format_exc
    segments_report idx_report quarterly_filtered_report sectors_client.

Definition sectors_api : option (SectorsAPI World) :=
  Some (sectors_api_of World requests_get error_text client).

Definition detect_intent_and_route
    : string → option (list Message) → M World (string * gmap string pyval) :=
  detect_intent_and_route World now_year Difflib.ratio sectors_api.

Definition run_agent : string → option (list Message) → string → M World (option string) :=
  run_agent World now_year Difflib.ratio sectors_api (invoke (Some client))
    get_chat_response.

End Served.

(** ** A provider that never answers

    Every request times out. *)

Module Offline.

Definition World : Type := Z.

Definition requests_get (url authorization : string) (params : option Params) (w : World)
    : HttpResult * World :=
  (RaisedTimeout, w).

Definition api : SectorsAPI World :=
  sectors_api_of World requests_get Served.error_text Served.client.

End Offline.

(** ** A provider that fails once

    The world counts the requests. On the first one [requests.get] itself
    raises [HTTPError]; every later one is answered with a list whose only
    item is [null]. *)

Module Flaky.

Definition World : Type := nat.

Definition now_year (w : World) : Z := 2026.

Definition requests_get (url authorization : string) (params : option Params) (w : World)
    : HttpResult * World :=
  match w with
  | O => (RaisedHTTPError, 1%nat)
  | S _ => (Responded 200 "" (Ok (JArray [ JNull ])), S w)
  end.

Definition sectors_api : option (SectorsAPI World) :=
  Some (sectors_api_of World requests_get Served.error_text Served.client).

(** The state before the first request, with an empty cache. *)
Definition state : State World := {| COMPANY_CACHE := None; world := 0%nat |}.

Definition detect_intent_and_route
    : string → option (list Message) → M World (string * gmap string pyval) :=
  detect_intent_and_route World now_year Difflib.ratio sectors_api.
Definition is_financial_query : string → option (list Message) → M World bool :=
  is_financial_query World now_year Difflib.ratio true sectors_api.

End Flaky.

(** ** The chat interface and the sessions

    [ui/chat_interface.py], [utils/memory.py] and [retrieve_context] of
    [services/rag_pipeline.py]. The calls that only display (the chat
    bubbles, the spinners, the status box) are left out, and so are the
    failures of the file system. *)

(** The file of the sessions: absent, blank or not JSON, or holding the
    history of each session by name. *)
Inductive HistoryFile : Type :=
  | Missing
  | Unreadable
  | Holds (sessions : gmap string (list ChatTurn)).

(** A document of the vector store: its text and the source of its
    metadata. *)
Record Document : Type := { page_content : string; source : option string }.

(** [load_all_chat_sessions]. *)
Definition load_all_chat_sessions (file : HistoryFile) : gmap string (list ChatTurn) :=
  match file with
  | Holds sessions => sessions
  | Missing | Unreadable => ∅
  end.

(** One turn of the loop of [convert_chat_history_to_langchain]. *)
Definition langchain_message (turn : ChatTurn) : list Message :=
  if String.eqb (role turn) "user" then [ HumanMessage (content turn) ]
  else if String.eqb (role turn) "assistant" then [ AIMessage (content turn) ]
  else if String.eqb (role turn) "system" then [ SystemMessage (content turn) ]
  else [].

Section Ui.

Variable World : Type.
Variable now_year : World → Z.
Variable ratio : string → string → Q.
Variable SECTORS_AVAILABLE : bool.
Variable sectors_api : option (SectorsAPI World).
Variable tool_invoke : Tool → gmap string pyval → World → Res (option string) * World.
Variable get_chat_response : list ChatTurn → World → Res string * World.

(** The vector store of an uploaded document, and the retrieval of the
    documents nearest to a query. *)
Variable Vectorstore : Type.
Variable retriever_invoke : Vectorstore → string → World → Res (list Document) * World.

(** [datetime.now().strftime("%Y-%m-%d %H:%M:%S")]. *)
Variable now_text : World → string.

(** The session state of Streamlit, the file of the sessions, and the
    state of the process. *)
Record App : Type := {
  chat_history : list ChatTurn;
  current_session : option string;
  vectorstore : option Vectorstore;
  history_file : HistoryFile;
  process : State World
}.

Definition with_chat_history (app : App) (history : list ChatTurn) : App :=
  {| chat_history := history;
     current_session := current_session app;
     vectorstore := vectorstore app;
     history_file := history_file app;
     process := process app |}.

Definition with_process (app : App) (st : State World) : App :=
  {| chat_history := chat_history app;
     current_session := current_session app;
     vectorstore := vectorstore app;
     history_file := history_file app;
     process := st |}.

Definition with_world (app : App) (w : World) : App :=
  with_process app {| COMPANY_CACHE := COMPANY_CACHE World (process app); world := w |}.

(** *** The sessions *)

Definition save_all_chat_sessions (sessions : gmap string (list ChatTurn)) (app : App)
    : App :=
  {| chat_history := chat_history app;
     current_session := current_session app;
     vectorstore := vectorstore app;
     history_file := Holds sessions;
     process := process app |}.

Definition init_chat_history (session_id : string) (app : App) : App :=
  let sessions := load_all_chat_sessions (history_file app) in
  {| chat_history := default [] (sessions !! session_id);
     current_session := Some session_id;
     vectorstore := vectorstore app;
     history_file := history_file app;
     process := process app |}.

Definition save_current_session (app : App) : App :=
  match current_session app with
  | None => app
  | Some current =>
      let sessions := load_all_chat_sessions (history_file app) in
      save_all_chat_sessions (<[ current := chat_history app ]> sessions) app
  end.

Definition create_new_session (app : App) : string * App :=
  let sessions := load_all_chat_sessions (history_file app) in
  let timestamp := now_text (world World (process app)) in
  let session_name := "Session - " +:+ timestamp in
  let app := save_all_chat_sessions (<[ session_name := [] ]> sessions) app in
  (session_name,
   {| chat_history := [];
      current_session := Some session_name;
      vectorstore := vectorstore app;
      history_file := history_file app;
      process := process app |}).

(** *** The replies *)

Definition convert_chat_history_to_langchain (app : App) : list Message :=
  flat_map langchain_message (chat_history app).

(** [retrieve_context]: the texts of the documents joined by a blank line
    and their sources; on a failure, the empty text and no source. *)
Definition retrieve_context (store : Vectorstore) (query : string)
    : World → (string * list string) * World :=
  fun w =>
    match retriever_invoke store query w with
    | (Ok docs, w') =>
        ((PyStr.join (nl +:+ nl) (List.map page_content docs),
          List.map (fun d => default "Unknown" (source d)) docs), w')
    | (Raise _, w') => (("", []), w')
    end.

Definition get_rag_context (prompt : string) (app : App) : (string * list string) * App :=
  match vectorstore app with
  | Some store =>
      let '(found, w') := retrieve_context store prompt (world World (process app)) in
      (found, with_world app w')
  | None => (("", []), app)
  end.

Definition get_bot_response_with_agent (prompt rag_context : string) (app : App)
    : option string * App :=
  let chat_history := convert_chat_history_to_langchain app in
  match run_agent World now_year ratio sectors_api tool_invoke get_chat_response
          prompt (Some chat_history) rag_context (process app) with
  | (Ok response, st') => (response, with_process app st')
  | (Raise _, st') => (None, with_process app st')
  end.

Definition standard_system_content (rag_context : string) : string :=
  if negb (String.eqb rag_context "")
  then lines
         [ "You are Collega AI Assistant, a friendly and helpful chatbot.";
           "Use the following context from uploaded documents to help answer:";
           "";
           "Context:";
           rag_context;
           "";
           "Always base your answer on the provided context when relevant." ]
  else "You are Collega AI Assistant, a friendly and helpful chatbot created to assist users.".

(** The request of [get_bot_response_standard]. *)
Definition standard_messages (prompt rag_context : string) (app : App) : list ChatTurn :=
  [ {| role := "system"; content := standard_system_content rag_context |} ]
  ++ List.map (fun msg => {| role := role msg; content := content msg |}) (chat_history app)
  ++ [ {| role := "user"; content := prompt |} ].

Definition get_bot_response_standard (prompt rag_context : string) (app : App)
    : string * App :=
  let messages := standard_messages prompt rag_context app in
  match get_chat_response messages (world World (process app)) with
  | (Ok response, w') => (response, with_world app w')
  | (Raise e, w') => ("⚠️ Terjadi kesalahan: " +:+ message e, with_world app w')
  end.

Definition handle_user_message (prompt : string) (app : App) : Res unit * App :=
  let app :=
    with_chat_history app (chat_history app ++ [ {| role := "user"; content := prompt |} ]) in
  let '((rag_context, sources), app) := get_rag_context prompt app in
  let langchain_history := convert_chat_history_to_langchain app in
  match is_financial_query World now_year ratio SECTORS_AVAILABLE sectors_api
          prompt (Some langchain_history) (process app) with
  | (Raise e, st') => (Raise e, with_process app st')
  | (Ok financial, st') =>
      let app := with_process app st' in
      let use_agent := financial && SECTORS_AVAILABLE in
      let '(bot_reply, app) :=
        if use_agent then get_bot_response_with_agent prompt rag_context app
        else (None, app) in
      let '(bot_reply, app) :=
        match bot_reply with
        | None => get_bot_response_standard prompt rag_context app
        | Some reply => (reply, app)
        end in
      let app :=
        with_chat_history app
          (chat_history app ++ [ {| role := "assistant"; content := bot_reply |} ]) in
      (Ok tt, save_current_session app)
  end.

End Ui.

Arguments chat_history {World Vectorstore} _.
Arguments current_session {World Vectorstore} _.
Arguments vectorstore {World Vectorstore} _.
Arguments history_file {World Vectorstore} _.
Arguments process {World Vectorstore} _.

(** ** Concrete chats

    A session of the chat in the sample world, in the world of the
    scripted provider when the tools have no client, and in the world of
    the provider that fails once. No document was uploaded. *)

Module Chat.

Definition retriever_invoke {World : Type} (store : unit) (query : string) (w : World)
    : Res (list Document) * World :=
  (Ok [], w).

(** The session [b], with two turns, beside the stored session [a]. *)
Definition app {World : Type} (st : State World) : App World unit :=
  {| chat_history := [ {| role := "user"; content := "hai" |};
                       {| role := "assistant"; content := "halo" |} ];
     current_session := Some "b";
     vectorstore := None;
     history_file := Holds {[ "a" := [ {| role := "user"; content := "hai" |} ] ]};
     process := st |}.

Definition handle_user_message_without_client : string → App Served.World unit
    → Res unit * App Served.World unit :=
  handle_user_message Served.World Served.now_year Difflib.ratio true Served.sectors_api
    (Served.invoke None) Served.get_chat_response unit retriever_invoke.

Definition handle_user_message : string → App Sample.World unit
    → Res unit * App Sample.World unit :=
  handle_user_message Sample.World Sample.now_year Difflib.ratio true Sample.sectors_api
    Sample.tool_invoke Sample.get_chat_response unit retriever_invoke.

Definition get_chat_response (messages : list ChatTurn) (w : Flaky.World)
    : Res string * Flaky.World :=
  (Ok "", w).

Definition tool_invoke (t : Tool) (params : gmap string pyval) (w : Flaky.World)
    : Res (option string) * Flaky.World :=
  (Ok None, w).

End Chat.

(** ** Vocabulary of the statements *)

(** A computation returns: from every state it yields a value, it never
    raises. *)
Definition returns {World A : Type} (m : M World A) : Prop :=
  ∀ st, ∃ a st', m st = (Ok a, st').

(** The tags of the data model other than [idx_market_cap_history]. *)
Definition routed_tags : list string :=
  [ "stock_info"; "quarterly_financials"; "company_segments"; "market_news";
    "top_market_cap"; "companies_by_index"; "companies_subsector";
    "subsector_report"; "unknown" ].

(** The tags of the dispatch table of [execute_tool]. *)
Definition dispatch_tags : list string :=
  [ "stock_info"; "quarterly_financials"; "company_segments"; "market_news";
    "top_market_cap"; "companies_by_index"; "companies_subsector";
    "subsector_report"; "idx_market_cap_history" ].

(** The last character of [s] satisfies [p]; [false] for the empty
    string: used for "the character before is a word character". *)
Fixpoint last_is (p : ascii → bool) (s : string) : bool :=
  match s with
  | EmptyString => false
  | String c EmptyString => p c
  | String _ s' => last_is p s'
  end.

(** Whether a word character stands just before the position that follows
    [pre], when [prev] tells it for the start of [pre]. *)
Definition before (prev : bool) (pre : string) : bool :=
  match pre with
  | EmptyString => prev
  | _ => last_is PyStr.is_word pre
  end.

(** [text] is [pre], then the four capital letters [w], then [post], and
    [w] is a whole word there: no word character stands just before or just
    after it. *)
Definition token_at (pre w post text : string) : Prop :=
  text = pre +:+ w +:+ post
  ∧ String.length w = 4%nat
  ∧ Forall (fun c => PyStr.is_upper c = true) (list_ascii_of_string w)
  ∧ last_is PyStr.is_word pre = false
  ∧ PyStr.head_is PyStr.is_word post = false.

(** [w] is a word of four capital letters of [text]. *)
Definition four_letter_word (w text : string) : Prop :=
  ∃ pre post, token_at pre w post text.

(** [w] is the first word of four capital letters of [text]. *)
Definition first_four_letter_word (w text : string) : Prop :=
  ∃ pre post,
    token_at pre w post text
    ∧ ∀ pre' w' post',
        token_at pre' w' post' text → (String.length pre ≤ String.length pre')%nat.

(** [text] is [pre], then the decimal digits [digits], then [post], and
    the digits stand alone there as a word: no word character stands just
    before or just after them. *)
Definition number_at (pre digits post text : string) : Prop :=
  text = pre +:+ digits +:+ post
  ∧ digits ≠ ""
  ∧ Forall (fun c => PyStr.is_digit c = true) (list_ascii_of_string digits)
  ∧ last_is PyStr.is_word pre = false
  ∧ PyStr.head_is PyStr.is_word post = false.

(** [digits] is the first number of [text] that stands alone as a word. *)
Definition first_number (digits text : string) : Prop :=
  ∃ pre post,
    number_at pre digits post text
    ∧ ∀ pre' digits' post',
        number_at pre' digits' post' text → (String.length pre ≤ String.length pre')%nat.

(** No number stands alone as a word in [text]. *)
Definition no_number (text : string) : Prop :=
  ∀ pre digits post, ¬ number_at pre digits post text.

(** The query of the request that [get_top_stocks_by_market_cap] sends for
    [n_stock] companies. *)
Definition top_request (n_stock : Z) : Params :=
  [ ("n_stock", VInt n_stock); ("classifications", VStr "all");
    ("min_mcap_billion", VInt 1); ("logic", VStr "and");
    ("include_none", VStr "false") ].

(** The cache holds an item whose name or symbol cannot be read. *)
Definition unreadable_cache {World : Type} (st : State World) : Prop :=
  ∃ companies,
    COMPANY_CACHE World st = Some companies
    ∧ Exists (fun company => readable company = false) companies.

(** The score of a company for a lowercased candidate. *)
Definition company_score (ratio : string → string → Q) (name : string)
    (company : Company) : Q :=
  match_score ratio name (PyStr.lower (dict_get company "company_name")).


(** [key], mapped to [ticker], is the first entry of [items] whose key
    occurs in [text_lower]. *)
Definition first_alias (items : list (string * string)) (text_lower key ticker : string)
    : Prop :=
  ∃ pre post,
    items = pre ++ (key, ticker) :: post
    ∧ PyStr.contains key text_lower = true
    ∧ Forall (fun entry => PyStr.contains (fst entry) text_lower = false) pre.

(** A computation leaves a populated cache as it is. *)
Definition keeps_cache {World A : Type} (m : M World A) : Prop :=
  ∀ st cs,
    COMPANY_CACHE World st = Some cs →
    COMPANY_CACHE World (snd (m st)) = Some cs.

(** An answer of the provider that brings no company: a failure, something
    other than a list, or an empty list. *)
Definition no_companies (answer : Res JValue) : Prop :=
  match answer with
  | Ok (JArray (_ :: _)) => False
  | _ => True
  end.

(** The decisions of the router, for the year [now] on the clock. *)
Inductive decision_shape (now : Z) : string → gmap string pyval → Prop :=
  | shape_top (limit : Z) :
      0 ≤ limit ≤ 50 →
      decision_shape now "top_market_cap" {[ "limit" := VInt limit ]}
  | shape_quarterly (ticker : string) (quarter year : option Z) :
      ticker ≠ "" →
      (∀ q, quarter = Some q → 0 ≤ q ≤ 9) →
      (∀ y, year = Some y →
            2000 ≤ y ≤ 2099 ∨ (y = now ∧ truthy_int quarter = true)) →
      truthy_int quarter || truthy_int year = true →
      decision_shape now "quarterly_financials"
        {[ "ticker" := VStr ticker;
           "quarter" := of_opt_int quarter;
           "year" := of_opt_int year ]}
  | shape_segments (ticker : string) :
      ticker ≠ "" →
      decision_shape now "company_segments" {[ "ticker" := VStr ticker ]}
  | shape_ticker_news (ticker : string) :
      ticker ≠ "" →
      decision_shape now "market_news"
        {[ "query" := VStr ticker; "limit" := VInt 10 ]}
  | shape_stock_info (ticker : string) :
      ticker ≠ "" →
      decision_shape now "stock_info" {[ "ticker" := VStr ticker ]}
  | shape_general_news :
      decision_shape now "market_news" {[ "query" := VNone; "limit" := VInt 10 ]}
  | shape_index (index_name : string) :
      In index_name [ "LQ45"; "IDX30"; "KOMPAS100" ] →
      decision_shape now "companies_by_index"
        {[ "index" := VStr index_name; "limit" := VInt 20 ]}
  | shape_subsector_report (subsector : string) :
      In subsector [ "banks"; "telecommunication"; "energy"; "mining" ] →
      decision_shape now "subsector_report" {[ "subsector" := VStr subsector ]}
  | shape_subsector (subsector : string) :
      In subsector [ "banks"; "telecommunication"; "energy"; "mining" ] →
      decision_shape now "companies_subsector"
        {[ "subsector" := VStr subsector; "limit" := VInt 20 ]}
  | shape_unknown :
      decision_shape now "unknown" ∅.

(** The tool result makes [run_agent] fall back: it is absent or starts
    with the error marker. *)
Definition tool_failed (tool_result : option string) : Prop :=
  tool_result = None
  ∨ ∃ s, tool_result = Some s ∧ PyStr.startswith s error_marker = true.

(** The request brought no document: a status from 400 to 599, a timeout,
    an exception other than [HTTPError], or a body that is no JSON. *)
Definition request_failed (result : HttpResult) : Prop :=
  match result with
  | Responded status_code _ json =>
      is_http_error status_code = true ∨ ∃ e, json = Raise e
  | RaisedTimeout | RaisedOther _ => True
  | RaisedHTTPError => False
  end.

(** The request brought the document [body]. *)
Definition request_brought (result : HttpResult) (body : JValue) : Prop :=
  ∃ status_code text,
    result = Responded status_code text (Ok body)
    ∧ is_http_error status_code = false.

(** The two turns that [handle_user_message] appends. *)
Definition user_turn (prompt : string) : ChatTurn :=
  {| role := "user"; content := prompt |}.
Definition assistant_turn (reply : string) : ChatTurn :=
  {| role := "assistant"; content := reply |}.

(** The reply drawn from an outcome of the completion service: its answer,
    or the apology that the standard path builds from its exception. *)
Definition reply_of (outcome : Res string) : string :=
  match outcome with
  | Ok response => response
  | Raise e => "⚠️ Terjadi kesalahan: " +:+ message e
  end.

(** A list ends with the given elements. *)
Definition ends_with {A : Type} (l suffix : list A) : Prop :=
  ∃ before_, l = before_ ++ suffix.

(** ** Properties *)

Section Facts.
Import PyStr.

Variable World : Type.
Variable now_year : World → Z.
Variable ratio : string → string → Q.
Variable SECTORS_AVAILABLE : bool.
Variable sectors_api : option (SectorsAPI World).
Variable tool_invoke : Tool → gmap string pyval → World → Res (option string) * World.
Variable get_chat_response : list ChatTurn → World → Res string * World.

(** The variables of the tools, for the statements that follow a routed
    decision into the tool. *)
Variable requests_get : string → string → option Params → World → HttpResult * World.
Variable json_dumps : JValue → string.
Variable repr : JValue → string.
Variable error_text : Fault → string.
Variable format_exc : PyExn → string.
Variable segments_report : string → JValue → Res string.
Variable idx_report : string → string → list JValue → Res string.
Variable quarterly_filtered_report
  : string → option Z → option Z → list JValue → Res string.

Local Abbreviation M := (M World).
Local Abbreviation State := (State World).
Local Abbreviation get_all_companies := (get_all_companies World sectors_api).
Local Abbreviation find_ticker_by_name := (find_ticker_by_name World ratio sectors_api).
Local Abbreviation first_ticker_by_name := (first_ticker_by_name World ratio sectors_api).
Local Abbreviation extract_ticker := (extract_ticker World ratio sectors_api).
Local Abbreviation quarterly_rule := (quarterly_rule World now_year).
Local Abbreviation detect_intent_and_route :=
  (detect_intent_and_route World now_year ratio sectors_api).
Local Abbreviation execute_tool := (execute_tool World tool_invoke).
Local Abbreviation resolve_query_with_context :=
  (resolve_query_with_context World get_chat_response).
Local Abbreviation run_agent :=
  (run_agent World now_year ratio sectors_api tool_invoke get_chat_response).
Local Abbreviation context_ticker_scan := (context_ticker_scan World ratio sectors_api).
Local Abbreviation is_financial_query :=
  (is_financial_query World now_year ratio SECTORS_AVAILABLE sectors_api).
Local Abbreviation run_tool :=
  (run_tool World now_year requests_get json_dumps repr error_text format_exc
     segments_report idx_report quarterly_filtered_report).

(** *** Computations that return *)

Lemma returns_ret {A : Type} (a : A) : returns (ret World a).
Proof. intros st. by exists a, st. Qed.

Lemma returns_bind {A B : Type} (m : M A) (k : A → M B) :
  returns m → (∀ a, returns (k a)) → returns (bind World m k).
Proof.
  intros Hm Hk st. unfold bind.
  destruct (Hm st) as (a & st' & ->). apply Hk.
Qed.

Lemma returns_try_except {A : Type} (body : M A) (handler : PyExn → M A) :
  (∀ e, returns (handler e)) → returns (try_except World body handler).
Proof.
  intros Hh st. unfold try_except.
  destruct (body st) as [[a|e] st']; [by exists a, st' | apply Hh].
Qed.

Lemma returns_fetch_subsectors api subsectors all_companies :
  returns (fetch_subsectors World api subsectors all_companies).
Proof.
  revert all_companies.
  induction subsectors as [|s rest IH]; intros acc; simpl.
  - apply returns_ret.
  - apply returns_bind; [|done].
    apply returns_try_except. intros _. apply returns_ret.
Qed.

Lemma returns_get_all_companies : returns get_all_companies.
Proof.
  intros st. unfold get_all_companies, bind, read_cache.
  destruct (COMPANY_CACHE World st) as [cs|]; [by exists cs, st|].
  destruct sectors_api as [api|]; [|by exists [], st].
  apply returns_try_except. intros _. apply returns_ret.
Qed.

Lemma returns_execute_tool intent params : returns (execute_tool intent params).
Proof. apply returns_try_except. intros _. apply returns_ret. Qed.

Lemma returns_resolve_query_with_context user_input chat_history :
  returns (resolve_query_with_context user_input chat_history).
Proof.
  unfold resolve_query_with_context.
  destruct chat_history as [[|m1 [|m2 more]]|]; try apply returns_ret.
  apply returns_try_except. intros _. apply returns_ret.
Qed.

Lemma returns_run_agent user_input chat_history rag_context :
  returns (run_agent user_input chat_history rag_context).
Proof. apply returns_try_except. intros _. apply returns_ret. Qed.

(** *** The company cache *)

Lemma call_cache {A : Type} (f : World → Res A * World) st :
  COMPANY_CACHE World (snd (call World f st)) = COMPANY_CACHE World st.
Proof using. unfold call. by destruct (f (world World st)). Qed.

Lemma fetch_subsector_cache api all_companies subsector st :
  ∃ companies st',
    fetch_subsector World api all_companies subsector st = (Ok companies, st')
    ∧ COMPANY_CACHE World st' = COMPANY_CACHE World st.
Proof using.
  unfold fetch_subsector, try_except, bind.
  pose proof (call_cache (api_get_companies_by_subsector World api subsector 50) st)
    as Hc.
  destruct (call World (api_get_companies_by_subsector World api subsector 50) st)
    as [[j|e] st1]; simpl in Hc; [destruct j|]; by eexists _, _.
Qed.

Lemma fetch_subsectors_cache api subsectors all_companies st :
  ∃ companies st',
    fetch_subsectors World api subsectors all_companies st = (Ok companies, st')
    ∧ COMPANY_CACHE World st' = COMPANY_CACHE World st.
Proof using.
  revert all_companies st.
  induction subsectors as [|s rest IH]; intros acc st; simpl.
  - by exists acc, st.
  - unfold bind at 1.
    destruct (fetch_subsector_cache api acc s st) as (acc' & st1 & -> & Hc).
    destruct (IH acc' st1) as (companies & st' & -> & Hst').
    exists companies, st'. split; [done | congruence].
Qed.

Lemma get_all_companies_result (st : State) :
  ∃ companies st',
    get_all_companies st = (Ok companies, st')
    ∧ (COMPANY_CACHE World st' = Some companies
       ∨ (companies = []
          ∧ COMPANY_CACHE World st = None
          ∧ COMPANY_CACHE World st' = None)).
Proof.
  unfold get_all_companies, bind at 1, read_cache.
  destruct (COMPANY_CACHE World st) as [cs|] eqn:Hcache.
  { exists cs, st. split; [done|]. by left. }
  destruct sectors_api as [api|].
  2: { exists [], st. split; [done|]. right. by repeat split. }
  unfold try_except, bind at 1.
  pose proof (call_cache (api_get_companies World api 200) st) as Hc.
  destruct (call World (api_get_companies World api 200) st) as [[j|e] st1];
    simpl in Hc.
  2: { exists [], st1. split; [done|]. right. repeat split; congruence. }
  assert (∃ companies st',
            bind World (fetch_subsectors World api common_subsectors [])
              (fun all_companies =>
                 bind World (write_cache World all_companies)
                   (fun _ => ret World all_companies)) st1
            = (Ok companies, st')
            ∧ COMPANY_CACHE World st' = Some companies) as Hfallback.
  { unfold bind at 1.
    destruct (fetch_subsectors_cache api common_subsectors [] st1)
      as (companies & st2 & -> & _).
    by eexists _, _. }
  destruct j as [| | | | |[|c cs]|];
    try (destruct Hfallback as (companies & st' & -> & H);
         exists companies, st'; by split; [|left]).
  eexists _, _. split; [reflexivity|]. by left.
Qed.

Lemma get_all_companies_cached st cs :
  COMPANY_CACHE World st = Some cs → get_all_companies st = (Ok cs, st).
Proof. intros H. unfold get_all_companies, bind, read_cache. by rewrite H. Qed.

(** *** The loop over the companies *)

(** One turn of the loop on a record that can be read. *)
Lemma find_ticker_loop_readable name company rest best score :
  readable company = true →
  find_ticker_loop ratio name (company :: rest) best score
  = if String.eqb (lower (dict_get company "symbol")) name
    then Ok (Some (dict_get company "symbol"))
    else if Qgtb (company_score ratio name company) score
         then find_ticker_loop ratio name rest (Some (dict_get company "symbol"))
                (company_score ratio name company)
         else find_ticker_loop ratio name rest best score.
Proof using.
  unfold readable, company_score, dict_get. cbn [find_ticker_loop].
  destruct company as [| | | | | |fields]; try done.
  cbn [get and_then].
  destruct (assoc "company_name" fields) as [[| | | |n| |]|];
    destruct (assoc "symbol" fields) as [[| | | |s| |]|]; simpl; done.
Qed.

(** The loop raises only on a record that cannot be read. *)
Lemma find_ticker_loop_raise name companies best score e :
  find_ticker_loop ratio name companies best score = Raise e →
  Exists (fun company => readable company = false) companies.
Proof using.
  revert best score.
  induction companies as [|c cs IH]; intros best score; [done|].
  destruct (readable c) eqn:Hc; [|intros _; by constructor].
  rewrite (find_ticker_loop_readable _ _ _ _ _ Hc).
  destruct (String.eqb _ name); [done|].
  destruct (Qgtb _ _); intros H; apply IH in H; by constructor 2.
Qed.

Lemma find_ticker_by_name_cached name st cs :
  COMPANY_CACHE World st = Some cs →
  find_ticker_by_name name st
  = (if String.eqb name "" then Ok None
     else match cs with
          | [] => Ok None
          | _ => find_ticker_loop ratio (strip (lower name)) cs None 0%Q
          end, st).
Proof.
  intros H. unfold find_ticker_by_name.
  destruct (String.eqb name ""); [done|].
  unfold bind. rewrite (get_all_companies_cached st cs H).
  by destruct cs.
Qed.

(** What [find_ticker_by_name] does: the loop over the list that
    [get_all_companies] returns, which the cache holds afterwards unless it
    is empty. *)
Lemma find_ticker_by_name_result name st :
  ∃ companies st',
    find_ticker_by_name name st
    = (if String.eqb name "" then Ok None
       else match companies with
            | [] => Ok None
            | _ => find_ticker_loop ratio (strip (lower name)) companies None 0%Q
            end, st')
    ∧ (COMPANY_CACHE World st' = Some companies
       ∨ (companies = [] ∧ COMPANY_CACHE World st' = COMPANY_CACHE World st)).
Proof.
  unfold find_ticker_by_name.
  destruct (String.eqb name "").
  { exists [], st. split; [done|]. by right. }
  unfold bind.
  destruct (get_all_companies_result st) as (companies & st' & -> & Hc).
  exists companies, st'. split; [by destruct companies|].
  destruct Hc as [Hc|(-> & H1 & H2)]; [by left|]. right. split; congruence.
Qed.

Lemma find_ticker_by_name_raise name st e st' :
  find_ticker_by_name name st = (Raise e, st') → unreadable_cache st'.
Proof.
  destruct (find_ticker_by_name_result name st) as (companies & st1 & -> & Hc).
  destruct (String.eqb name ""); [done|].
  destruct companies as [|c cs]; [done|].
  intros H.
  assert (find_ticker_loop ratio (strip (lower name)) (c :: cs) None 0%Q = Raise e)
    as Hloop by congruence.
  assert (st1 = st') as <- by congruence.
  apply find_ticker_loop_raise in Hloop.
  destruct Hc as [Hc|[[=] _]]. by exists (c :: cs).
Qed.

Lemma first_ticker_by_name_cons name rest st :
  first_ticker_by_name (name :: rest) st
  = match find_ticker_by_name name st with
    | (Ok ticker, st') =>
        if truthy_str ticker then (Ok ticker, st') else first_ticker_by_name rest st'
    | (Raise e, st') => (Raise e, st')
    end.
Proof.
  simpl. unfold bind. destruct (find_ticker_by_name name st) as [[ticker|e] st']; [|done].
  by destruct (truthy_str ticker).
Qed.

Lemma first_ticker_by_name_raise names st e st' :
  first_ticker_by_name names st = (Raise e, st') → unreadable_cache st'.
Proof.
  revert st. induction names as [|name rest IH]; intros st; [done|].
  rewrite first_ticker_by_name_cons.
  destruct (find_ticker_by_name name st) as [[ticker|e1] st1] eqn:Hf.
  - destruct (truthy_str ticker); [done | apply IH].
  - intros [= <- <-]. by apply find_ticker_by_name_raise in Hf.
Qed.

Lemma extract_ticker_raise text st e st' :
  extract_ticker text st = (Raise e, st') → unreadable_cache st'.
Proof.
  unfold extract_ticker.
  destruct (quick_match _ _); [done|].
  destruct (explicit_ticker _); [done|].
  apply first_ticker_by_name_raise.
Qed.


(** *** The numbers read in the text *)

Lemma int_Ok digits :
  Z.of_nat (String.length digits) ≤ int_max_str_digits →
  int digits = Ok (decimal digits).
Proof using.
  intros H. unfold int. apply Z.leb_le in H. by rewrite H.
Qed.

Lemma int_Raise digits :
  int_max_str_digits < Z.of_nat (String.length digits) →
  int digits = Raise (ValueError_int_limit digits).
Proof using.
  intros H. unfold int. apply Z.leb_gt in H. by rewrite H.
Qed.

Lemma digit_value_nonneg c : is_digit c = true → 0 ≤ digit_value c ≤ 9.
Proof using.
  unfold is_digit, in_range, digit_value.
  intros [H1 H2]%andb_prop. apply N.leb_le in H1, H2. lia.
Qed.

Lemma int_go_nonneg w acc :
  Forall (fun c => is_digit c = true) (list_ascii_of_string w) →
  0 ≤ acc → 0 ≤ int_go acc w.
Proof using.
  revert acc. induction w as [|c w IH]; intros acc Hw Hacc; simpl; [done|].
  simpl in Hw. inversion Hw as [|? ? Hc Hw']; subst.
  apply IH; [done|]. pose proof (digit_value_nonneg c Hc). lia.
Qed.

Lemma decimal_single_digit d : is_digit d = true → 0 ≤ decimal (String d "") ≤ 9.
Proof using.
  intros Hd. unfold decimal. simpl. pose proof (digit_value_nonneg d Hd). lia.
Qed.

(** The quarter pattern captures one digit. *)
Lemma search_quarter_digit s digits :
  Re.search_quarter s = Some digits →
  ∃ d, digits = String d "" ∧ is_digit d = true.
Proof using.
  assert (∀ alt t r, Re.quarter_alt_at alt t = Some r →
                     ∃ d, r = String d "" ∧ is_digit d = true) as Halt.
  { intros alt t r. unfold Re.quarter_alt_at.
    destruct (startswith t alt); [|done].
    destruct (lstrip _) as [|d rest]; [done|].
    destruct (is_digit d) eqn:Hd; [|done].
    intros [= <-]. by exists d. }
  assert (∀ t r, Re.quarter_at t = Some r →
                 ∃ d, r = String d "" ∧ is_digit d = true) as Hat.
  { intros t r. unfold Re.quarter_at.
    destruct (Re.quarter_alt_at "quarter" t) eqn:E1; [intros [= <-]; eauto|].
    destruct (Re.quarter_alt_at "q" t) eqn:E2; [intros [= <-]; eauto|].
    eauto. }
  induction s as [|c s IH]; [done|].
  cbn [Re.search_quarter].
  destruct (Re.quarter_at (String c s)) as [r|] eqn:E; [|apply IH].
  intros [= <-]. eauto.
Qed.

(** The year pattern matches four characters, from 2000 to 2099. *)
Lemma search_year_range s digits :
  Re.search_year s = Some digits →
  String.length digits = 4%nat ∧ 2000 ≤ decimal digits ≤ 2099.
Proof using.
  assert (∀ t r, Re.year_at t = Some r →
                 String.length r = 4%nat ∧ 2000 ≤ decimal r ≤ 2099) as Hat.
  { intros t r. unfold Re.year_at.
    destruct t as [|a [|b [|c [|d rest]]]]; try done.
    destruct (code a =? 50)%N eqn:Ha; simpl; [|done].
    destruct (code b =? 48)%N eqn:Hb; simpl; [|done].
    destruct (is_digit c) eqn:Hc; simpl; [|done].
    destruct (is_digit d) eqn:Hd; simpl; [|done].
    intros [= <-]. split; [done|]. unfold decimal. simpl.
    apply N.eqb_eq in Ha, Hb.
    pose proof (digit_value_nonneg c Hc). pose proof (digit_value_nonneg d Hd).
    unfold digit_value in *. rewrite Ha, Hb. lia. }
  induction s as [|c s IH]; [done|].
  cbn [Re.search_year].
  destruct (Re.year_at (String c s)) as [r|] eqn:E; [|apply IH].
  intros [= <-]. eauto.
Qed.

(** Neither the quarter nor the year is long enough for [int] to refuse
    it. *)
Lemma int_of_match_quarter text_lower :
  ∃ quarter,
    int_of_match (Re.search_quarter text_lower) = Ok quarter
    ∧ ∀ q, quarter = Some q → 0 ≤ q ≤ 9.
Proof using.
  unfold int_of_match.
  destruct (Re.search_quarter text_lower) as [digits|] eqn:E.
  - apply search_quarter_digit in E as (d & -> & Hd).
    rewrite int_Ok; [|by vm_compute]. cbn [and_then].
    eexists. split; [done|]. intros q [= <-]. by apply decimal_single_digit.
  - by exists None.
Qed.

Lemma int_year user_input digits :
  Re.search_year user_input = Some digits →
  int digits = Ok (decimal digits) ∧ 2000 ≤ decimal digits ≤ 2099.
Proof using.
  intros [Hlen Hrange]%search_year_range. split; [|done].
  apply int_Ok. rewrite Hlen. by vm_compute.
Qed.

(** The quarterly rule returns, and leaves the state as it was. *)
Lemma quarterly_rule_result ticker user_input text_lower st :
  ∃ quarterly, quarterly_rule ticker user_input text_lower st = (Ok quarterly, st).
Proof.
  unfold quarterly_rule.
  destruct (any_in quarter_words text_lower); [|by eexists].
  destruct (int_of_match_quarter text_lower) as (quarter & Hq & _).
  unfold bind at 1, lift. rewrite Hq.
  unfold bind, read_year, ret, lift.
  destruct (Re.search_year user_input) as [digits|] eqn:Hy.
  - apply int_year in Hy as [-> _]. destruct (_ || _); by eexists.
  - destruct (truthy_int quarter); destruct (_ || _); by eexists.
Qed.

Lemma quarterly_rule_same_year ticker user_input text_lower st1 st2 :
  now_year (world World st1) = now_year (world World st2) →
  ∃ quarterly,
    quarterly_rule ticker user_input text_lower st1 = (Ok quarterly, st1)
    ∧ quarterly_rule ticker user_input text_lower st2 = (Ok quarterly, st2).
Proof.
  intros Hyear. unfold quarterly_rule.
  destruct (any_in quarter_words text_lower); [|by eexists].
  destruct (int_of_match_quarter text_lower) as (quarter & Hq & _).
  unfold bind at 1 3, lift. rewrite Hq.
  unfold bind, read_year, ret, lift.
  destruct (Re.search_year user_input) as [digits|] eqn:Hy.
  - apply int_year in Hy as [-> _]. destruct (_ || _); by eexists.
  - destruct (truthy_int quarter); rewrite ?Hyear; destruct (_ || _); by eexists.
Qed.

Lemma quarterly_rule_tag ticker user_input text_lower st tag params st' :
  quarterly_rule ticker user_input text_lower st = (Ok (Some (tag, params)), st') →
  tag = "quarterly_financials".
Proof.
  unfold quarterly_rule.
  destruct (any_in quarter_words text_lower); [|intros [=]].
  destruct (int_of_match_quarter text_lower) as (quarter & Hq & _).
  unfold bind at 1, lift. rewrite Hq.
  unfold bind, read_year, ret, lift.
  destruct (Re.search_year user_input) as [digits|] eqn:Hy.
  - apply int_year in Hy as [-> _]. destruct (_ || _); intros [=]; by subst.
  - destruct (truthy_int quarter); destruct (_ || _); intros [=]; by subst.
Qed.

Lemma quarterly_rule_shape ticker user_input text_lower st tag params st' :
  ticker ≠ "" →
  quarterly_rule (Some ticker) user_input text_lower st = (Ok (Some (tag, params)), st') →
  st' = st ∧ decision_shape (now_year (world World st)) tag params.
Proof.
  intros Hne. unfold quarterly_rule.
  destruct (any_in quarter_words text_lower); [|done].
  destruct (int_of_match_quarter text_lower) as (quarter & Hq & Hrange).
  unfold bind at 1, lift. rewrite Hq.
  unfold bind, read_year, ret, lift.
  destruct (Re.search_year user_input) as [digits|] eqn:Hy.
  - apply int_year in Hy as [-> Hy].
    destruct (_ || _) eqn:Hor; [|done]. intros H. simplify_eq.
    split; [done|].
    apply (shape_quarterly _ ticker quarter (Some (decimal digits))); try done.
    intros y [= <-]. by left.
  - destruct (truthy_int quarter) eqn:Ht.
    + destruct (_ || _) eqn:Hor; [|done]. intros H. simplify_eq.
      split; [done|].
      apply (shape_quarterly _ ticker quarter (Some (now_year (world World st'))));
        try done.
      * intros y [= <-]. by right.
      * by rewrite Ht.
    + simpl. done.
Qed.

(** *** The two patterns with word boundaries *)

Lemma append_cons c s t : String c s +:+ t = String c (s +:+ t).
Proof. reflexivity. Qed.

Lemma append_nil s : "" +:+ s = s.
Proof. reflexivity. Qed.

Lemma before_cons prev c pre : before prev (String c pre) = before (is_word c) pre.
Proof. by destruct pre. Qed.

Lemma before_false pre : before false pre = last_is is_word pre.
Proof. by destruct pre. Qed.

Lemma is_digit_word c : is_digit c = true → is_word c = true.
Proof using. intros H. unfold is_word. rewrite H. by rewrite orb_true_r. Qed.

Lemma head_is_word_digit s : head_is is_word s = false → head_is is_digit s = false.
Proof using.
  destruct s as [|c s]; [done|]. simpl. intros H.
  destruct (is_digit c) eqn:Hd; [|done]. apply is_digit_word in Hd. congruence.
Qed.

Lemma ticker_at_Some prev s w :
  Re.ticker_at prev s = Some w →
  prev = false
  ∧ ∃ post,
      s = w +:+ post
      ∧ String.length w = 4%nat
      ∧ Forall (fun c => is_upper c = true) (list_ascii_of_string w)
      ∧ head_is is_word post = false.
Proof.
  unfold Re.ticker_at.
  destruct s as [|a [|b [|c [|d rest]]]]; try done.
  destruct prev; simpl; [done|].
  destruct (is_upper a) eqn:Ha; simpl; [|done].
  destruct (is_upper b) eqn:Hb; simpl; [|done].
  destruct (is_upper c) eqn:Hc; simpl; [|done].
  destruct (is_upper d) eqn:Hd; simpl; [|done].
  destruct (head_is is_word rest) eqn:Hr; simpl; [done|].
  intros [= <-]. split; [done|]. exists rest.
  repeat split; try done. simpl. by repeat constructor.
Qed.

Lemma ticker_at_None prev s w post :
  Re.ticker_at prev s = None →
  s = w +:+ post →
  String.length w = 4%nat →
  Forall (fun c => is_upper c = true) (list_ascii_of_string w) →
  head_is is_word post = false →
  prev = true.
Proof.
  intros Hat -> Hlen Hup Hpost.
  destruct w as [|a [|b [|c [|d [|]]]]]; try done.
  simpl in Hup.
  inversion Hup as [|? ? Ha Hup1]; subst.
  inversion Hup1 as [|? ? Hb Hup2]; subst.
  inversion Hup2 as [|? ? Hc Hup3]; subst.
  inversion Hup3 as [|? ? Hd _]; subst.
  rewrite !append_cons, append_nil in Hat. unfold Re.ticker_at in Hat.
  rewrite Ha, Hb, Hc, Hd, Hpost in Hat.
  by destruct prev.
Qed.

(** What [re.search] finds for the ticker pattern: the leftmost word of
    four capital letters. *)
Lemma search_ticker_from_spec prev s w :
  Re.search_ticker_from prev s = Some w →
  ∃ pre post,
    s = pre +:+ w +:+ post
    ∧ String.length w = 4%nat
    ∧ Forall (fun c => is_upper c = true) (list_ascii_of_string w)
    ∧ before prev pre = false
    ∧ head_is is_word post = false
    ∧ ∀ pre' w' post',
        s = pre' +:+ w' +:+ post' →
        String.length w' = 4%nat →
        Forall (fun c => is_upper c = true) (list_ascii_of_string w') →
        before prev pre' = false →
        head_is is_word post' = false →
        (String.length pre ≤ String.length pre')%nat.
Proof.
  revert prev. induction s as [|c s IH]; intros prev; [done|].
  cbn [Re.search_ticker_from].
  destruct (Re.ticker_at prev (String c s)) as [w0|] eqn:Hat.
  - intros [= <-].
    apply ticker_at_Some in Hat as (-> & post & Hs & Hlen & Hup & Hpost).
    exists "", post. repeat split; try done. intros. simpl. lia.
  - intros H. apply IH in H as (pre & post & Hs & Hlen & Hup & Hb & Hpost & Hmin).
    exists (String c pre), post.
    split; [by rewrite append_cons, <- Hs|].
    split; [done|]. split; [done|].
    split; [by rewrite before_cons|]. split; [done|].
    intros pre' w' post' Hs' Hlen' Hup' Hb' Hpost'.
    destruct pre' as [|c' pre''].
    + simpl in Hb'. rewrite append_nil in Hs'.
      pose proof (ticker_at_None _ _ _ _ Hat Hs' Hlen' Hup' Hpost'). congruence.
    + rewrite append_cons in Hs'. injection Hs' as <- Hs'.
      rewrite before_cons in Hb'.
      pose proof (Hmin pre'' w' post' Hs' Hlen' Hup' Hb' Hpost'). simpl. lia.
Qed.

(** And when it finds nothing, there is no such word. *)
Lemma search_ticker_from_None prev s pre w post :
  Re.search_ticker_from prev s = None →
  s = pre +:+ w +:+ post →
  String.length w = 4%nat →
  Forall (fun c => is_upper c = true) (list_ascii_of_string w) →
  before prev pre = false →
  head_is is_word post = false →
  False.
Proof.
  revert prev pre. induction s as [|c s IH]; intros prev pre.
  - intros _ Hs Hlen. destruct pre; [|done]. by destruct w.
  - cbn [Re.search_ticker_from].
    destruct (Re.ticker_at prev (String c s)) as [w0|] eqn:Hat; [done|].
    intros Hnone Hs Hlen Hup Hb Hpost.
    destruct pre as [|c' pre'].
    + simpl in Hb. rewrite append_nil in Hs.
      pose proof (ticker_at_None _ _ _ _ Hat Hs Hlen Hup Hpost). congruence.
    + rewrite append_cons in Hs. injection Hs as <- Hs.
      rewrite before_cons in Hb. by apply (IH (is_word c) pre').
Qed.

Lemma search_ticker_first w text :
  Re.search_ticker text = Some w → first_four_letter_word w text.
Proof.
  intros H. apply search_ticker_from_spec in H
    as (pre & post & Hs & Hlen & Hup & Hb & Hpost & Hmin).
  exists pre, post. split.
  - repeat split; try done. by rewrite <- before_false.
  - intros pre' w' post' (Hs' & Hlen' & Hup' & Hb' & Hpost').
    apply (Hmin pre' w' post'); try done. by rewrite before_false.
Qed.

Lemma append_inj_length (a b c d : string) :
  a +:+ b = c +:+ d → String.length a = String.length c → a = c ∧ b = d.
Proof using.
  revert c. induction a as [|x a IH]; intros [|y c]; simpl; try done.
  intros [= -> H] [= Hl]. destruct (IH c H Hl) as [-> ->]. done.
Qed.

(** The first word of four capital letters is the one that [re.search]
    finds. *)
Lemma first_four_letter_word_found w text :
  first_four_letter_word w text → Re.search_ticker text = Some w.
Proof.
  intros (pre & post & (Hs & Hlen & Hup & Hb & Hpost) & Hmin).
  destruct (Re.search_ticker text) as [w0|] eqn:Hsearch.
  - apply search_ticker_first in Hsearch
      as (pre0 & post0 & (Hs0 & Hlen0 & Hup0 & Hb0 & Hpost0) & Hmin0).
    assert (String.length pre = String.length pre0) as Hl.
    { apply Nat.le_antisymm.
      - apply (Hmin pre0 w0 post0). by repeat split.
      - apply (Hmin0 pre w post). by repeat split. }
    rewrite Hs0 in Hs.
    apply append_inj_length in Hs as [_ Hs]; [|done].
    apply append_inj_length in Hs as [-> _]; [done | congruence].
  - exfalso. apply (search_ticker_from_None false text pre w post); try done.
    by rewrite before_false.
Qed.

Lemma digits_prefix_digits s :
  Forall (fun c => is_digit c = true) (list_ascii_of_string (Re.digits_prefix s)).
Proof using.
  induction s as [|c s IH]; simpl; [constructor|].
  destruct (is_digit c) eqn:Hc; simpl; constructor; done.
Qed.

Lemma digits_prefix_split s :
  s = Re.digits_prefix s +:+ drop (String.length (Re.digits_prefix s)) s.
Proof using.
  induction s as [|c s IH]; [done|]. simpl.
  destruct (is_digit c); [|done]. simpl. rewrite append_cons. by f_equal.
Qed.

Lemma digits_prefix_rest s :
  head_is is_digit (drop (String.length (Re.digits_prefix s)) s) = false.
Proof using.
  induction s as [|c s IH]; [done|]. simpl.
  destruct (is_digit c) eqn:Hc; [done|]. simpl. by rewrite Hc.
Qed.

Lemma digits_prefix_app digits post :
  Forall (fun c => is_digit c = true) (list_ascii_of_string digits) →
  head_is is_digit post = false →
  Re.digits_prefix (digits +:+ post) = digits.
Proof using.
  induction digits as [|c digits IH]; simpl; intros Hd Hpost.
  - destruct post as [|c post]; [done|]. simpl in *. by rewrite Hpost.
  - inversion Hd as [|? ? Hc Hd']; subst. rewrite Hc. by rewrite IH.
Qed.

Lemma drop_app_length s t : drop (String.length s) (s +:+ t) = t.
Proof using. induction s as [|c s IH]; [by destruct t | done]. Qed.

Lemma int_at_Some prev s w :
  Re.int_at prev s = Some w →
  prev = false
  ∧ ∃ post,
      s = w +:+ post
      ∧ w ≠ ""
      ∧ Forall (fun c => is_digit c = true) (list_ascii_of_string w)
      ∧ head_is is_word post = false.
Proof using.
  unfold Re.int_at.
  destruct prev; simpl; [done|].
  destruct (head_is is_digit s) eqn:Hd; simpl; [|done].
  destruct (head_is is_word _) eqn:Hw; simpl; [done|].
  intros [= <-]. split; [done|].
  exists (drop (String.length (Re.digits_prefix s)) s).
  split; [apply digits_prefix_split|].
  split; [|split; [apply digits_prefix_digits | done]].
  destruct s as [|c s]; [done|]. simpl in Hd. simpl. by rewrite Hd.
Qed.

Lemma int_at_None prev s w post :
  Re.int_at prev s = None →
  s = w +:+ post →
  w ≠ "" →
  Forall (fun c => is_digit c = true) (list_ascii_of_string w) →
  head_is is_word post = false →
  prev = true.
Proof using.
  intros Hat -> Hne Hd Hpost. unfold Re.int_at in Hat.
  rewrite (digits_prefix_app w post Hd (head_is_word_digit _ Hpost)) in Hat.
  rewrite drop_app_length, Hpost in Hat.
  destruct w as [|c w]; [done|]. inversion Hd as [|? ? Hc _]; subst.
  simpl in Hat. rewrite Hc in Hat. by destruct prev.
Qed.

(** What [re.search] finds for the number pattern: the leftmost run of
    digits that stands alone as a word. *)
Lemma search_int_from_spec prev s w :
  Re.search_int_from prev s = Some w →
  ∃ pre post,
    s = pre +:+ w +:+ post
    ∧ w ≠ ""
    ∧ Forall (fun c => is_digit c = true) (list_ascii_of_string w)
    ∧ before prev pre = false
    ∧ head_is is_word post = false
    ∧ ∀ pre' w' post',
        s = pre' +:+ w' +:+ post' →
        w' ≠ "" →
        Forall (fun c => is_digit c = true) (list_ascii_of_string w') →
        before prev pre' = false →
        head_is is_word post' = false →
        (String.length pre ≤ String.length pre')%nat.
Proof using.
  revert prev. induction s as [|c s IH]; intros prev.
  { cbn [Re.search_int_from]. destruct (Re.int_at prev "") as [w0|] eqn:Hat; [|done].
    apply int_at_Some in Hat as (_ & post & Hs & Hne & _). by destruct w0. }
  cbn [Re.search_int_from].
  destruct (Re.int_at prev (String c s)) as [w0|] eqn:Hat.
  - intros [= <-].
    apply int_at_Some in Hat as (-> & post & Hs & Hne & Hd & Hpost).
    exists "", post. repeat split; try done. intros. simpl. lia.
  - intros H. apply IH in H as (pre & post & Hs & Hne & Hd & Hb & Hpost & Hmin).
    exists (String c pre), post.
    split; [by rewrite append_cons, <- Hs|].
    split; [done|]. split; [done|].
    split; [by rewrite before_cons|]. split; [done|].
    intros pre' w' post' Hs' Hne' Hd' Hb' Hpost'.
    destruct pre' as [|c' pre''].
    + simpl in Hb'. rewrite append_nil in Hs'.
      pose proof (int_at_None _ _ _ _ Hat Hs' Hne' Hd' Hpost'). congruence.
    + rewrite append_cons in Hs'. injection Hs' as <- Hs'.
      rewrite before_cons in Hb'.
      pose proof (Hmin pre'' w' post' Hs' Hne' Hd' Hb' Hpost'). simpl. lia.
Qed.

Lemma search_int_from_None prev s pre w post :
  Re.search_int_from prev s = None →
  s = pre +:+ w +:+ post →
  w ≠ "" →
  Forall (fun c => is_digit c = true) (list_ascii_of_string w) →
  before prev pre = false →
  head_is is_word post = false →
  False.
Proof using.
  revert prev pre. induction s as [|c s IH]; intros prev pre.
  - intros _ Hs Hne. destruct pre; [|done]. by destruct w.
  - cbn [Re.search_int_from].
    destruct (Re.int_at prev (String c s)) as [w0|] eqn:Hat; [done|].
    intros Hnone Hs Hne Hd Hb Hpost.
    destruct pre as [|c' pre'].
    + simpl in Hb. rewrite append_nil in Hs.
      pose proof (int_at_None _ _ _ _ Hat Hs Hne Hd Hpost). congruence.
    + rewrite append_cons in Hs. injection Hs as <- Hs.
      rewrite before_cons in Hb. by apply (IH (is_word c) pre').
Qed.

Lemma search_int_first w text :
  Re.search_int text = Some w → first_number w text.
Proof using.
  intros H. apply search_int_from_spec in H
    as (pre & post & Hs & Hne & Hd & Hb & Hpost & Hmin).
  exists pre, post. split.
  - repeat split; try done. by rewrite <- before_false.
  - intros pre' w' post' (Hs' & Hne' & Hd' & Hb' & Hpost').
    apply (Hmin pre' w' post'); try done. by rewrite before_false.
Qed.

Lemma search_int_none text :
  Re.search_int text = None → no_number text.
Proof using.
  intros H pre w post (Hs & Hne & Hd & Hb & Hpost).
  apply (search_int_from_None false text pre w post); try done.
  by rewrite before_false.
Qed.


(** *** The count of a ranking request *)

(** The count is the first number of the text that stands alone, capped at
    50, and 5 when there is none; [int] refuses a number of more than 4300
    digits. *)
Lemma top_limit_outcome user_input :
  (∃ limit,
     top_limit user_input = Ok limit
     ∧ 0 ≤ limit ≤ 50
     ∧ ((∃ digits, first_number digits user_input
                   ∧ Z.of_nat (String.length digits) ≤ int_max_str_digits
                   ∧ limit = Z.min (decimal digits) 50)
        ∨ (no_number user_input ∧ limit = 5)))
  ∨ (∃ digits,
       top_limit user_input = Raise (ValueError_int_limit digits)
       ∧ first_number digits user_input
       ∧ int_max_str_digits < Z.of_nat (String.length digits)).
Proof using.
  unfold top_limit.
  destruct (Re.search_int user_input) as [digits|] eqn:Hs.
  2: { left. exists 5. split; [done|]. split; [lia|]. right.
       split; [by apply search_int_none | done]. }
  pose proof (search_int_first _ _ Hs) as Hfirst.
  destruct (Z_le_gt_dec (Z.of_nat (String.length digits)) int_max_str_digits)
    as [Hle|Hgt].
  - left. rewrite (int_Ok _ Hle). cbn [and_then].
    exists (Z.min (decimal digits) 50). split; [done|].
    assert (0 ≤ decimal digits) as Hn.
    { destruct Hfirst as (pre & post & (_ & _ & Hd & _) & _).
      by apply int_go_nonneg. }
    split; [lia|]. left. by exists digits.
  - right. exists digits. rewrite int_Raise; [|lia]. repeat split; [done|lia].
Qed.

(** *** The extracted ticker *)

Lemma quick_match_first items text_lower ticker :
  quick_match items text_lower = Some ticker →
  ∃ key, first_alias items text_lower key ticker.
Proof using.
  induction items as [|[k t] items IH]; simpl; [done|].
  destruct (contains k text_lower) eqn:Hk.
  - intros [= ->]. exists k, [], items. by repeat split.
  - intros H. destruct (IH H) as (key & pre & post & -> & Hkey & Hpre).
    exists key, ((k, t) :: pre), post. repeat split; [done|]. by constructor.
Qed.

Lemma quick_match_nonempty text_lower ticker :
  quick_match quick_map text_lower = Some ticker → ticker ≠ "".
Proof using.
  intros H. apply quick_match_first in H as (key & pre & post & Hitems & _ & _).
  assert (In (key, ticker) quick_map) as Hin.
  { rewrite Hitems. apply in_or_app. right. by left. }
  unfold quick_map in Hin. simpl in Hin.
  repeat (destruct Hin as [[= <- <-]|Hin]; [done|]). done.
Qed.

Lemma explicit_ticker_nonempty text w : explicit_ticker text = Some w → w ≠ "".
Proof using.
  unfold explicit_ticker.
  destruct (Re.search_ticker (upper text)) as [pt|] eqn:Hs; [|done].
  destruct (negb _); [|done]. intros [= <-].
  apply search_ticker_from_spec in Hs as (_ & _ & _ & Hlen & _).
  by destruct pt.
Qed.

Lemma first_ticker_by_name_nonempty names st ticker st' :
  first_ticker_by_name names st = (Ok (Some ticker), st') → ticker ≠ "".
Proof.
  revert st. induction names as [|name rest IH]; intros st; [done|].
  rewrite first_ticker_by_name_cons.
  destruct (find_ticker_by_name name st) as [[t|e] st1]; [|done].
  destruct (truthy_str t) eqn:Ht; [|apply IH].
  intros [= -> ->]. by destruct ticker.
Qed.

Lemma extract_ticker_truthy text st ticker st' :
  extract_ticker text st = (Ok ticker, st') →
  truthy_str ticker = bool_decide (is_Some ticker).
Proof.
  intros H. destruct ticker as [t|]; [|done].
  assert (t ≠ "") as Hne.
  { revert H. unfold extract_ticker.
    destruct (quick_match quick_map (lower text)) as [a|] eqn:Hq.
    - intros [= -> _]. by apply quick_match_nonempty with (lower text).
    - destruct (explicit_ticker text) as [w|] eqn:He.
      + intros [= -> _]. by apply explicit_ticker_nonempty with text.
      + apply first_ticker_by_name_nonempty. }
  by destruct t.
Qed.

(** [extract_ticker] returns [None] or a non-empty string, unless the loop
    over the companies meets a record that it cannot read. *)
Lemma extract_ticker_outcome text st :
  (∃ ticker st',
     extract_ticker text st = (Ok ticker, st')
     ∧ truthy_str ticker = bool_decide (is_Some ticker))
  ∨ (∃ e st', extract_ticker text st = (Raise e, st') ∧ unreadable_cache st').
Proof.
  destruct (extract_ticker text st) as [[ticker|e] st'] eqn:H.
  - left. exists ticker, st'. split; [done|]. by apply extract_ticker_truthy in H.
  - right. exists e, st'. split; [done|]. by apply extract_ticker_raise in H.
Qed.

(** *** The decisions of the router *)

Lemma general_rules_tag text_lower :
  In (fst (general_rules text_lower))
     [ "market_news"; "companies_by_index"; "companies_subsector";
       "subsector_report"; "unknown" ].
Proof using.
  unfold general_rules.
  destruct (any_in news_words text_lower); [simpl; auto|].
  destruct (index_rule _ _); [simpl; auto|].
  destruct (subsector_rule _ _); [|simpl; auto 6].
  destruct (any_in report_words text_lower); simpl; auto.
Qed.

Lemma index_rule_names text_lower index_name :
  index_rule index_keywords text_lower = Some index_name →
  In index_name [ "LQ45"; "IDX30"; "KOMPAS100" ].
Proof using.
  unfold index_keywords. simpl.
  repeat (destruct (contains _ text_lower);
          [intros [= <-]; vm_compute; auto 6|]).
  done.
Qed.

Lemma subsector_rule_names text_lower subsector :
  subsector_rule subsector_map text_lower = Some subsector →
  In subsector [ "banks"; "telecommunication"; "energy"; "mining" ].
Proof using.
  unfold subsector_map. simpl.
  repeat (destruct (contains _ text_lower); [intros [= <-]; simpl; auto 6|]).
  done.
Qed.

Lemma general_rules_shape now text_lower :
  decision_shape now (fst (general_rules text_lower)) (snd (general_rules text_lower)).
Proof using.
  unfold general_rules.
  destruct (any_in news_words text_lower); [apply shape_general_news|].
  destruct (index_rule index_keywords text_lower) as [i|] eqn:Hi.
  { apply shape_index. by apply index_rule_names with text_lower. }
  destruct (subsector_rule subsector_map text_lower) as [sub|] eqn:Hs;
    [|apply shape_unknown].
  apply subsector_rule_names in Hs.
  destruct (any_in report_words text_lower);
    [by apply shape_subsector_report | by apply shape_subsector].
Qed.

(** The router once the ticker extraction has returned: it raises only in
    the ranking rule, when [int] refuses the number. *)
Lemma route_after_extraction user_input chat_history st ticker st1 :
  extract_ticker user_input st = (Ok ticker, st1) →
  detect_intent_and_route user_input chat_history st
  = if is_top_rule (lower user_input)
    then match top_limit user_input with
         | Ok number => (Ok ("top_market_cap", {[ "limit" := VInt number ]}), st1)
         | Raise e => (Raise e, st1)
         end
    else if truthy_str ticker
    then match quarterly_rule ticker user_input (lower user_input) st1 with
         | (Ok (Some decision), _) => (Ok decision, st1)
         | _ =>
             if any_in segment_words (lower user_input)
             then (Ok ("company_segments", {[ "ticker" := of_opt_str ticker ]}), st1)
             else if any_in news_words (lower user_input)
             then (Ok ("market_news",
                       {[ "query" := of_opt_str ticker; "limit" := VInt 10 ]}), st1)
             else (Ok ("stock_info", {[ "ticker" := of_opt_str ticker ]}), st1)
         end
    else (Ok (general_rules (lower user_input)), st1).
Proof.
  intros He. unfold detect_intent_and_route. unfold bind at 1. rewrite He.
  destruct (is_top_rule (lower user_input)).
  { unfold bind, lift, ret. by destruct (top_limit user_input). }
  destruct (truthy_str ticker); [|done].
  unfold bind at 1.
  destruct (quarterly_rule_result ticker user_input (lower user_input) st1)
    as (quarterly & ->).
  destruct quarterly as [decision|]; [done|].
  destruct (any_in segment_words _); [done|].
  by destruct (any_in news_words _).
Qed.

(** The three ways in which the router decides: the ranking rule, the
    rules of a found ticker, the rules without a ticker. *)
Lemma detect_intent_and_route_cases user_input chat_history st tag params st' :
  detect_intent_and_route user_input chat_history st = (Ok (tag, params), st') →
  ∃ ticker,
    extract_ticker user_input st = (Ok ticker, st')
    ∧ ((is_top_rule (lower user_input) = true
        ∧ tag = "top_market_cap"
        ∧ ∃ number, top_limit user_input = Ok number
                    ∧ params = {[ "limit" := VInt number ]})
       ∨ (is_top_rule (lower user_input) = false
          ∧ truthy_str ticker = true
          ∧ In tag [ "quarterly_financials"; "company_segments";
                     "market_news"; "stock_info" ])
       ∨ (is_top_rule (lower user_input) = false
          ∧ truthy_str ticker = false
          ∧ (tag, params) = general_rules (lower user_input))).
Proof.
  destruct (extract_ticker user_input st) as [[ticker|e] st1] eqn:He.
  2: { unfold detect_intent_and_route, bind. rewrite He. done. }
  rewrite (route_after_extraction _ chat_history _ _ _ He).
  destruct (is_top_rule (lower user_input)) eqn:Htop.
  { destruct (top_limit user_input) as [number|e] eqn:Ht; [|done].
    intros [= <- <- <-]. exists ticker. split; [done|]. left.
    split; [done|]. split; [done|]. by exists number. }
  destruct (truthy_str ticker) eqn:Htr.
  2: { intros [= Hg <-]. exists ticker. split; [done|]. right. right.
       split; [done|]. split; [done|]. by rewrite Hg. }
  intros H. exists ticker.
  assert (st1 = st'
          ∧ In tag [ "quarterly_financials"; "company_segments";
                     "market_news"; "stock_info" ]) as [<- Hin].
  { revert H.
    destruct (quarterly_rule ticker user_input (lower user_input) st1)
      as [[[[tag' params']|]|e] st2] eqn:Hq.
    - apply quarterly_rule_tag in Hq as ->. intros [= <- <- <-]. simpl; auto 10.
    - destruct (any_in segment_words _); [intros [= <- <- <-]; simpl; auto 10|].
      destruct (any_in news_words _); intros [= <- <- <-]; simpl; auto 10.
    - destruct (any_in segment_words _); [intros [= <- <- <-]; simpl; auto 10|].
      destruct (any_in news_words _); intros [= <- <- <-]; simpl; auto 10. }
  split; [done|]. right. left. by repeat split.
Qed.


(** Every outcome of the router: a decision of one of the ten shapes, or
    an exception, raised by the loop over the companies on a record that it
    cannot read, or by [int] on the number of a ranking request. *)
Lemma detect_intent_and_route_outcome
    (user_input : string) (chat_history : option (list Message)) (st : State) :
  (∃ tag params st',
     detect_intent_and_route user_input chat_history st = (Ok (tag, params), st')
     ∧ decision_shape (now_year (world World st')) tag params)
  ∨ (∃ e st',
       detect_intent_and_route user_input chat_history st = (Raise e, st')
       ∧ (unreadable_cache st'
          ∨ (is_top_rule (lower user_input) = true
             ∧ ∃ digits,
                 first_number digits user_input
                 ∧ int_max_str_digits < Z.of_nat (String.length digits)
                 ∧ e = ValueError_int_limit digits))).
Proof.
  destruct (extract_ticker_outcome user_input st)
    as [(ticker & st1 & He & Ht) | (e & st1 & He & Hu)].
  2: { right. exists e, st1. split; [|by left].
       unfold detect_intent_and_route, bind. by rewrite He. }
  rewrite (route_after_extraction _ chat_history _ _ _ He).
  destruct (is_top_rule (lower user_input)) eqn:Htop.
  { destruct (top_limit_outcome user_input)
      as [(limit & -> & Hb & _) | (digits & -> & Hf & Hlong)].
    - left. eexists _, _, _. split; [reflexivity|]. by apply shape_top.
    - right. eexists _, _. split; [reflexivity|]. right. split; [done|].
      by exists digits. }
  left. destruct ticker as [t|].
  2: { exists (fst (general_rules (lower user_input))),
              (snd (general_rules (lower user_input))), st1.
       split; [|apply general_rules_shape].
       cbn [truthy_str]. by destruct (general_rules (lower user_input)). }
  assert (truthy_str (Some t) = true) as Htrue.
  { rewrite Ht. apply bool_decide_eq_true. by eexists. }
  assert (t ≠ "") as Hne by (by destruct t).
  rewrite Htrue.
  destruct (quarterly_rule_result (Some t) user_input (lower user_input) st1)
    as (quarterly & Hq).
  rewrite Hq. destruct quarterly as [[tag params]|].
  - apply quarterly_rule_shape in Hq as [_ Hshape]; [|done].
    by exists tag, params, st1.
  - destruct (any_in segment_words _).
    { eexists _, _, _. split; [reflexivity|]. by apply shape_segments. }
    destruct (any_in news_words _).
    { eexists _, _, _. split; [reflexivity|]. by apply shape_ticker_news. }
    eexists _, _, _. split; [reflexivity|]. by apply shape_stock_info.
Qed.

Lemma dispatch_None intent : dispatch intent = None ↔ ¬ In intent dispatch_tags.
Proof using.
  unfold dispatch, dispatch_tags.
  repeat match goal with
  | |- context [String.eqb intent ?s] =>
      destruct (String.eqb_spec intent s) as [->|?];
        [split; [done | intros Hn; exfalso; apply Hn; simpl; auto 10] |]
  end.
  split; [|done]. intros _ Hin. simpl in Hin.
  repeat (destruct Hin as [Hin|Hin]; [congruence|]). done.
Qed.

Lemma decision_shape_tag now tag params :
  decision_shape now tag params → In tag routed_tags.
Proof using. intros []; simpl; auto 12. Qed.

Lemma decision_shape_accepted now tag params tool :
  decision_shape now tag params →
  dispatch tag = Some tool →
  accepts (tool_signature tool) params = true.
Proof using.
  intros Hshape Hd.
  destruct Hshape as [limit _ | ticker quarter year _ _ _ _ | ticker _ | ticker _
                      | ticker _ | | index_name _ | subsector _ | subsector _ | ];
    vm_compute in Hd; simplify_eq;
    try (destruct quarter, year); by vm_compute.
Qed.

(** *** Claims *)

(** Claim C10. Whatever the text, the history and the state, a decision
    of the router carries one of the nine tags other than
    [idx_market_cap_history], so that the dispatch of [execute_tool] on a
    routed tag never selects the tool of that tag. The router has no
    handler: it returns such a decision, or it raises and returns none. *)
Theorem C10_never_routes_idx_market_cap_history
    (user_input : string) (chat_history : option (list Message)) (st : State) :
  (∃ tag params st',
     detect_intent_and_route user_input chat_history st = (Ok (tag, params), st')
     ∧ In tag routed_tags
     ∧ tag ≠ "idx_market_cap_history"
     ∧ dispatch tag ≠ Some get_idx_market_cap_history)
  ∨ (∃ e st', detect_intent_and_route user_input chat_history st = (Raise e, st')).
Proof.
  destruct (detect_intent_and_route_outcome user_input chat_history st)
    as [(tag & params & st' & H & Hshape) | (e & st' & H & _)];
    [left | right; by exists e, st'].
  exists tag, params, st'. split; [done|].
  apply decision_shape_tag in Hshape as Hin. split; [done|].
  simpl in Hin.
  repeat (destruct Hin as [<-|Hin]; [split; [done | by vm_compute] |]).
  done.
Qed.

(** Claim C8. [execute_tool] returns from every state for every tag and
    parameter mapping; when the dispatched tool raises, the result is
    [None]; when it returns, its result is passed on; a tag outside the
    dispatch table gives [None] and leaves the state alone. *)
Theorem C8_execute_tool_never_raises
    (intent : string) (params : gmap string pyval) (st : State) :
  (∃ result st', execute_tool intent params st = (Ok result, st'))
  ∧ (∀ tool e w',
       dispatch intent = Some tool →
       tool_invoke tool params (world World st) = (Raise e, w') →
       execute_tool intent params st
       = (Ok None, {| COMPANY_CACHE := COMPANY_CACHE World st; world := w' |}))
  ∧ (∀ tool result w',
       dispatch intent = Some tool →
       tool_invoke tool params (world World st) = (Ok result, w') →
       execute_tool intent params st
       = (Ok result, {| COMPANY_CACHE := COMPANY_CACHE World st; world := w' |}))
  ∧ (¬ In intent dispatch_tags → execute_tool intent params st = (Ok None, st)).
Proof.
  split; [apply returns_execute_tool|].
  unfold execute_tool, try_except, bind, call, ret.
  repeat split.
  - intros tool e w' -> Ht. by rewrite Ht.
  - intros tool result w' -> Ht. by rewrite Ht.
  - intros Hn. apply dispatch_None in Hn. by rewrite Hn.
Qed.

(** Claim C1, as the code has it. For the text "halo apa kabar" the
    router finds the token HALO, which is not a common word, and the news
    keyword "kabar": it returns [market_news] for HALO with limit 10,
    whatever the history and the state. *)
Theorem C1_halo_apa_kabar_routes_to_news
    (chat_history : option (list Message)) (st : State) :
  detect_intent_and_route "halo apa kabar" chat_history st
  = (Ok ("market_news", {[ "query" := VStr "HALO"; "limit" := VInt 10 ]}), st).
Proof. vm_compute. reflexivity. Qed.

(** Claim C6. For the text "laporan kuartal Q2 2024 BBCA" the router
    returns [quarterly_financials] with ticker BBCA, quarter 2 and year
    2024, whatever the history and the state. *)
Theorem C6_quarterly_example
    (chat_history : option (list Message)) (st : State) :
  detect_intent_and_route "laporan kuartal Q2 2024 BBCA" chat_history st
  = (Ok ("quarterly_financials",
         {[ "ticker" := VStr "BBCA"; "quarter" := VInt 2; "year" := VInt 2024 ]}),
     st).
Proof. vm_compute. reflexivity. Qed.

(** *** The limit of a ranking request *)

(** The one request of [get_top_stocks_by_market_cap]: it asks for the
    limit raised to 1 and capped at 50. *)
Lemma top_stocks_request client limit sector w :
  snd (tool_get_top_stocks_by_market_cap World requests_get json_dumps repr error_text
         (Some client) limit sector w)
  = snd (requests_get (BASE_URL +:+ "/" +:+ "companies/top/") (strip (api_key client))
           (Some (top_request (clamp 50 limit))) w).
Proof using.
  unfold tool_get_top_stocks_by_market_cap, guarded, io_bind, io_lift, io_ret,
    client_get_companies_top, make_request.
  cbn [List.filter snd of_opt_int].
  change (bool_text false) with "false". fold (top_request (clamp 50 limit)).
  destruct (requests_get _ _ _ w) as [[status_code text [data|e]| | |e] w']; cbn [snd];
    repeat match goal with
    | |- context [if ?b then _ else _] => destruct b
    end;
    try done;
    try (destruct (data_of error_text data); done);
    destruct (data_of error_text _); done.
Qed.

(** Claim C3, as the code has it. When the router answers
    [top_market_cap] for a text of ASCII characters, its only parameter is
    [limit]: the first number of the text that stands alone as a word,
    capped at 50, or 5 when there is none. The limit lies between 0 and 50:
    the router does not raise 0 to 1. The floor at 1 is the one of
    [get_top_stocks_by_market_cap]: the one request that the tool sends on
    these parameters asks for the limit raised to 1, between 1 and 50. *)
Theorem C3_top_market_cap_limit
    (user_input : string) (chat_history : option (list Message))
    (st st' : State) (params : gmap string pyval) :
  is_ascii user_input = true →
  detect_intent_and_route user_input chat_history st
  = (Ok ("top_market_cap", params), st') →
  ∃ limit,
    params = {[ "limit" := VInt limit ]}
    ∧ ((∃ digits, first_number digits user_input
                  ∧ limit = Z.min (decimal digits) 50)
       ∨ (no_number user_input ∧ limit = 5))
    ∧ 0 ≤ limit ≤ 50
    ∧ clamp 50 limit = Z.max 1 limit
    ∧ 1 ≤ clamp 50 limit ≤ 50
    ∧ ∀ client w,
        snd (run_tool (Some client) get_top_stocks_by_market_cap params w)
        = snd (requests_get (BASE_URL +:+ "/" +:+ "companies/top/")
                 (strip (api_key client)) (Some (top_request (clamp 50 limit))) w).
Proof.
  intros _ H.
  apply detect_intent_and_route_cases in H as (ticker & _ & Hc).
  destruct Hc as [(_ & _ & limit & Hl & ->) | [(_ & _ & Hin) | (_ & _ & Hg)]].
  - exists limit. split; [done|].
    destruct (top_limit_outcome user_input)
      as [(limit' & Hl' & Hb & Hor) | (digits & Hl' & _)]; [|congruence].
    assert (limit' = limit) as -> by congruence.
    split.
    { destruct Hor as [(digits & Hf & _ & ->)|Hnone]; [left; by exists digits | by right]. }
    split; [done|]. unfold clamp. split; [lia|]. split; [lia|].
    intros client w. unfold run_tool, arg_int. rewrite lookup_singleton_eq.
    apply top_stocks_request.
  - simpl in Hin. repeat (destruct Hin as [Hin|Hin]; [discriminate|]). done.
  - pose proof (general_rules_tag (lower user_input)) as Hin.
    rewrite <- Hg in Hin. simpl in Hin.
    repeat (destruct Hin as [Hin|Hin]; [discriminate|]). done.
Qed.

(** *** Classification *)



(** *** Orchestration *)

(** Claim C2. Whatever the text, the history and the document context:
    when the tool executor, on the decision routed for the resolved
    query, returns no result or a string that starts with the error
    marker, [run_agent] returns [None]. *)
Theorem C2_tool_failure_falls_back
    (user_input : string) (chat_history : option (list Message))
    (rag_context : string) (st st1 st2 st3 : State)
    (resolved_query intent : string) (params : gmap string pyval)
    (tool_result : option string) :
  resolve_query_with_context user_input chat_history st = (Ok resolved_query, st1) →
  detect_intent_and_route resolved_query chat_history st1 = (Ok (intent, params), st2) →
  execute_tool intent params st2 = (Ok tool_result, st3) →
  tool_failed tool_result →
  ∃ st', run_agent user_input chat_history rag_context st = (Ok None, st').
Proof.
  intros Hr Hd He Hf.
  unfold run_agent, try_except. unfold bind at 1. rewrite Hr.
  unfold bind at 1. rewrite Hd. cbv iota beta.
  destruct (String.eqb intent "unknown"); cbn [negb];
    [by eexists|].
  unfold bind at 1. rewrite He.
  destruct Hf as [-> | (s & -> & Hs)]; [by eexists|].
  destruct s as [|c r]; [by eexists|].
  rewrite Hs. simpl. by eexists.
Qed.

(** *** The router on a populated cache *)

Lemma first_ticker_by_name_cached names cs st1 st2 :
  COMPANY_CACHE World st1 = Some cs → COMPANY_CACHE World st2 = Some cs →
  ∃ outcome,
    first_ticker_by_name names st1 = (outcome, st1)
    ∧ first_ticker_by_name names st2 = (outcome, st2).
Proof.
  intros H1 H2. induction names as [|name rest IH].
  - by exists (Ok None).
  - rewrite !first_ticker_by_name_cons.
    rewrite (find_ticker_by_name_cached name st1 cs H1),
            (find_ticker_by_name_cached name st2 cs H2).
    destruct (if String.eqb name "" then _ else _) as [ticker|e]; [|by eexists].
    destruct (truthy_str ticker); [by eexists | done].
Qed.

Lemma extract_ticker_cached text cs st1 st2 :
  COMPANY_CACHE World st1 = Some cs → COMPANY_CACHE World st2 = Some cs →
  ∃ outcome,
    extract_ticker text st1 = (outcome, st1)
    ∧ extract_ticker text st2 = (outcome, st2).
Proof.
  intros H1 H2. unfold extract_ticker.
  destruct (quick_match _ _); [by eexists|].
  destruct (explicit_ticker _); [by eexists|].
  by apply first_ticker_by_name_cached with cs.
Qed.

(** Claim C9, as the code has it. The outcome of the router, a decision
    or an exception, is a function of the text, of the cached company list
    and of the year on the clock: two calls on the same text with the same
    populated cache in the same year have the same outcome and leave the
    state as it was, whatever the two histories and whatever else differs
    in the world. *)
Theorem C9_router_deterministic_given_year
    (user_input : string) (history1 history2 : option (list Message))
    (cs : list Company) (st1 st2 : State) :
  COMPANY_CACHE World st1 = Some cs →
  COMPANY_CACHE World st2 = Some cs →
  now_year (world World st1) = now_year (world World st2) →
  ∃ outcome,
    detect_intent_and_route user_input history1 st1 = (outcome, st1)
    ∧ detect_intent_and_route user_input history2 st2 = (outcome, st2).
Proof.
  intros H1 H2 Hy.
  destruct (extract_ticker_cached user_input cs st1 st2 H1 H2)
    as ([ticker|e] & He1 & He2).
  2: { unfold detect_intent_and_route, bind. rewrite He1, He2. by eexists. }
  rewrite (route_after_extraction _ history1 _ _ _ He1),
          (route_after_extraction _ history2 _ _ _ He2).
  destruct (is_top_rule _).
  { destruct (top_limit user_input); by eexists. }
  destruct (truthy_str ticker); [|by eexists].
  destruct (quarterly_rule_same_year ticker user_input (lower user_input) st1 st2 Hy)
    as (quarterly & -> & ->).
  destruct quarterly; [by eexists|].
  destruct (any_in segment_words _); [by eexists|].
  destruct (any_in news_words _); by eexists.
Qed.

(** *** The explicit ticker *)

Lemma quick_match_None items text_lower :
  (∀ key ticker, In (key, ticker) items → contains key text_lower = false) →
  quick_match items text_lower = None.
Proof using.
  induction items as [|[k t] items IH]; intros H; simpl; [done|].
  rewrite (H k t); [|by left]. apply IH. intros key ticker Hin.
  apply (H key ticker). by right.
Qed.

Lemma in_list_In w ws : in_list w ws = true ↔ In w ws.
Proof using.
  unfold in_list. rewrite existsb_exists. split.
  - intros (x & Hin & Heq). apply String.eqb_eq in Heq. by subst.
  - intros Hin. exists w. split; [done | apply String.eqb_refl].
Qed.

(** Claim C4, as the code has it. When no alias occurs in the lowercased
    text (of ASCII characters) and the first word of four capital letters
    of the uppercased text is not in the stoplist, [extract_ticker] returns
    that word, from every state and without touching it. Only the first
    such word is looked at: when it is in the stoplist, the result is the
    one of the fuzzy stage, whatever the words of four letters that
    follow. *)
Theorem C4_first_four_letter_word_is_ticker
    (text w : string) (st : State) :
  is_ascii text = true →
  (∀ key ticker, In (key, ticker) quick_map → contains key (lower text) = false) →
  first_four_letter_word w (upper text) →
  (¬ In w common_words → extract_ticker text st = (Ok (Some w), st))
  ∧ (In w common_words →
     extract_ticker text st = first_ticker_by_name (potential_names text) st).
Proof.
  intros _ Hq Hw.
  apply quick_match_None in Hq. apply first_four_letter_word_found in Hw.
  unfold extract_ticker, explicit_ticker. rewrite Hq, Hw.
  split; intros Hc.
  - destruct (in_list w common_words) eqn:E; [|done].
    by apply in_list_In in E.
  - apply in_list_In in Hc. by rewrite Hc.
Qed.

(** *** The fuzzy match *)










End Facts.

(** ** The claims on concrete inputs *)

(** Each of the nine tags is routed for some text, here in the sample
    world with an empty cache. *)
Lemma routed_tags_reached :
  List.map
    (fun text =>
       match fst (Sample.detect_intent_and_route text None (Sample.state None 2026)) with
       | Ok (tag, _) => tag
       | Raise _ => ""
       end)
    [ "BBCA"; "kuartal 2 BBCA"; "segmen BBCA"; "berita BBRI"; "top saham";
      "lq45"; "perbankan"; "laporan perbankan"; "hai" ]
  = routed_tags.
Proof. by vm_compute. Qed.

(** Claim C1 as the specification states it fails: on "halo apa kabar",
    with no history, an empty cache and no provider, the router does not
    answer [unknown] with an empty mapping. *)
Lemma C1_counterexample :
  fst (Sample.detect_intent_and_route "halo apa kabar" None (Sample.state None 2026))
  ≠ Ok ("unknown", ∅).
Proof.
  intros H.
  apply (f_equal (fun r => match r with Ok (tag, _) => tag | Raise _ => "" end)) in H.
  vm_compute in H. discriminate.
Qed.

(** Claim C3 as the specification states it fails: "top 0 saham" is routed
    to [top_market_cap], its first number is 0, and the limit is 0, not the
    1 that a clamp to the range from 1 to 50 gives. *)
Lemma C3_counterexample :
  first_number "0" "top 0 saham"
  ∧ fst (Sample.detect_intent_and_route "top 0 saham" None (Sample.state None 2026))
    = Ok ("top_market_cap", {[ "limit" := VInt 0 ]})
  ∧ ({[ "limit" := VInt 0 ]} : gmap string pyval)
    ≠ {[ "limit" := VInt (Z.max 1 (Z.min (PyStr.decimal "0") 50)) ]}.
Proof.
  split; [apply search_int_first; by vm_compute|]. split; [by vm_compute|].
  intros H. apply (f_equal (fun m : gmap string pyval => m !! "limit")) in H.
  vm_compute in H. discriminate.
Qed.

(** Claim C4 as the specification states it fails: "DARI ABCD" contains
    the word ABCD, which is not in the stoplist and contains no alias, no
    alias occurs in the text either, and [extract_ticker] returns [None]:
    the only word looked at is DARI, the first one, which is in the
    stoplist. *)
Lemma C4_counterexample :
  four_letter_word "ABCD" "DARI ABCD"
  ∧ in_list "ABCD" common_words = false
  ∧ quick_match quick_map (PyStr.lower "ABCD") = None
  ∧ quick_match quick_map (PyStr.lower "DARI ABCD") = None
  ∧ fst (Sample.extract_ticker "DARI ABCD" (Sample.state (Some []) 2026)) = Ok None.
Proof.
  split.
  { exists "DARI ", "".
    split; [reflexivity|]. split; [reflexivity|].
    split; [by repeat constructor|]. split; reflexivity. }
  split; [by vm_compute|]. split; [by vm_compute|]. split; by vm_compute.
Qed.



(** Claim C9 as the specification states it fails: the same text, the same
    history and the same cached list give two different decisions in two
    different years. *)
Lemma C9_counterexample :
  fst (Sample.detect_intent_and_route "kuartal 2 BBCA" None
         (Sample.state (Some [Sample.bca]) 2025))
  ≠ fst (Sample.detect_intent_and_route "kuartal 2 BBCA" None
           (Sample.state (Some [Sample.bca]) 2026)).
Proof.
  intros H.
  apply (f_equal (fun r => match r with
                           | Ok (_, params) => params !! "year"
                           | Raise _ => None
                           end)) in H.
  vm_compute in H. discriminate.
Qed.

(** The fallback on a tool error, for "berita BBRI" when every tool
    answers that the provider is not configured. *)
Lemma C2_witness :
  tool_failed (Some "❌ Sectors API not configured.")
  ∧ ∃ st', Sample.run_agent "berita BBRI" None "" (Sample.state None 2026)
           = (Ok None, st').
Proof.
  assert (tool_failed (Some "❌ Sectors API not configured.")) as Hf.
  { right. eexists. split; [reflexivity | by vm_compute]. }
  split; [exact Hf|].
  apply (C2_tool_failure_falls_back Sample.World Sample.now_year Difflib.ratio
           Sample.sectors_api Sample.tool_invoke Sample.get_chat_response
           "berita BBRI" None "" (Sample.state None 2026)
           (Sample.state None 2026) (Sample.state None 2026) (Sample.state None 2026)
           "berita BBRI" "market_news"
           {[ "query" := VStr "BBRI"; "limit" := VInt 10 ]}
           (Some "❌ Sectors API not configured."));
    [by vm_compute | by vm_compute | by vm_compute | exact Hf].
Defined.

(** The limit of "top 70 saham" is capped at 50, and the tool asks the
    scripted provider for 50 companies. *)
Lemma C3_witness :
  PyStr.is_ascii "top 70 saham" = true
  ∧ Served.detect_intent_and_route "top 70 saham" None (Served.state (Some []) 2026 [])
    = (Ok ("top_market_cap", {[ "limit" := VInt 50 ]}), Served.state (Some []) 2026 [])
  ∧ ∃ limit,
      ({[ "limit" := VInt 50 ]} : gmap string pyval) = {[ "limit" := VInt limit ]}
      ∧ ((∃ digits, first_number digits "top 70 saham"
                    ∧ limit = Z.min (PyStr.decimal digits) 50)
         ∨ (no_number "top 70 saham" ∧ limit = 5))
      ∧ 0 ≤ limit ≤ 50
      ∧ clamp 50 limit = Z.max 1 limit
      ∧ 1 ≤ clamp 50 limit ≤ 50
      ∧ ∀ client w,
          snd (Served.run_tool (Some client) get_top_stocks_by_market_cap
                 {[ "limit" := VInt 50 ]} w)
          = snd (Served.requests_get (BASE_URL +:+ "/" +:+ "companies/top/")
                   (PyStr.strip (api_key client)) (Some (top_request (clamp 50 limit))) w).
Proof.
  assert (Served.detect_intent_and_route "top 70 saham" None
            (Served.state (Some []) 2026 [])
          = (Ok ("top_market_cap", {[ "limit" := VInt 50 ]}),
             Served.state (Some []) 2026 [])) as H by (by vm_compute).
  split; [reflexivity|]. split; [exact H|].
  exact (C3_top_market_cap_limit Served.World Served.now_year Difflib.ratio
           Served.sectors_api Served.requests_get Served.json_dumps Served.repr
           Served.error_text Served.format_exc Served.segments_report Served.idx_report
           Served.quarterly_filtered_report "top 70 saham" None _ _ _ eq_refl H).
Defined.

(** No alias occurs in "harga ABCD hari ini". *)
Lemma no_alias_in_harga_abcd key ticker :
  In (key, ticker) quick_map →
  PyStr.contains key (PyStr.lower "harga ABCD hari ini") = false.
Proof.
  intros Hin. unfold quick_map in Hin. simpl in Hin.
  repeat (destruct Hin as [[= <- <-]|Hin]; [by vm_compute|]). done.
Defined.

(** The explicit ticker of "harga ABCD hari ini". *)
Lemma C4_witness :
  PyStr.is_ascii "harga ABCD hari ini" = true
  ∧ first_four_letter_word "ABCD" (PyStr.upper "harga ABCD hari ini")
  ∧ ¬ In "ABCD" common_words
  ∧ Sample.extract_ticker "harga ABCD hari ini" (Sample.state None 2026)
    = (Ok (Some "ABCD"), Sample.state None 2026).
Proof.
  assert (first_four_letter_word "ABCD" (PyStr.upper "harga ABCD hari ini")) as Hw.
  { apply search_ticker_first. by vm_compute. }
  assert (¬ In "ABCD" common_words) as Hc.
  { unfold common_words. simpl. intuition discriminate. }
  split; [reflexivity|]. split; [exact Hw|]. split; [exact Hc|].
  destruct (C4_first_four_letter_word_is_ticker Sample.World Difflib.ratio
              Sample.sectors_api "harga ABCD hari ini" "ABCD" (Sample.state None 2026)
              eq_refl no_alias_in_harga_abcd Hw) as (H & _).
  exact (H Hc).
Defined.




(** An unknown tag and a tool that answers, in the sample world. *)
Lemma C8_witness :
  Sample.execute_tool "idx_history" ∅ (Sample.state None 2026)
  = (Ok None, Sample.state None 2026)
  ∧ ∃ result st', Sample.execute_tool "stock_info" {[ "ticker" := VStr "BBCA" ]}
                    (Sample.state None 2026) = (Ok result, st').
Proof.
  split.
  - destruct (C8_execute_tool_never_raises Sample.World Sample.tool_invoke
                "idx_history" ∅ (Sample.state None 2026)) as (_ & _ & _ & H).
    apply H. vm_compute. intuition discriminate.
  - destruct (C8_execute_tool_never_raises Sample.World Sample.tool_invoke
                "stock_info" {[ "ticker" := VStr "BBCA" ]} (Sample.state None 2026))
      as (H & _).
    exact H.
Defined.

(** Two calls in 2026 on the same cache, with two different histories. *)
Lemma C9_witness :
  ∃ outcome,
    Sample.detect_intent_and_route "kuartal 2 BBCA" None
      (Sample.state (Some [Sample.bca]) 2026)
    = (outcome, Sample.state (Some [Sample.bca]) 2026)
    ∧ Sample.detect_intent_and_route "kuartal 2 BBCA"
        (Some [HumanMessage "halo"; AIMessage "hai"])
        (Sample.state (Some [Sample.bca]) 2026)
      = (outcome, Sample.state (Some [Sample.bca]) 2026).
Proof.
  apply (C9_router_deterministic_given_year Sample.World Sample.now_year Difflib.ratio
           Sample.sectors_api "kuartal 2 BBCA" None
           (Some [HumanMessage "halo"; AIMessage "hai"]) [Sample.bca]
           (Sample.state (Some [Sample.bca]) 2026)
           (Sample.state (Some [Sample.bca]) 2026) eq_refl eq_refl eq_refl).
Defined.

(** ** Further properties of the agent service *)

Section AgentProperties.
Import PyStr.

Variable World : Type.
Variable now_year : World → Z.
Variable ratio : string → string → Q.
Variable SECTORS_AVAILABLE : bool.
Variable sectors_api : option (SectorsAPI World).
Variable tool_invoke : Tool → gmap string pyval → World → Res (option string) * World.
Variable get_chat_response : list ChatTurn → World → Res string * World.

Local Abbreviation State := (State World).
Local Abbreviation get_all_companies := (get_all_companies World sectors_api).
Local Abbreviation find_ticker_by_name := (find_ticker_by_name World ratio sectors_api).
Local Abbreviation first_ticker_by_name := (first_ticker_by_name World ratio sectors_api).
Local Abbreviation extract_ticker := (extract_ticker World ratio sectors_api).
Local Abbreviation quarterly_rule := (quarterly_rule World now_year).
Local Abbreviation detect_intent_and_route :=
  (detect_intent_and_route World now_year ratio sectors_api).
Local Abbreviation execute_tool := (execute_tool World tool_invoke).
Local Abbreviation resolve_query_with_context :=
  (resolve_query_with_context World get_chat_response).
Local Abbreviation run_agent :=
  (run_agent World now_year ratio sectors_api tool_invoke get_chat_response).
Local Abbreviation context_ticker_scan := (context_ticker_scan World ratio sectors_api).
Local Abbreviation is_financial_query :=
  (is_financial_query World now_year ratio SECTORS_AVAILABLE sectors_api).

(** *** The alias table *)



(** A text that is an alias, in any letter case, resolves to the ticker of
    that alias: where an alias contains an earlier one (bank bca, telkomsel,
    bukalapak), both carry the same ticker. *)
Theorem alias_alone_gives_its_ticker
    (text key ticker : string) (st : State) :
  In (key, ticker) quick_map →
  lower text = key →
  extract_ticker text st = (Ok (Some ticker), st).
Proof.
  intros Hin Hl.
  assert (quick_match quick_map key = Some ticker) as Hq.
  { unfold quick_map in Hin. simpl in Hin.
    repeat (destruct Hin as [[= <- <-]|Hin]; [by vm_compute|]). done. }
  unfold extract_ticker. by rewrite Hl, Hq.
Qed.

(** *** The extracted ticker is never empty *)

(** Whatever the text and the state, [extract_ticker], when it returns,
    returns [None] or a non-empty string: the router's test [if ticker] and
    the classifier's test [ticker is not None] agree on its result. It has
    no handler: it raises when the loop over the companies meets an item
    that is no record with a name and a symbol that are strings, and that
    item is then in the cache. *)
Theorem extract_ticker_none_or_nonempty
    (text : string) (st : State) :
  (∃ ticker st',
     extract_ticker text st = (Ok ticker, st')
     ∧ truthy_str ticker = bool_decide (is_Some ticker))
  ∨ (∃ e st', extract_ticker text st = (Raise e, st') ∧ unreadable_cache st').
Proof. exact (extract_ticker_outcome World ratio sectors_api text st). Qed.

(** *** The candidate names *)

(** Every candidate name of the fuzzy stage has more than three
    characters, so [find_ticker_by_name] is never given an empty name by
    [extract_ticker]; a text of [n] words has at most [4 n] candidates. *)
Theorem potential_names_longer_than_three (text : string) :
  Forall (fun name => (3 < String.length name)%nat) (potential_names text)
  ∧ (length (potential_names text) ≤ 4 * length (split text))%nat.
Proof using.
  unfold potential_names. split.
  - apply Forall_app. split.
    + apply Forall_forall. intros w Hw.
      apply list_elem_of_filter in Hw as [Hw _].
      apply andb_prop_elim in Hw as [Hw _].
      apply Is_true_true in Hw. by apply Nat.ltb_lt.
    + apply Forall_forall. intros w Hw. apply list_elem_of_In in Hw.
      apply in_flat_map in Hw as (i & _ & Hw).
      apply in_flat_map in Hw as (j & _ & Hw).
      destruct (3 <? _)%nat eqn:E; [|done].
      destruct Hw as [<-|[]]. by apply Nat.ltb_lt.
  - rewrite length_app.
    assert (∀ (l : list nat) (f : nat → list string) k,
              (∀ i, length (f i) ≤ k)%nat →
              (length (flat_map f l) ≤ k * length l)%nat) as Hflat.
    { intros l f k Hk. induction l as [|a l IH]; simpl; [lia|].
      rewrite length_app. specialize (Hk a). lia. }
    match goal with
    | |- (length (filter ?P ?l) + _ ≤ _)%nat =>
        pose proof (length_filter P l) as Hf
    end.
    match goal with
    | |- (_ + length (flat_map ?f ?l) ≤ _)%nat =>
        assert (length (flat_map f l) ≤ 3 * length l)%nat as Hn
    end.
    { apply Hflat. intros i.
      match goal with
      | |- (length (flat_map ?g ?l') ≤ 3)%nat =>
          assert (length (flat_map g l') ≤ 1 * length l')%nat as Hi
      end.
      { apply Hflat. intros j. destruct (3 <? _)%nat; simpl; lia. }
      rewrite length_seq in Hi. lia. }
    rewrite length_seq in Hn. lia.
Qed.

(** *** The fuzzy lookup *)

Lemma find_ticker_loop_symbol name pre company post best score :
  Forall (fun c => readable c = true) pre →
  readable company = true →
  Forall (fun c => String.eqb (lower (dict_get c "symbol")) name = false) pre →
  String.eqb (lower (dict_get company "symbol")) name = true →
  find_ticker_loop ratio name (pre ++ company :: post) best score
  = Ok (Some (dict_get company "symbol")).
Proof using.
  intros Hr Hrc Hpre Hc. revert best score.
  induction Hpre as [|c pre Hne _ IH]; intros best score.
  - rewrite app_nil_l, (find_ticker_loop_readable _ _ _ _ _ _ Hrc). by rewrite Hc.
  - inversion Hr as [|? ? Hr1 Hr2]; subst.
    rewrite <- app_comm_cons, (find_ticker_loop_readable _ _ _ _ _ _ Hr1).
    rewrite Hne. destruct (Qgtb _ _); by apply IH.
Qed.

Lemma find_ticker_loop_unreadable name company rest best score :
  readable company = false →
  ∃ e, find_ticker_loop ratio name (company :: rest) best score = Raise e.
Proof using.
  unfold readable. cbn [find_ticker_loop].
  destruct company as [| | | | | |fields]; try (intros _; by eexists).
  cbn [get and_then].
  destruct (assoc "company_name" fields) as [[| | | |n| |]|];
    destruct (assoc "symbol" fields) as [[| | | |s| |]|]; simpl;
    try done; intros _; by eexists.
Qed.

(** The loop raises on the first record that cannot be read, when no
    record before it has the candidate as its symbol. *)
Lemma find_ticker_loop_first_unreadable name pre company best score :
  Forall (fun c => String.eqb (lower (dict_get c "symbol")) name = false) pre →
  Exists (fun c => readable c = false) (pre ++ [company]) →
  ∀ post, ∃ e, find_ticker_loop ratio name (pre ++ company :: post) best score = Raise e.
Proof using.
  intros Hpre. revert best score.
  induction Hpre as [|c pre Hne _ IH]; intros best score Hex post.
  - inversion Hex as [? ? Hc|? ? Hc]; subst; [|inversion Hc].
    by apply find_ticker_loop_unreadable.
  - destruct (readable c) eqn:Hr.
    + rewrite <- app_comm_cons, (find_ticker_loop_readable _ _ _ _ _ _ Hr), Hne.
      inversion Hex as [? ? Hc|? ? Hc]; subst; [congruence|].
      destruct (Qgtb _ _); by apply IH.
    + rewrite <- app_comm_cons. by apply find_ticker_loop_unreadable.
Qed.

(** With a populated cache, a candidate that is the symbol of a cached
    company, in any letter case and with blanks around it, resolves to the
    symbol of the first such company, whatever the similarity scores of the
    companies before it, when the records up to that company can be read:
    they are objects whose name and symbol are strings. When one of them
    cannot be read, the lookup raises. The state is as it was in both
    cases. *)
Theorem exact_symbol_wins
    (name : string) (pre post : list Company) (company : Company) (st : State) :
  COMPANY_CACHE World st = Some (pre ++ company :: post) →
  name ≠ "" →
  Forall (fun c => lower (dict_get c "symbol") ≠ strip (lower name)) pre →
  lower (dict_get company "symbol") = strip (lower name) →
  (Forall (fun c => readable c = true) (pre ++ [company]) →
   find_ticker_by_name name st = (Ok (Some (dict_get company "symbol")), st))
  ∧ (Exists (fun c => readable c = false) (pre ++ [company]) →
     ∃ e, find_ticker_by_name name st = (Raise e, st)).
Proof.
  intros Hcache Hname Hpre Hc.
  rewrite (find_ticker_by_name_cached World ratio sectors_api name st _ Hcache).
  apply String.eqb_neq in Hname. rewrite Hname.
  assert (Forall (fun c => String.eqb (lower (dict_get c "symbol")) (strip (lower name))
                           = false) pre) as Hpre'.
  { eapply Forall_impl; [exact Hpre|]. intros c Hne. by apply String.eqb_neq. }
  destruct (pre ++ company :: post) eqn:E; [by destruct pre|]. rewrite <- E.
  split.
  - intros Hr. apply Forall_app in Hr as [Hr Hrc].
    inversion Hrc as [|? ? Hrc' _]; subst.
    f_equal. apply find_ticker_loop_symbol; try done. by apply String.eqb_eq.
  - intros Hex.
    destruct (find_ticker_loop_first_unreadable (strip (lower name)) pre company None
                0%Q Hpre' Hex post) as (e & He).
    exists e. by rewrite He.
Qed.

Lemma find_ticker_loop_origin name cs best score ticker :
  find_ticker_loop ratio name cs best score = Ok (Some ticker) →
  (best = Some ticker ∧ Qgtb score (7 # 10) = true)
  ∨ ∃ company,
      In company cs
      ∧ dict_get company "symbol" = ticker
      ∧ (lower ticker = name
         ∨ Qgtb (match_score ratio name (lower (dict_get company "company_name")))
                (7 # 10) = true).
Proof using.
  revert best score. induction cs as [|c cs IH]; intros best score.
  - simpl. destruct (Qgtb score (7 # 10)) eqn:E; [|done]. intros [= ->]. by left.
  - destruct (readable c) eqn:Hr.
    2: { destruct (find_ticker_loop_unreadable name c cs best score Hr) as (e & ->).
         done. }
    rewrite (find_ticker_loop_readable _ _ _ _ _ _ Hr). unfold company_score.
    destruct (String.eqb (lower (dict_get c "symbol")) name) eqn:Hsym.
    + intros [= <-]. right. exists c. split; [by left|]. split; [done|].
      left. by apply String.eqb_eq.
    + destruct (Qgtb _ score) eqn:Hgt; intros H; apply IH in H.
      * destruct H as [[[= <-] Hs] | (c' & Hin & Hsy & Hor)].
        -- right. exists c. split; [by left|]. split; [done|]. by right.
        -- right. exists c'. split; [by right|]. done.
      * destruct H as [H | (c' & Hin & Hsy & Hor)]; [by left|].
        right. exists c'. split; [by right|]. done.
Qed.

(** *** The company cache *)


(** A ticker returned by the fuzzy lookup is the symbol of a company that
    the cache holds afterwards; that symbol is the candidate itself, or the
    score of the company is above 0.70. *)
Theorem fuzzy_result_is_a_cached_symbol
    (name ticker : string) (st st' : State) :
  find_ticker_by_name name st = (Ok (Some ticker), st') →
  ∃ companies company,
    COMPANY_CACHE World st' = Some companies
    ∧ In company companies
    ∧ dict_get company "symbol" = ticker
    ∧ (lower ticker = strip (lower name)
       ∨ (7 # 10 < match_score ratio (strip (lower name))
                     (lower (dict_get company "company_name")))%Q).
Proof.
  unfold find_ticker_by_name.
  destruct (String.eqb name ""); [done|].
  unfold bind.
  destruct (get_all_companies_result World sectors_api st)
    as (companies & st1 & -> & Hcache).
  destruct companies as [|c cs]; [done|].
  unfold lift. intros H.
  assert (find_ticker_loop ratio (strip (lower name)) (c :: cs) None 0%Q
          = Ok (Some ticker)) as Hloop by congruence.
  assert (st1 = st') as <- by congruence.
  destruct Hcache as [Hcache|[[=] _]].
  apply find_ticker_loop_origin in Hloop as [[[=] _] | (company & Hin & Hsym & Hor)].
  exists (c :: cs), company. repeat split; try done.
  destruct Hor as [Hl|Hgt]; [by left|]. right.
  unfold Qgtb in Hgt. apply negb_true_iff in Hgt.
  destruct (Qlt_le_dec (7 # 10)
              (match_score ratio (strip (lower name))
                 (lower (dict_get company "company_name")))) as [Hlt|Hle]; [done|].
  apply Qle_bool_iff in Hle. congruence.
Qed.

(** When the request for all companies brings no company and no subsector
    request brings one either, the empty list is cached: from then on no
    name resolves to a ticker, and the provider is not asked again. *)
Theorem empty_company_list_is_cached
    (api : SectorsAPI World) (st : State) :
  sectors_api = Some api →
  COMPANY_CACHE World st = None →
  (∃ answer w', api_get_companies World api 200 (world World st) = (Ok answer, w')
                ∧ no_companies (Ok answer)) →
  (∀ subsector w,
     no_companies (fst (api_get_companies_by_subsector World api subsector 50 w))) →
  ∃ st',
    get_all_companies st = (Ok [], st')
    ∧ COMPANY_CACHE World st' = Some []
    ∧ ∀ name st'',
        COMPANY_CACHE World st'' = Some [] →
        find_ticker_by_name name st'' = (Ok None, st'').
Proof.
  intros Hapi Hcache (answer & w' & Hbulk & Hnone) Hsub.
  assert (∀ subsectors st0,
            ∃ st1, fetch_subsectors World api subsectors [] st0 = (Ok [], st1)) as Hfetch.
  { induction subsectors as [|s rest IH]; intros st0; simpl; [by eexists|].
    unfold bind at 1, fetch_subsector, try_except, bind, call.
    specialize (Hsub s (world World st0)).
    destruct (api_get_companies_by_subsector World api s 50 (world World st0))
      as [[[| | | | |[|c cs]|]|e] w1]; simpl in Hsub; try done; unfold ret; apply IH. }
  unfold get_all_companies, bind at 1, read_cache. rewrite Hcache, Hapi.
  unfold try_except, bind at 1, call. rewrite Hbulk.
  destruct (Hfetch common_subsectors
              {| COMPANY_CACHE := COMPANY_CACHE World st; world := w' |}) as (st1 & Hf).
  exists {| COMPANY_CACHE := Some []; world := world World st1 |}.
  split.
  - destruct answer as [| | | | |[|c cs]|]; simpl in Hnone; try done;
      unfold bind at 1; by rewrite Hf.
  - split; [done|]. intros name st'' H.
    rewrite (find_ticker_by_name_cached World ratio _ name st'' [] H).
    by destruct (String.eqb name "").
Qed.

(** *** The decisions of the router *)



(** The parameters that the router builds fit the signature of the tool
    that [execute_tool] dispatches for the tag: every key is an argument of
    that tool with a value of its declared type, and no required argument
    is missing. This holds of every decision; when the router raises there
    is none. *)
Theorem routed_parameters_fit_the_tool
    (user_input : string) (chat_history : option (list Message)) (st : State) :
  (∃ tag params st',
     detect_intent_and_route user_input chat_history st = (Ok (tag, params), st')
     ∧ ∀ tool, dispatch tag = Some tool → accepts (tool_signature tool) params = true)
  ∨ (∃ e st', detect_intent_and_route user_input chat_history st = (Raise e, st')).
Proof.
  destruct (detect_intent_and_route_outcome World now_year ratio sectors_api
              user_input chat_history st)
    as [(tag & params & st' & H & Hshape) | (e & st' & H & _)].
  - left. exists tag, params, st'. split; [done|].
    intros tool. by apply decision_shape_accepted with (now_year (world World st')).
  - right. by exists e, st'.
Qed.

(** *** A populated cache is never changed *)

Lemma keeps_cache_ret {A : Type} (a : A) : keeps_cache (ret World a).
Proof using. by intros st cs H. Qed.

Lemma keeps_cache_bind {A B : Type} (m : M World A) (k : A → M World B) :
  keeps_cache m → (∀ a, keeps_cache (k a)) → keeps_cache (bind World m k).
Proof using.
  intros Hm Hk st cs H. unfold bind. specialize (Hm st cs H).
  destruct (m st) as [[a|e] st1]; simpl in Hm; [by apply Hk | done].
Qed.

Lemma keeps_cache_try_except {A : Type} (body : M World A) (handler : PyExn → M World A) :
  keeps_cache body → (∀ e, keeps_cache (handler e)) →
  keeps_cache (try_except World body handler).
Proof using.
  intros Hb Hh st cs H. unfold try_except. specialize (Hb st cs H).
  destruct (body st) as [[a|e] st1]; simpl in Hb; [done | by apply Hh].
Qed.

Lemma keeps_cache_call {A : Type} (f : World → Res A * World) :
  keeps_cache (call World f).
Proof using. intros st cs H. by rewrite call_cache. Qed.

Lemma keeps_cache_lift {A : Type} (r : Res A) : keeps_cache (lift World r).
Proof using. by intros st cs H. Qed.

Lemma keeps_cache_extract_ticker text : keeps_cache (extract_ticker text).
Proof.
  intros st cs H.
  destruct (extract_ticker_cached World ratio sectors_api text cs st st H H)
    as (outcome & -> & _).
  done.
Qed.

Lemma keeps_cache_quarterly_rule ticker user_input text_lower :
  keeps_cache (quarterly_rule ticker user_input text_lower).
Proof.
  intros st cs H.
  by destruct (quarterly_rule_result World now_year ticker user_input text_lower st)
    as (quarterly & ->).
Qed.

Lemma keeps_cache_detect_intent_and_route user_input chat_history :
  keeps_cache (detect_intent_and_route user_input chat_history).
Proof.
  unfold detect_intent_and_route.
  apply keeps_cache_bind; [apply keeps_cache_extract_ticker|].
  intros ticker. destruct (is_top_rule _).
  { apply keeps_cache_bind; [apply keeps_cache_lift | intros; apply keeps_cache_ret]. }
  destruct (truthy_str ticker); [|apply keeps_cache_ret].
  apply keeps_cache_bind; [apply keeps_cache_quarterly_rule|].
  intros [decision|]; [apply keeps_cache_ret|].
  destruct (any_in segment_words _); [apply keeps_cache_ret|].
  destruct (any_in news_words _); apply keeps_cache_ret.
Qed.

Lemma keeps_cache_execute_tool intent params :
  keeps_cache (execute_tool intent params).
Proof.
  apply keeps_cache_try_except; [|intros; apply keeps_cache_ret].
  destruct (dispatch intent); [|apply keeps_cache_ret].
  apply keeps_cache_bind; [apply keeps_cache_call | intros; apply keeps_cache_ret].
Qed.

Lemma keeps_cache_resolve_query_with_context user_input chat_history :
  keeps_cache (resolve_query_with_context user_input chat_history).
Proof.
  unfold resolve_query_with_context.
  destruct chat_history as [[|m1 [|m2 more]]|]; try apply keeps_cache_ret.
  apply keeps_cache_try_except; [|intros; apply keeps_cache_ret].
  apply keeps_cache_bind; [apply keeps_cache_call | intros; apply keeps_cache_ret].
Qed.

Lemma keeps_cache_run_agent user_input chat_history rag_context :
  keeps_cache (run_agent user_input chat_history rag_context).
Proof.
  apply keeps_cache_try_except; [|intros; apply keeps_cache_ret].
  apply keeps_cache_bind; [apply keeps_cache_resolve_query_with_context|].
  intros resolved_query.
  apply keeps_cache_bind; [apply keeps_cache_detect_intent_and_route|].
  intros [intent params].
  destruct (negb _); [|apply keeps_cache_ret].
  apply keeps_cache_bind; [apply keeps_cache_execute_tool|].
  intros [[|c r]|]; try apply keeps_cache_ret.
  cbv zeta.
  destruct (negb (startswith (String c r) error_marker)); [|apply keeps_cache_ret].
  apply keeps_cache_bind; [apply keeps_cache_call | intros; apply keeps_cache_ret].
Qed.

Lemma keeps_cache_context_ticker_scan msgs : keeps_cache (context_ticker_scan msgs).
Proof.
  induction msgs as [|msg rest IH]; simpl; [apply keeps_cache_ret|].
  destruct msg as [c|c|c]; [| |done];
    (apply keeps_cache_bind; [apply keeps_cache_extract_ticker|]);
    intros t; destruct (truthy_str t); (apply keeps_cache_ret || done).
Qed.

Lemma keeps_cache_is_financial_query user_input chat_history :
  keeps_cache (is_financial_query user_input chat_history).
Proof.
  unfold is_financial_query.
  destruct (negb SECTORS_AVAILABLE); [apply keeps_cache_ret|].
  apply keeps_cache_bind; [apply keeps_cache_extract_ticker|].
  intros ticker. apply keeps_cache_bind.
  { destruct (_ && _); [apply keeps_cache_context_ticker_scan | apply keeps_cache_ret]. }
  intros context_ticker.
  apply keeps_cache_bind; [apply keeps_cache_detect_intent_and_route|].
  intros [intent params]. apply keeps_cache_ret.
Qed.

(** Once the company list is cached, neither the classifier nor the agent
    changes it, whatever the provider, the tools and the completion service
    do: there is no refresh and no eviction. *)
Theorem populated_cache_is_never_changed
    (user_input : string) (chat_history : option (list Message))
    (rag_context : string) (companies : list Company) (st : State) :
  COMPANY_CACHE World st = Some companies →
  COMPANY_CACHE World (snd (is_financial_query user_input chat_history st))
  = Some companies
  ∧ COMPANY_CACHE World (snd (run_agent user_input chat_history rag_context st))
    = Some companies.
Proof.
  intros H. split.
  - by apply keeps_cache_is_financial_query.
  - by apply keeps_cache_run_agent.
Qed.

(** *** What a reply of the agent is *)

Lemma run_agent_reply_inversion
    (user_input : string) (chat_history : option (list Message))
    (rag_context reply : string) (st st' : State) :
  run_agent user_input chat_history rag_context st = (Ok (Some reply), st') →
  ∃ resolved_query st1 intent params st2 tool_result st3,
    resolve_query_with_context user_input chat_history st = (Ok resolved_query, st1)
    ∧ detect_intent_and_route resolved_query chat_history st1
      = (Ok (intent, params), st2)
    ∧ intent ≠ "unknown"
    ∧ execute_tool intent params st2 = (Ok (Some tool_result), st3)
    ∧ tool_result ≠ ""
    ∧ startswith tool_result error_marker = false
    ∧ call World
        (get_chat_response
           ([ {| role := "system";
                 content := system_prompt user_input resolved_query tool_result
                              rag_context |} ]
            ++ (if truthy_list chat_history
                then flat_map history_turn (last_n 5 (default [] chat_history))
                else [])
            ++ [ {| role := "user"; content := user_input |} ]))
        st3
      = (Ok reply, st').
Proof.
  unfold run_agent, try_except.
  destruct (returns_resolve_query_with_context World get_chat_response
              user_input chat_history st) as (resolved_query & st1 & Hr).
  unfold bind at 1. rewrite Hr. unfold bind at 1.
  destruct (detect_intent_and_route resolved_query chat_history st1)
    as [[[intent params]|e0] st2] eqn:Hd; [|done].
  cbv beta iota.
  destruct (String.eqb intent "unknown") eqn:Hi; cbn [negb]; [done|].
  destruct (returns_execute_tool World tool_invoke intent params st2)
    as (tool_result & st3 & He).
  unfold bind at 1. rewrite He.
  destruct tool_result as [[|c r]|]; try done.
  destruct (startswith (String c r) error_marker) eqn:Hs; cbn [negb]; [done|].
  unfold bind, ret. intros H.
  exists resolved_query, st1, intent, params, st2, (String c r), st3.
  apply String.eqb_neq in Hi.
  repeat split; try done.
  match goal with
  | |- ?m = _ => destruct m as [[a|e] st4]; [congruence | done]
  end.
Qed.

(** When [run_agent] returns a reply, the routed tag is not [unknown], the
    tool returned a non-empty string that does not start with the error
    marker, and the reply is the answer of the completion service to a
    request that starts with the system prompt built from that result and
    ends with the user's text. *)
Theorem agent_reply_is_a_narration
    (user_input : string) (chat_history : option (list Message))
    (rag_context reply : string) (st st' : State) :
  run_agent user_input chat_history rag_context st = (Ok (Some reply), st') →
  ∃ resolved_query st1 intent params st2 tool_result st3,
    resolve_query_with_context user_input chat_history st = (Ok resolved_query, st1)
    ∧ detect_intent_and_route resolved_query chat_history st1
      = (Ok (intent, params), st2)
    ∧ intent ≠ "unknown"
    ∧ execute_tool intent params st2 = (Ok (Some tool_result), st3)
    ∧ tool_result ≠ ""
    ∧ startswith tool_result error_marker = false
    ∧ call World
        (get_chat_response
           ([ {| role := "system";
                 content := system_prompt user_input resolved_query tool_result
                              rag_context |} ]
            ++ (if truthy_list chat_history
                then flat_map history_turn (last_n 5 (default [] chat_history))
                else [])
            ++ [ {| role := "user"; content := user_input |} ]))
        st3
      = (Ok reply, st').
Proof. exact (run_agent_reply_inversion user_input chat_history rag_context reply st st'). Qed.

(** *** The context window *)

Lemma last_n_length {A : Type} (n : nat) (l : list A) :
  length (last_n n l) = Nat.min n (length l).
Proof using. unfold last_n. rewrite length_skipn. lia. Qed.

Lemma last_n_idem {A : Type} (n : nat) (l : list A) :
  last_n n (last_n n l) = last_n n l.
Proof using.
  unfold last_n at 1. rewrite last_n_length.
  replace (Nat.min n (length l) - n)%nat with 0%nat by lia. done.
Qed.

Lemma truthy_list_last_five (history : list Message) :
  truthy_list (Some (last_n 5 history)) = truthy_list (Some history).
Proof using.
  pose proof (last_n_length 5 history) as Hl.
  destruct history as [|m rest]; [done|].
  destruct (last_n 5 (m :: rest)); [simpl in Hl; lia | done].
Qed.

Lemma resolve_query_window user_input history st :
  resolve_query_with_context user_input (Some (last_n 5 history)) st
  = resolve_query_with_context user_input (Some history) st.
Proof.
  destruct history as [|m1 [|m2 more]]; [done..|].
  pose proof (last_n_length 5 (m1 :: m2 :: more)) as Hl.
  pose proof (last_n_idem 5 (m1 :: m2 :: more)) as Hi.
  destruct (last_n 5 (m1 :: m2 :: more)) as [|a [|b rest]] eqn:E;
    [simpl in Hl; lia..|].
  unfold resolve_query_with_context. by rewrite Hi, E.
Qed.

(** The classifier and the agent read the history only through its last
    five turns: with the history cut down to them, both do the same from
    every state. *)
Theorem only_the_last_five_turns_count
    (user_input rag_context : string) (history : list Message) (st : State) :
  is_financial_query user_input (Some (last_n 5 history)) st
  = is_financial_query user_input (Some history) st
  ∧ run_agent user_input (Some (last_n 5 history)) rag_context st
    = run_agent user_input (Some history) rag_context st.
Proof.
  split.
  - unfold is_financial_query.
    change (detect_intent_and_route user_input (Some (last_n 5 history)))
      with (detect_intent_and_route user_input (Some history)).
    change (default [] (Some (last_n 5 history))) with (last_n 5 history).
    rewrite last_n_idem, truthy_list_last_five. reflexivity.
  - unfold run_agent, try_except, bind.
    rewrite resolve_query_window.
    destruct (resolve_query_with_context user_input (Some history) st)
      as [[resolved_query|e] st1]; [|reflexivity].
    change (detect_intent_and_route resolved_query (Some (last_n 5 history)))
      with (detect_intent_and_route resolved_query (Some history)).
    change (default [] (Some (last_n 5 history))) with (last_n 5 history).
    rewrite last_n_idem, truthy_list_last_five. reflexivity.
Qed.

(** *** The resolved query *)

Lemma lstrip_head s : head_is is_space (lstrip s) = false.
Proof using.
  induction s as [|c s IH]; [done|]. simpl.
  destruct (is_space c) eqn:E; [done|]. simpl. done.
Qed.

Lemma rstrip_cons c s :
  rstrip (String c s)
  = match rstrip s with
    | EmptyString => if is_space c then EmptyString else String c EmptyString
    | r => String c r
    end.
Proof using. done. Qed.

Lemma rstrip_last s : last_is is_space (rstrip s) = false.
Proof using.
  induction s as [|c s IH]; [done|]. rewrite rstrip_cons.
  destruct (rstrip s) as [|d r]; [by destruct (is_space c) eqn:E; simpl|].
  done.
Qed.

Lemma rstrip_head s : head_is is_space s = false → head_is is_space (rstrip s) = false.
Proof using.
  destruct s as [|c s]; [done|]. rewrite rstrip_cons. simpl. intros Hc.
  destruct (rstrip s); [by rewrite Hc | done].
Qed.

Lemma strip_no_blank_ends s :
  head_is is_space (strip s) = false ∧ last_is is_space (strip s) = false.
Proof using.
  unfold strip. split; [apply rstrip_head, lstrip_head | apply rstrip_last].
Qed.

(** The resolved query is the user's text as it was given, or an answer of
    the completion service with no blank at either end. With fewer than two
    turns of history it is the user's text and the service is not called. *)
Theorem resolved_query_is_the_text_or_a_stripped_answer
    (user_input : string) (chat_history : option (list Message)) (st : State) :
  ∃ resolved_query st',
    resolve_query_with_context user_input chat_history st = (Ok resolved_query, st')
    ∧ (resolved_query = user_input
       ∨ (head_is is_space resolved_query = false
          ∧ last_is is_space resolved_query = false))
    ∧ ((length (default [] chat_history) < 2)%nat →
       resolved_query = user_input ∧ st' = st).
Proof.
  unfold resolve_query_with_context.
  destruct chat_history as [[|m1 [|m2 more]]|];
    try (exists user_input, st; split; [done|]; split; [by left | done]).
  unfold try_except, bind, ret.
  destruct (call World _ st) as [[reply|e] st1].
  - exists (strip reply), st1. split; [done|]. split.
    + right. apply strip_no_blank_ends.
    + simpl. lia.
  - exists user_input, st1. split; [done|]. split; [by left|]. simpl. lia.
Qed.

End AgentProperties.

(** ** Properties of the provider client and of the tools *)

Section ProviderProperties.
Import PyStr.

Variable World : Type.
Variable now_year : World → Z.
Variable ratio : string → string → Q.
Variable requests_get : string → string → option Params → World → HttpResult * World.
Variable json_dumps : JValue → string.
Variable repr : JValue → string.
Variable error_text : Fault → string.
Variable format_exc : PyExn → string.
Variable segments_report : string → JValue → Res string.
Variable idx_report : string → string → list JValue → Res string.
Variable quarterly_filtered_report
  : string → option Z → option Z → list JValue → Res string.
Variable get_chat_response : list ChatTurn → World → Res string * World.

Local Abbreviation make_request := (make_request World requests_get error_text).
Local Abbreviation sectors_api_of :=
  (sectors_api_of World requests_get error_text).
Local Abbreviation run_tool :=
  (run_tool World now_year requests_get json_dumps repr error_text format_exc
     segments_report idx_report quarterly_filtered_report).
Local Abbreviation invoke :=
  (invoke World now_year requests_get json_dumps repr error_text format_exc
     segments_report idx_report quarterly_filtered_report).
Local Abbreviation tool_get_top_stocks_by_market_cap :=
  (tool_get_top_stocks_by_market_cap World requests_get json_dumps repr error_text).
Local Abbreviation tool_get_companies_by_subsector :=
  (tool_get_companies_by_subsector World requests_get json_dumps repr error_text).
Local Abbreviation tool_get_companies_by_index :=
  (tool_get_companies_by_index World requests_get json_dumps repr error_text).
Local Abbreviation tool_search_companies :=
  (tool_search_companies World requests_get json_dumps repr error_text).

(** *** The requests *)

Lemma make_request_cases self endpoint params w result w' :
  requests_get (BASE_URL +:+ "/" +:+ endpoint) (strip (api_key self)) params w
  = (result, w') →
  match result with
  | RaisedHTTPError =>
      make_request self endpoint params w = (fault error_text UnboundResponse, w')
  | _ =>
      ∃ data,
        make_request self endpoint params w = (Ok data, w')
        ∧ (∀ body, request_brought result body → data = body)
        ∧ (request_failed result → ∃ text, data = error_dict text)
  end.
Proof using.
  intros H. unfold make_request. rewrite H.
  destruct result as [status_code text [body|e]| | |e]; [| | |done|].
  - destruct (is_http_error status_code) eqn:Hs.
    + assert (∀ b, ¬ request_brought (Responded status_code text (Ok body)) b) as Hn.
      { intros b (s & t & [= -> _ _] & Hf). congruence. }
      destruct (status_code =? 429); [|destruct (status_code =? 400);
        [|destruct (status_code =? 404)]];
        (eexists; split; [reflexivity|]; split;
         [by intros b Hb; destruct (Hn b) | by intros _; eexists]).
    + exists body. split; [done|]. split.
      * by intros b (s & t & [= _ _ ->] & _).
      * unfold request_failed. intros [Hf|[e He]]; [congruence | discriminate].
  - assert (∀ b, ¬ request_brought (Responded status_code text (Raise e)) b) as Hn.
    { by intros b (s & t & [=] & _). }
    destruct (is_http_error status_code);
      [destruct (status_code =? 429); [|destruct (status_code =? 400);
         [|destruct (status_code =? 404)]]|];
      (eexists; split; [reflexivity|]; split;
       [by intros b Hb; destruct (Hn b) | by intros _; eexists]).
  - eexists. split; [reflexivity|]. split; [|by intros _; eexists].
    by intros b (s & t & [=] & _).
  - eexists. split; [reflexivity|]. split; [|by intros _; eexists].
    by intros b (s & t & [=] & _).
Qed.

(** [_make_request] raises nothing unless [requests.get] itself raises
    [HTTPError]; it then returns the document that the request brought, and
    when the request brought none (a status from 400 to 599, a timeout,
    another exception, a body that is no JSON) a dict with the one key
    [error]. *)
Theorem make_request_gives_a_document_or_an_error
    (self : Client) (endpoint : string) (params : option Params)
    (w w' : World) (result : HttpResult) :
  requests_get (BASE_URL +:+ "/" +:+ endpoint) (strip (api_key self)) params w
  = (result, w') →
  result ≠ RaisedHTTPError →
  ∃ data,
    make_request self endpoint params w = (Ok data, w')
    ∧ (∀ body, request_brought result body → data = body)
    ∧ (request_failed result → ∃ text, data = error_dict text).
Proof using.
  intros H Hne. pose proof (make_request_cases _ _ _ _ _ _ H) as Hc.
  by destruct result.
Qed.

(** *** The company list with the client *)

Lemma request_returns self endpoint params w :
  (∀ url authorization ps w0,
     fst (requests_get url authorization ps w0) ≠ RaisedHTTPError) →
  ∃ data w',
    make_request self endpoint params w = (Ok data, w')
    ∧ ((∀ url authorization ps w0,
          request_failed (fst (requests_get url authorization ps w0))) →
       ∃ text, data = error_dict text).
Proof using.
  intros Hno.
  destruct (requests_get (BASE_URL +:+ "/" +:+ endpoint) (strip (api_key self)) params w)
    as [result w'] eqn:Hr.
  pose proof (make_request_cases self endpoint params w result w' Hr) as Hc.
  pose proof (Hno (BASE_URL +:+ "/" +:+ endpoint) (strip (api_key self)) params w) as Hne.
  rewrite Hr in Hne. simpl in Hne.
  assert (∃ data,
            make_request self endpoint params w = (Ok data, w')
            ∧ (request_failed result → ∃ text, data = error_dict text))
    as (data & -> & Hfail).
  { destruct result; try done; destruct Hc as (data & ? & _ & ?); by exists data. }
  exists data, w'. split; [done|]. intros Hall.
  specialize (Hall (BASE_URL +:+ "/" +:+ endpoint) (strip (api_key self)) params w).
  rewrite Hr in Hall. by apply Hfail.
Qed.

Lemma fetch_subsectors_outage self subsectors st :
  (∀ url authorization ps w0,
     request_failed (fst (requests_get url authorization ps w0))) →
  ∃ st', fetch_subsectors World (sectors_api_of self) subsectors [] st = (Ok [], st').
Proof using.
  intros Hall. revert st.
  assert (∀ url authorization ps w0,
            fst (requests_get url authorization ps w0) ≠ RaisedHTTPError) as Hno.
  { intros url a ps w0 E. specialize (Hall url a ps w0). by rewrite E in Hall. }
  induction subsectors as [|s rest IH]; intros st; simpl; [by eexists|].
  unfold bind at 1, fetch_subsector, try_except, bind, call.
  cbn [api_get_companies_by_subsector sectors_api_of].
  unfold client_get_companies_by_subsector.
  destruct (request_returns self "companies/"
              (Some [ ("sections", VStr "all"); ("n_stock", VInt 50);
                      ("sub_sector", VStr s) ]) (world World st) Hno)
    as (data & w' & -> & Hother).
  destruct (Hother Hall) as (text & ->). unfold ret. apply IH.
Qed.

(** With a client whose requests go through [_make_request], the handler
    of [get_all_companies] is never reached: the list it returns is the
    list the cache holds afterwards, whatever the provider answers. When
    every request fails that list is empty, and it is cached all the
    same. *)
Theorem company_list_is_cached_with_the_client
    (self : Client) (st : State World) :
  (∀ url authorization params w,
     fst (requests_get url authorization params w) ≠ RaisedHTTPError) →
  ∃ companies st',
    get_all_companies World (Some (sectors_api_of self)) st = (Ok companies, st')
    ∧ COMPANY_CACHE World st' = Some companies
    ∧ (COMPANY_CACHE World st = None →
       (∀ url authorization params w,
          request_failed (fst (requests_get url authorization params w))) →
       companies = []).
Proof using.
  intros Hno. unfold get_all_companies, bind at 1, read_cache.
  destruct (COMPANY_CACHE World st) as [cs|] eqn:Hcache.
  { exists cs, st. by repeat split. }
  unfold try_except, bind at 1, call.
  cbn [api_get_companies sectors_api_of]. unfold client_get_companies.
  destruct (request_returns self "companies/"
              (Some [ ("sections", VStr "all"); ("n_stock", VInt 200) ])
              (world World st) Hno)
    as (data & w' & -> & Hother).
  set (st1 := {| COMPANY_CACHE := COMPANY_CACHE World st; world := w' |}).
  assert (∃ companies st',
            bind World (fetch_subsectors World (sectors_api_of self) common_subsectors [])
              (fun all_companies =>
                 bind World (write_cache World all_companies)
                   (fun _ => ret World all_companies)) st1
            = (Ok companies, st')
            ∧ COMPANY_CACHE World st' = Some companies
            ∧ ((∀ url authorization params w,
                  request_failed (fst (requests_get url authorization params w))) →
               companies = [])) as Hfallback.
  { unfold bind at 1.
    destruct (fetch_subsectors_cache World (sectors_api_of self) common_subsectors [] st1)
      as (companies & st2 & Hf & _).
    rewrite Hf. eexists _, _. split; [reflexivity|]. split; [done|].
    intros Hall. destruct (fetch_subsectors_outage self common_subsectors st1 Hall)
      as (st3 & Hf'). congruence. }
  destruct data as [| | | | |[|c cs]|];
    try (destruct Hfallback as (companies & st' & -> & H & Hall);
         exists companies, st'; by repeat split).
  eexists _, _. split; [reflexivity|]. split; [done|].
  intros _ Hall. by destruct (Hother Hall) as (text & [=]).
Qed.

(** *** The tools when the provider fails *)

Lemma make_request_failed self endpoint params w :
  (∀ url authorization ps, request_failed (fst (requests_get url authorization ps w))) →
  ∃ text w', make_request self endpoint params w = (Ok (error_dict text), w').
Proof using.
  intros Hall.
  destruct (requests_get (BASE_URL +:+ "/" +:+ endpoint) (strip (api_key self)) params w)
    as [result w'] eqn:Hr.
  pose proof (make_request_cases self endpoint params w result w' Hr) as Hc.
  specialize (Hall (BASE_URL +:+ "/" +:+ endpoint) (strip (api_key self)) params).
  rewrite Hr in Hall. simpl in Hall.
  destruct result; try done; destruct Hc as (data & -> & _ & Hf);
    destruct (Hf Hall) as (msg & ->); by exists msg, w'.
Qed.

Lemma strip_keeps_head c s :
  is_space c = false → ∃ r, strip (String c s) = String c r.
Proof using.
  intros Hc. unfold strip. cbn [lstrip]. rewrite Hc. cbn [rstrip].
  destruct (rstrip s); rewrite ?Hc; by eexists.
Qed.

Lemma quarterly_report_is_no_error ticker data :
  startswith (strip (quarterly_report json_dumps ticker data)) error_marker = false.
Proof using.
  assert (∃ r, quarterly_report json_dumps ticker data
               = String "010" (String "240" r)) as (r & ->) by (by eexists).
  unfold strip.
  change (lstrip (String "010" (String "240" r))) with (lstrip (String "240" r)).
  destruct (strip_keeps_head "240" r eq_refl) as (r' & Hr). unfold strip in Hr.
  by rewrite Hr.
Qed.

(** When the request of a tool fails, eight of the ten tools return a text
    that starts with the error marker, on which the agent falls back.
    [get_top_stocks_by_market_cap] returns the text for an empty list and
    [get_quarterly_financials] a report around the error document: neither
    starts with the marker, so the agent has them narrated. *)
Theorem provider_failure_by_tool
    (client : Client) (tool : Tool) (params : gmap string pyval) (w : World) :
  (∀ url authorization ps, request_failed (fst (requests_get url authorization ps w))) →
  match tool with
  | get_top_stocks_by_market_cap =>
      fst (run_tool (Some client) tool params w) = "Tidak ada data perusahaan ditemukan."
  | get_quarterly_financials =>
      startswith (fst (run_tool (Some client) tool params w)) error_marker = false
  | _ =>
      startswith (fst (run_tool (Some client) tool params w)) error_marker = true
  end.
Proof using.
  intros Hall.
  assert (∀ endpoint ps, ∃ text w',
            make_request client endpoint ps w = (Ok (error_dict text), w')) as Hreq.
  { intros endpoint ps. by apply make_request_failed. }
  destruct tool;
    unfold run_tool, tool_get_stock_info, tool_get_top_stocks_by_market_cap,
      tool_get_companies_by_subsector, tool_get_companies_by_index,
      tool_search_companies, tool_get_subsector_report, tool_get_company_segments,
      tool_get_market_news, tool_get_idx_market_cap_history,
      tool_get_quarterly_financials, guarded, io_bind,
      client_get_company_overview, client_get_companies_top,
      client_get_companies_by_subsector, client_get_companies_by_index,
      client_get_subsector_report, client_get_company_segments, client_get_news,
      client_get_idx_total, client_get_quarterly_financials;
    cbv beta zeta;
    try done;
    try destruct (truthy_int (arg_opt_int params "quarter")
                  && negb (truthy_int (arg_opt_int params "year")));
    match goal with
    | |- context [ make_request client ?e ?p w ] =>
        destruct (Hreq e p) as (msg & w' & ->)
    end;
    try done; apply quarterly_report_is_no_error.
Qed.

(** [search_companies] never reaches the provider: with a client it calls
    [get_companies] with a keyword that the method does not have, and
    returns the text of that failure, whatever its arguments. *)
Theorem search_companies_always_fails
    (client : Client) (sub_sector : string) (min_mcap_billion limit : Z) (w : World) :
  tool_search_companies (Some client) sub_sector min_mcap_billion limit w
  = ("❌ Error searching companies: "
     +:+ error_text (UnexpectedKeyword "get_companies" "sub_sector"), w).
Proof using. reflexivity. Qed.

(** *** The limits of the list tools *)

Lemma clamp_bounds top limit : 1 ≤ top → 1 ≤ clamp top limit ≤ top.
Proof using. unfold clamp. lia. Qed.

Lemma clamp_idem top limit : clamp top (clamp top limit) = clamp top limit.
Proof using. unfold clamp. lia. Qed.

(** The three list tools read their limit through its clamped value only:
    a limit below 1 behaves as 1, a limit above 50 (top stocks) or 200
    (subsector, index) as that bound. *)
Theorem tool_limits_are_clamped
    (sectors_client : option Client) (limit : Z) (sector : option string)
    (subsector index : string) (w : World) :
  1 ≤ clamp 50 limit ≤ 50
  ∧ 1 ≤ clamp 200 limit ≤ 200
  ∧ tool_get_top_stocks_by_market_cap sectors_client limit sector w
    = tool_get_top_stocks_by_market_cap sectors_client (clamp 50 limit) sector w
  ∧ tool_get_companies_by_subsector sectors_client subsector limit w
    = tool_get_companies_by_subsector sectors_client subsector (clamp 200 limit) w
  ∧ tool_get_companies_by_index sectors_client index limit w
    = tool_get_companies_by_index sectors_client index (clamp 200 limit) w.
Proof using.
  split; [by apply clamp_bounds|]. split; [by apply clamp_bounds|].
  unfold tool_get_top_stocks_by_market_cap, tool_get_companies_by_subsector,
    tool_get_companies_by_index.
  cbv zeta. by rewrite !clamp_idem.
Qed.

(** *** The agent without a client *)

Lemma run_tool_without_client tool params w :
  run_tool None tool params w = (not_configured, w).
Proof using. by destruct tool. Qed.

Lemma execute_tool_without_client intent params st :
  ∃ result st',
    execute_tool World (invoke None) intent params st = (Ok result, st')
    ∧ (result = None ∨ result = Some not_configured).
Proof using.
  unfold execute_tool, try_except.
  destruct (dispatch intent) as [tool|]; [|eexists _, _; split; [reflexivity | by left]].
  unfold bind, call, invoke.
  destruct (accepts (tool_signature tool) params).
  - rewrite run_tool_without_client. eexists _, _. split; [reflexivity | by right].
  - eexists _, _. split; [reflexivity | by left].
Qed.

Lemma run_agent_without_client
    (sectors_api : option (SectorsAPI World)) (user_input : string)
    (chat_history : option (list Message)) (rag_context : string) (st : State World) :
  ∃ st',
    run_agent World now_year ratio sectors_api (invoke None) get_chat_response
      user_input chat_history rag_context st
    = (Ok None, st').
Proof using.
  unfold run_agent, try_except. unfold bind at 1.
  destruct (resolve_query_with_context World get_chat_response user_input chat_history st)
    as [[resolved_query|e] st1]; [|by eexists].
  unfold bind at 1.
  destruct (detect_intent_and_route World now_year ratio sectors_api resolved_query
              chat_history st1) as [[[intent params]|e] st2]; [|by eexists].
  destruct (negb (String.eqb intent "unknown")); [|by eexists].
  unfold bind at 1.
  destruct (execute_tool_without_client intent params st2)
    as (result & st3 & -> & [->| ->]); by eexists.
Qed.

(** Without an API key for the tools ([sectors_client] is [None]) the
    agent never replies: whatever the text, the history and the answers of
    the completion service, [run_agent] returns [None], and the caller
    falls back on the standard reply. *)
Theorem no_client_no_reply
    (sectors_api : option (SectorsAPI World)) (user_input : string)
    (chat_history : option (list Message)) (rag_context : string) (st : State World) :
  ∃ st',
    run_agent World now_year ratio sectors_api (invoke None) get_chat_response
      user_input chat_history rag_context st
    = (Ok None, st').
Proof using.
  exact (run_agent_without_client sectors_api user_input chat_history rag_context st).
Qed.

End ProviderProperties.

(** ** Properties of the chat interface and of the sessions *)

Section UiProperties.

Variable World : Type.
Variable now_year : World → Z.
Variable ratio : string → string → Q.
Variable SECTORS_AVAILABLE : bool.
Variable sectors_api : option (SectorsAPI World).
Variable tool_invoke : Tool → gmap string pyval → World → Res (option string) * World.
Variable get_chat_response : list ChatTurn → World → Res string * World.
Variable Vectorstore : Type.
Variable retriever_invoke : Vectorstore → string → World → Res (list Document) * World.
Variable now_text : World → string.

Local Abbreviation App := (App World Vectorstore).
Local Abbreviation is_financial_query :=
  (is_financial_query World now_year ratio SECTORS_AVAILABLE sectors_api).
Local Abbreviation run_agent :=
  (run_agent World now_year ratio sectors_api tool_invoke get_chat_response).
Local Abbreviation get_rag_context := (get_rag_context World Vectorstore retriever_invoke).
Local Abbreviation get_bot_response_with_agent :=
  (get_bot_response_with_agent World now_year ratio sectors_api tool_invoke
     get_chat_response Vectorstore).
Local Abbreviation get_bot_response_standard :=
  (get_bot_response_standard World get_chat_response Vectorstore).
Local Abbreviation handle_user_message :=
  (handle_user_message World now_year ratio SECTORS_AVAILABLE sectors_api tool_invoke
     get_chat_response Vectorstore retriever_invoke).
Local Abbreviation with_process := (with_process World Vectorstore).
Local Abbreviation with_chat_history := (with_chat_history World Vectorstore).
Local Abbreviation save_current_session := (save_current_session World Vectorstore).
Local Abbreviation init_chat_history := (init_chat_history World Vectorstore).
Local Abbreviation create_new_session := (create_new_session World Vectorstore now_text).
Local Abbreviation standard_messages := (standard_messages World Vectorstore).
Local Abbreviation convert_chat_history_to_langchain :=
  (convert_chat_history_to_langchain World Vectorstore).

(** *** One message *)

Lemma with_process_same (app : App) : with_process app (process app) = app.
Proof using. by destruct app. Qed.

Lemma get_rag_context_process prompt (app : App) :
  ∃ rag_context sources st,
    get_rag_context prompt app = ((rag_context, sources), with_process app st).
Proof using.
  unfold get_rag_context. destruct (vectorstore app) as [store|].
  - destruct (retrieve_context World Vectorstore retriever_invoke store prompt
                (world World (process app))) as [[rag_context sources] w'].
    by eexists _, _, _.
  - exists "", [], (process app). by rewrite with_process_same.
Qed.

Lemma last_n_snoc {A : Type} (n : nat) (l : list A) (x : A) :
  last_n (S n) (l ++ [x]) = last_n n l ++ [x].
Proof using.
  unfold last_n. rewrite length_app. simpl.
  replace (length l + 1 - S n)%nat with (length l - n)%nat by lia.
  rewrite skipn_app.
  replace (length l - n - length l)%nat with 0%nat by lia. done.
Qed.

Lemma narration_request_ends_with_the_prompt
    (system : ChatTurn) (history : list ChatTurn) (prompt : string) :
  ends_with
    ([ system ]
     ++ (if truthy_list (Some (flat_map langchain_message (history ++ [user_turn prompt])))
         then flat_map history_turn
                (last_n 5 (default [] (Some (flat_map langchain_message
                                               (history ++ [user_turn prompt])))))
         else [])
     ++ [ {| role := "user"; content := prompt |} ])
    [ user_turn prompt; user_turn prompt ].
Proof using.
  rewrite flat_map_app.
  change (flat_map langchain_message [user_turn prompt]) with [HumanMessage prompt].
  cbn [default from_option id].
  set (l := flat_map langchain_message history).
  assert (truthy_list (Some (l ++ [HumanMessage prompt])) = true) as ->
    by (by destruct l).
  rewrite last_n_snoc, flat_map_app.
  exists ([system] ++ flat_map history_turn (last_n 4 l)).
  by rewrite <- !app_assoc.
Qed.

Lemma standard_messages_eq (prompt rag_context : string) (app : App)
    (history : list ChatTurn) :
  chat_history app = history ++ [user_turn prompt] →
  standard_messages prompt rag_context app
  = [ {| role := "system"; content := standard_system_content rag_context |} ]
    ++ history ++ [ user_turn prompt; user_turn prompt ].
Proof using.
  intros H. unfold standard_messages. rewrite H.
  rewrite (List.map_ext _ id), List.map_id; [|by intros []].
  by rewrite <- app_assoc.
Qed.

Lemma standard_path (prompt rag_context : string) (app : App) (history : list ChatTurn) :
  chat_history app = history ++ [user_turn prompt] →
  ∃ st w,
    get_bot_response_standard prompt rag_context app
    = (reply_of
         (fst (get_chat_response
                 ([ {| role := "system"; content := standard_system_content rag_context |} ]
                  ++ history ++ [ user_turn prompt; user_turn prompt ]) w)),
       with_process app st).
Proof using.
  intros H. unfold get_bot_response_standard. cbv zeta.
  rewrite (standard_messages_eq prompt rag_context app history H).
  exists (snd (match get_chat_response
                       ([ {| role := "system";
                             content := standard_system_content rag_context |} ]
                        ++ history ++ [ user_turn prompt; user_turn prompt ])
                       (world World (process app)) with
               | (_, w') => (tt, {| COMPANY_CACHE := COMPANY_CACHE World (process app);
                                    world := w' |})
               end)), (world World (process app)).
  by destruct (get_chat_response _ (world World (process app))) as [[response|e] w'].
Qed.

Lemma agent_path (prompt rag_context reply : string) (history : list ChatTurn)
    (st st' : State World) :
  run_agent prompt (Some (flat_map langchain_message (history ++ [user_turn prompt])))
    rag_context st = (Ok (Some reply), st') →
  ∃ request w,
    ends_with request [ user_turn prompt; user_turn prompt ]
    ∧ reply = reply_of (fst (get_chat_response request w)).
Proof using.
  intros Hrun.
  apply run_agent_reply_inversion in Hrun
    as (resolved_query & st1 & intent & params & st2 & tool_result & st3
        & _ & _ & _ & _ & _ & _ & Hcall).
  unfold call in Hcall.
  match type of Hcall with
  | context [ get_chat_response ?messages ?w ] =>
      exists messages, w; split;
      [ apply narration_request_ends_with_the_prompt
      | destruct (get_chat_response messages w) as [[response|e] w'];
        simpl; congruence ]
  end.
Qed.

Lemma with_process_twice (app : App) (st st' : State World) :
  with_process (with_process app st) st' = with_process app st'.
Proof using. reflexivity. Qed.

(** The steps of [handle_user_message]. The classifier runs on the
    history that ends with the prompt, from the state that the retrieval of
    the context leaves; there is no handler around it. When it returns, the
    message is handled to the end: the state it ends in, and where the
    reply comes from, the agent or the standard request. *)
Lemma handle_user_message_steps (prompt : string) (app : App) :
  ∃ rag_context,
    match is_financial_query prompt
            (Some (flat_map langchain_message (chat_history app ++ [user_turn prompt])))
            (process (snd (get_rag_context prompt
                             (with_chat_history app
                                (chat_history app ++ [user_turn prompt]))))) with
    | (Raise e, st) =>
        handle_user_message prompt app
        = (Raise e,
           with_chat_history (with_process app st)
             (chat_history app ++ [user_turn prompt]))
    | (Ok _, _) =>
        ∃ reply st,
          handle_user_message prompt app
          = (Ok tt,
             save_current_session
               (with_chat_history (with_process app st)
                  (chat_history app ++ [ user_turn prompt; assistant_turn reply ])))
          ∧ ((∃ st0 st1,
                run_agent prompt
                  (Some (flat_map langchain_message
                           (chat_history app ++ [user_turn prompt])))
                  rag_context st0 = (Ok (Some reply), st1))
             ∨ (∃ w,
                  reply
                  = reply_of
                      (fst (get_chat_response
                              ([ {| role := "system";
                                    content := standard_system_content rag_context |} ]
                               ++ chat_history app
                               ++ [ user_turn prompt; user_turn prompt ]) w))))
    end.
Proof using.
  unfold handle_user_message.
  change {| role := "user"; content := prompt |} with (user_turn prompt).
  destruct (get_rag_context_process prompt
              (with_chat_history app (chat_history app ++ [ user_turn prompt ])))
    as (rag_context & sources & s2 & ->).
  exists rag_context. cbn [snd].
  change (process (with_process
                     (with_chat_history app (chat_history app ++ [user_turn prompt])) s2))
    with s2.
  change (convert_chat_history_to_langchain
            (with_process
               (with_chat_history app (chat_history app ++ [user_turn prompt])) s2))
    with (flat_map langchain_message (chat_history app ++ [user_turn prompt])).
  destruct (is_financial_query prompt
              (Some (flat_map langchain_message (chat_history app ++ [user_turn prompt])))
              s2) as [[financial|e] s3]; [|reflexivity].
  rewrite with_process_twice.
  set (app1 := with_chat_history app (chat_history app ++ [ user_turn prompt ])).
  assert (∀ st reply,
            with_chat_history (with_process app1 st)
              (chat_history (with_process app1 st)
               ++ [ {| role := "assistant"; content := reply |} ])
            = with_chat_history (with_process app st)
                (chat_history app ++ [ user_turn prompt; assistant_turn reply ]))
    as Hfinish.
  { intros st reply. unfold with_chat_history, with_process. simpl.
    by rewrite <- app_assoc. }
  assert (∀ st,
            ∃ st' w,
              get_bot_response_standard prompt rag_context (with_process app1 st)
              = (reply_of
                   (fst (get_chat_response
                           ([ {| role := "system";
                                 content := standard_system_content rag_context |} ]
                            ++ chat_history app
                            ++ [ user_turn prompt; user_turn prompt ]) w)),
                 with_process app1 st')) as Hstandard.
  { intros st.
    destruct (standard_path prompt rag_context (with_process app1 st)
                (chat_history app) eq_refl) as (st' & w & H).
    by exists st', w. }
  destruct (financial && SECTORS_AVAILABLE).
  - unfold get_bot_response_with_agent. cbv zeta.
    match goal with
    | |- context [ run_agent prompt ?h rag_context ?st ] =>
        destruct (run_agent prompt h rag_context st) as [[[reply|]|e] s4] eqn:Hrun
    end.
    + exists reply, s4. split.
      * rewrite with_process_twice. do 2 f_equal. apply Hfinish.
      * left. by exists s3, s4.
    + rewrite with_process_twice.
      destruct (Hstandard s4) as (st' & w & ->).
      eexists _, st'. split; [do 2 f_equal; apply Hfinish|].
      right. by exists w.
    + rewrite with_process_twice.
      destruct (Hstandard s4) as (st' & w & ->).
      eexists _, st'. split; [do 2 f_equal; apply Hfinish|].
      right. by exists w.
  - destruct (Hstandard s3) as (st' & w & ->).
    eexists _, st'. split; [do 2 f_equal; apply Hfinish|].
    right. by exists w.
Qed.

(** A message that is handled to the end: the same, from the call that
    returned. *)
Lemma handle_user_message_returned (prompt : string) (app app' : App) :
  handle_user_message prompt app = (Ok tt, app') →
  ∃ rag_context reply st,
    app' = save_current_session
             (with_chat_history (with_process app st)
                (chat_history app ++ [ user_turn prompt; assistant_turn reply ]))
    ∧ ((∃ st0 st1,
          run_agent prompt
            (Some (flat_map langchain_message (chat_history app ++ [user_turn prompt])))
            rag_context st0 = (Ok (Some reply), st1))
       ∨ (∃ w,
            reply
            = reply_of
                (fst (get_chat_response
                        ([ {| role := "system";
                              content := standard_system_content rag_context |} ]
                         ++ chat_history app
                         ++ [ user_turn prompt; user_turn prompt ]) w)))).
Proof using.
  intros H. destruct (handle_user_message_steps prompt app) as (rag_context & Hsteps).
  destruct (is_financial_query _ _ _) as [[financial|e] s3]; [|congruence].
  destruct Hsteps as (reply & st & Hh & Horigin).
  exists rag_context, reply, st. split; [congruence | done].
Qed.

Lemma last_of_two_more {A : Type} (l : list A) (x y : A) : last (l ++ [x; y]) = Some y.
Proof using.
  change [x; y] with ([x] ++ [y]). by rewrite app_assoc, last_snoc.
Qed.

(** One message that is handled to the end adds exactly two turns to the
    history, the user's prompt and then an assistant's reply; the session
    and the vector store stay as they are, and with a current session the
    file of the sessions holds the new history under its name, beside the
    sessions it held before. *)
Theorem handle_user_message_appends_two_turns (prompt : string) (app app' : App) :
  handle_user_message prompt app = (Ok tt, app') →
  ∃ reply,
    chat_history app'
    = chat_history app ++ [ user_turn prompt; assistant_turn reply ]
    ∧ current_session app' = current_session app
    ∧ vectorstore app' = vectorstore app
    ∧ match current_session app with
      | Some name =>
          history_file app'
          = Holds (<[ name := chat_history app' ]>
                     (load_all_chat_sessions (history_file app)))
      | None => history_file app' = history_file app
      end.
Proof using.
  intros H.
  apply handle_user_message_returned in H as (rag_context & reply & st & -> & _).
  exists reply.
  unfold save_current_session, with_chat_history, with_process. simpl.
  by destruct (current_session app).
Qed.

(** When a message is handled to the end, the reply of the assistant is
    the answer of the completion service to a request that ends with the
    user's prompt twice (or the apology built from the exception of that
    request): the prompt is in the history before the request is built, and
    is appended to it again. This holds on the path of the agent and on the
    standard path. *)
Theorem reply_answers_the_prompt_sent_twice (prompt : string) (app app' : App) :
  handle_user_message prompt app = (Ok tt, app') →
  ∃ reply request w,
    last (chat_history app') = Some (assistant_turn reply)
    ∧ ends_with request [ user_turn prompt; user_turn prompt ]
    ∧ reply = reply_of (fst (get_chat_response request w)).
Proof using.
  intros H.
  apply handle_user_message_returned in H as (rag_context & reply & st & -> & Horigin).
  assert (∃ request w,
            ends_with request [ user_turn prompt; user_turn prompt ]
            ∧ reply = reply_of (fst (get_chat_response request w)))
    as (request & w & Hends & Hreply).
  { destruct Horigin as [(st0 & st1 & Hrun) | (w & Hreply)].
    - by apply agent_path in Hrun.
    - eexists _, w. split; [|exact Hreply].
      eexists ([ _ ] ++ chat_history app). by rewrite <- app_assoc. }
  exists reply, request, w. split; [|done].
  unfold save_current_session, with_chat_history, with_process. simpl.
  pose proof (last_of_two_more (chat_history app) (user_turn prompt)
                (assistant_turn reply)) as Hlast.
  by destruct (current_session app).
Qed.

(** [handle_user_message] has no handler around the classifier: when
    [is_financial_query] raises, on the history that ends with the prompt,
    the exception leaves [handle_user_message]. The prompt is then in the
    history without a reply, and the file of the sessions is not
    written. *)
Theorem classifier_exception_escapes
    (prompt : string) (app : App) (e : PyExn) (st : State World) :
  is_financial_query prompt
    (Some (flat_map langchain_message (chat_history app ++ [user_turn prompt])))
    (process (snd (get_rag_context prompt
                     (with_chat_history app (chat_history app ++ [user_turn prompt])))))
  = (Raise e, st) →
  ∃ app',
    handle_user_message prompt app = (Raise e, app')
    ∧ chat_history app' = chat_history app ++ [ user_turn prompt ]
    ∧ current_session app' = current_session app
    ∧ vectorstore app' = vectorstore app
    ∧ history_file app' = history_file app.
Proof using.
  intros H. destruct (handle_user_message_steps prompt app) as (rag_context & Hsteps).
  rewrite H in Hsteps. eexists. split; [exact Hsteps|]. by repeat split.
Qed.

(** When the agent returns no reply to any request (as it does without a
    client), the reply is that of the standard path: the answer of the
    completion service to the system prompt, the history and the prompt
    twice. *)
Lemma handle_user_message_standard (prompt : string) (app app' : App) :
  (∀ history rag_context st reply st',
     run_agent prompt history rag_context st ≠ (Ok (Some reply), st')) →
  handle_user_message prompt app = (Ok tt, app') →
  ∃ rag_context w,
    last (chat_history app')
    = Some (assistant_turn
              (reply_of
                 (fst (get_chat_response
                         ([ {| role := "system";
                               content := standard_system_content rag_context |} ]
                          ++ chat_history app
                          ++ [ user_turn prompt; user_turn prompt ]) w)))).
Proof using.
  intros Hnever H.
  apply handle_user_message_returned in H as (rag_context & reply & st & -> & Horigin).
  destruct Horigin as [(st0 & st1 & Hrun) | (w & ->)].
  { by destruct (Hnever _ _ _ _ _ Hrun). }
  exists rag_context, w.
  unfold save_current_session, with_chat_history, with_process. simpl.
  destruct (current_session app); simpl; apply last_of_two_more.
Qed.

(** *** The sessions *)

(** Saving keeps the other sessions of a readable file and stores the
    current history under the current name, so that [init_chat_history]
    on that name restores it. Over a file that is missing, blank or not
    JSON, the saved file holds the current session alone. *)
Theorem saving_keeps_the_other_sessions (name : string) (app : App) :
  current_session app = Some name →
  load_all_chat_sessions (history_file (save_current_session app)) !! name
  = Some (chat_history app)
  ∧ (∀ other, other ≠ name →
       load_all_chat_sessions (history_file (save_current_session app)) !! other
       = load_all_chat_sessions (history_file app) !! other)
  ∧ chat_history (init_chat_history name (save_current_session app)) = chat_history app
  ∧ (history_file app = Missing ∨ history_file app = Unreadable →
     load_all_chat_sessions (history_file (save_current_session app))
     = {[ name := chat_history app ]}).
Proof using.
  intros Hcurrent. unfold save_current_session. rewrite Hcurrent.
  simpl. split; [by rewrite lookup_insert_eq|].
  split; [by intros other Hne; rewrite lookup_insert_ne|].
  split; [by rewrite lookup_insert_eq|].
  by intros [-> | ->].
Qed.

(** A new session is named after the second on the clock. It is added to
    the sessions of the file, which are kept, except that a session of that
    very name, created in the same second, is emptied. *)
Theorem new_session_keeps_the_others (app : App) :
  fst (create_new_session app)
  = "Session - " +:+ now_text (world World (process app))
  ∧ current_session (snd (create_new_session app)) = Some (fst (create_new_session app))
  ∧ chat_history (snd (create_new_session app)) = []
  ∧ load_all_chat_sessions (history_file (snd (create_new_session app)))
    !! fst (create_new_session app) = Some []
  ∧ ∀ other, other ≠ fst (create_new_session app) →
      load_all_chat_sessions (history_file (snd (create_new_session app))) !! other
      = load_all_chat_sessions (history_file app) !! other.
Proof using.
  simpl. repeat split; [by rewrite lookup_insert_eq|].
  by intros other Hne; rewrite lookup_insert_ne.
Qed.

End UiProperties.

(** ** The chat without a client *)

Section WithoutClient.

Variable World : Type.
Variable now_year : World → Z.
Variable ratio : string → string → Q.
Variable SECTORS_AVAILABLE : bool.
Variable sectors_api : option (SectorsAPI World).
Variable requests_get : string → string → option Params → World → HttpResult * World.
Variable json_dumps : JValue → string.
Variable repr : JValue → string.
Variable error_text : Fault → string.
Variable format_exc : PyExn → string.
Variable segments_report : string → JValue → Res string.
Variable idx_report : string → string → list JValue → Res string.
Variable quarterly_filtered_report
  : string → option Z → option Z → list JValue → Res string.
Variable get_chat_response : list ChatTurn → World → Res string * World.
Variable Vectorstore : Type.
Variable retriever_invoke : Vectorstore → string → World → Res (list Document) * World.

(** Without an API key for the tools, every reply of the chat is the
    standard one, also to a question that is classified as financial: when
    a message is handled to the end, the assistant's turn is the answer of
    the completion service (or the apology for its exception) to the
    standard system prompt, the history and the prompt twice. *)
Theorem without_a_client_the_reply_is_standard
    (prompt : string) (app app' : App World Vectorstore) :
  handle_user_message World now_year ratio SECTORS_AVAILABLE sectors_api
    (invoke World now_year requests_get json_dumps repr error_text format_exc
       segments_report idx_report quarterly_filtered_report None)
    get_chat_response Vectorstore retriever_invoke prompt app
  = (Ok tt, app') →
  ∃ rag_context w,
    last (chat_history app')
    = Some (assistant_turn
              (reply_of
                 (fst (get_chat_response
                         ([ {| role := "system";
                               content := standard_system_content rag_context |} ]
                          ++ chat_history app
                          ++ [ user_turn prompt; user_turn prompt ]) w)))).
Proof using.
  apply handle_user_message_standard.
  intros history rag_context st reply st' H.
  destruct (run_agent_without_client World now_year ratio requests_get json_dumps repr
              error_text format_exc segments_report idx_report quarterly_filtered_report
              get_chat_response sectors_api prompt history rag_context st) as (st2 & H2).
  congruence.
Qed.

End WithoutClient.

(** ** The further properties on concrete inputs *)


(** The text "Bank BCA" is the alias [bank bca]. *)
Lemma alias_alone_gives_its_ticker_witness :
  In ("bank bca", "BBCA") quick_map
  ∧ Sample.extract_ticker "Bank BCA" (Sample.state None 2026)
    = (Ok (Some "BBCA"), Sample.state None 2026).
Proof.
  assert (In ("bank bca", "BBCA") quick_map) as Hin by (unfold quick_map; simpl; auto 20).
  split; [exact Hin|].
  exact (alias_alone_gives_its_ticker Sample.World Difflib.ratio Sample.sectors_api
           "Bank BCA" "bank bca" "BBCA" (Sample.state None 2026) Hin eq_refl).
Defined.

(** The candidate " bbri " with the two sample companies in the cache, and
    with a null item before the second of them. *)
Lemma exact_symbol_wins_witness :
  find_ticker_by_name Sample.World Difflib.ratio Sample.sectors_api " bbri "
    (Sample.state (Some [Sample.bca; Sample.bri]) 2026)
  = (Ok (Some (dict_get Sample.bri "symbol")),
     Sample.state (Some [Sample.bca; Sample.bri]) 2026)
  ∧ ∃ e,
      find_ticker_by_name Sample.World Difflib.ratio Sample.sectors_api " bbri "
        (Sample.state (Some [JNull; Sample.bri]) 2026)
      = (Raise e, Sample.state (Some [JNull; Sample.bri]) 2026).
Proof.
  split.
  - apply (exact_symbol_wins Sample.World Difflib.ratio Sample.sectors_api " bbri "
             [Sample.bca] [] Sample.bri
             (Sample.state (Some [Sample.bca; Sample.bri]) 2026)).
    + reflexivity.
    + discriminate.
    + apply Forall_cons_2; [|apply Forall_nil_2]. by vm_compute.
    + by vm_compute.
    + by repeat constructor.
  - apply (exact_symbol_wins Sample.World Difflib.ratio Sample.sectors_api " bbri "
             [JNull] [] Sample.bri
             (Sample.state (Some [JNull; Sample.bri]) 2026)).
    + reflexivity.
    + discriminate.
    + apply Forall_cons_2; [|apply Forall_nil_2]. by vm_compute.
    + by vm_compute.
    + by constructor.
Defined.

(** The name "bank central asia" with PT Bank Central Asia in the cache. *)
Lemma fuzzy_result_is_a_cached_symbol_witness :
  find_ticker_by_name Sample.World Difflib.ratio Sample.sectors_api "bank central asia"
    (Sample.state (Some [Sample.bca]) 2026)
  = (Ok (Some "BBCA"), Sample.state (Some [Sample.bca]) 2026)
  ∧ ∃ companies company,
      COMPANY_CACHE Sample.World (Sample.state (Some [Sample.bca]) 2026) = Some companies
      ∧ In company companies
      ∧ dict_get company "symbol" = "BBCA"
      ∧ (PyStr.lower "BBCA" = PyStr.strip (PyStr.lower "bank central asia")
         ∨ (7 # 10 < match_score Difflib.ratio (PyStr.strip (PyStr.lower "bank central asia"))
                       (PyStr.lower (dict_get company "company_name")))%Q).
Proof.
  assert (find_ticker_by_name Sample.World Difflib.ratio Sample.sectors_api
            "bank central asia" (Sample.state (Some [Sample.bca]) 2026)
          = (Ok (Some "BBCA"), Sample.state (Some [Sample.bca]) 2026)) as H
    by (by vm_compute).
  split; [exact H|].
  exact (fuzzy_result_is_a_cached_symbol Sample.World Difflib.ratio Sample.sectors_api
           "bank central asia" "BBCA" _ _ H).
Defined.


(** The first lookup while the provider times out. *)
Lemma empty_company_list_is_cached_witness :
  ∃ st',
    get_all_companies Offline.World (Some Offline.api)
      {| COMPANY_CACHE := None; world := 2026 |} = (Ok [], st')
    ∧ COMPANY_CACHE Offline.World st' = Some []
    ∧ ∀ name st'',
        COMPANY_CACHE Offline.World st'' = Some [] →
        find_ticker_by_name Offline.World Difflib.ratio (Some Offline.api) name st''
        = (Ok None, st'').
Proof.
  apply (empty_company_list_is_cached Offline.World Difflib.ratio (Some Offline.api)
           Offline.api {| COMPANY_CACHE := None; world := 2026 |}).
  - reflexivity.
  - reflexivity.
  - exists (error_dict "Request timeout. API tidak merespons."), 2026.
    split; [reflexivity | exact I].
  - intros subsector w. exact I.
Defined.

(** The classifier and the agent on "berita BBRI" with a cached list. *)
Lemma populated_cache_is_never_changed_witness :
  COMPANY_CACHE Sample.World
    (snd (Sample.is_financial_query "berita BBRI" None
            (Sample.state (Some [Sample.bca]) 2026))) = Some [Sample.bca]
  ∧ COMPANY_CACHE Sample.World
      (snd (Sample.run_agent "berita BBRI" None ""
              (Sample.state (Some [Sample.bca]) 2026))) = Some [Sample.bca].
Proof.
  exact (populated_cache_is_never_changed Sample.World Sample.now_year Difflib.ratio true
           Sample.sectors_api Sample.tool_invoke Sample.get_chat_response
           "berita BBRI" None "" [Sample.bca] (Sample.state (Some [Sample.bca]) 2026)
           eq_refl).
Defined.

(** "top 5 saham" when the provider serves one company. *)
Lemma agent_reply_is_a_narration_witness :
  Served.run_agent "top 5 saham" None ""
    (Served.state (Some []) 2026 [ Some (JArray [ Served.bca ]) ])
  = (Ok (Some "top 5 saham"), Served.state (Some []) 2026 [])
  ∧ ∃ intent params st2 tool_result st3,
      intent ≠ "unknown"
      ∧ execute_tool Served.World (Served.invoke (Some Served.client)) intent params st2
        = (Ok (Some tool_result), st3)
      ∧ PyStr.startswith tool_result error_marker = false.
Proof.
  assert (Served.run_agent "top 5 saham" None ""
            (Served.state (Some []) 2026 [ Some (JArray [ Served.bca ]) ])
          = (Ok (Some "top 5 saham"), Served.state (Some []) 2026 [])) as H
    by (by vm_compute).
  split; [exact H|].
  destruct (agent_reply_is_a_narration Served.World Served.now_year Difflib.ratio
              Served.sectors_api (Served.invoke (Some Served.client))
              Served.get_chat_response "top 5 saham" None "" "top 5 saham" _ _ H)
    as (_ & _ & intent & params & st2 & tool_result & st3
        & _ & _ & Hi & He & _ & Hs & _).
  exists intent, params, st2, tool_result, st3.
  split; [exact Hi|]. split; [exact He | exact Hs].
Defined.

(** A request that the provider answers with a list of one company. *)
Lemma make_request_gives_a_document_or_an_error_witness :
  Responded 200 "" (Ok (JArray [ Served.bca ])) ≠ RaisedHTTPError
  ∧ ∃ data,
      make_request Served.World Served.requests_get Served.error_text Served.client
        "companies/" None {| Served.year := 2026;
                             Served.answers := [ Some (JArray [ Served.bca ]) ] |}
      = (Ok data, {| Served.year := 2026; Served.answers := [] |})
      ∧ (∀ body, request_brought (Responded 200 "" (Ok (JArray [ Served.bca ]))) body →
                 data = body)
      ∧ (request_failed (Responded 200 "" (Ok (JArray [ Served.bca ]))) →
         ∃ text, data = error_dict text).
Proof.
  assert (Responded 200 "" (Ok (JArray [ Served.bca ])) ≠ RaisedHTTPError) as Hne
    by discriminate.
  split; [exact Hne|].
  exact (make_request_gives_a_document_or_an_error Served.World Served.requests_get
           Served.error_text Served.client "companies/" None
           {| Served.year := 2026; Served.answers := [ Some (JArray [ Served.bca ]) ] |}
           {| Served.year := 2026; Served.answers := [] |}
           (Responded 200 "" (Ok (JArray [ Served.bca ]))) eq_refl Hne).
Defined.

Lemma served_never_raises_http_error (url authorization : string) (params : option Params)
    (w : Served.World) :
  fst (Served.requests_get url authorization params w) ≠ RaisedHTTPError.
Proof. unfold Served.requests_get. by destruct (Served.answers w) as [|[body|] rest]. Defined.

(** The first lookup when the provider serves one company. *)
Lemma company_list_is_cached_with_the_client_witness :
  ∃ companies st',
    get_all_companies Served.World Served.sectors_api
      (Served.state None 2026 [ Some (JArray [ Served.bca ]) ]) = (Ok companies, st')
    ∧ COMPANY_CACHE Served.World st' = Some companies
    ∧ (COMPANY_CACHE Served.World (Served.state None 2026 [ Some (JArray [ Served.bca ]) ])
       = None →
       (∀ url authorization params w,
          request_failed (fst (Served.requests_get url authorization params w))) →
       companies = []).
Proof.
  exact (company_list_is_cached_with_the_client Served.World Served.requests_get
           Served.error_text Served.client
           (Served.state None 2026 [ Some (JArray [ Served.bca ]) ])
           served_never_raises_http_error).
Defined.

(** The top-stocks tool when the request times out. *)
Lemma provider_failure_by_tool_witness :
  fst (Served.run_tool (Some Served.client) get_top_stocks_by_market_cap
         {[ "limit" := VInt 5 ]} {| Served.year := 2026; Served.answers := [] |})
  = "Tidak ada data perusahaan ditemukan.".
Proof.
  apply (provider_failure_by_tool Served.World Served.now_year Served.requests_get
           Served.json_dumps Served.repr Served.error_text Served.format_exc
           Served.segments_report Served.idx_report Served.quarterly_filtered_report
           Served.client get_top_stocks_by_market_cap {[ "limit" := VInt 5 ]}
           {| Served.year := 2026; Served.answers := [] |}).
  intros url authorization ps. exact I.
Defined.

(** Saving the session [b] beside a stored session [a]. *)
Lemma saving_keeps_the_other_sessions_witness :
  load_all_chat_sessions
    (history_file
       (save_current_session Z unit
          {| chat_history := [ user_turn "halo" ];
             current_session := Some "b";
             vectorstore := None;
             history_file := Holds {[ "a" := [ user_turn "hai" ] ]};
             process := Sample.state None 2026 |})) !! "a"
  = Some [ user_turn "hai" ].
Proof.
  destruct (saving_keeps_the_other_sessions Z unit "b"
              {| chat_history := [ user_turn "halo" ];
                 current_session := Some "b";
                 vectorstore := None;
                 history_file := Holds {[ "a" := [ user_turn "hai" ] ]};
                 process := Sample.state None 2026 |} eq_refl)
    as (_ & Hothers & _).
  rewrite (Hothers "a"); [reflexivity | discriminate].
Defined.

(** One message in the session [b] of the sample world. *)
Lemma handle_user_message_appends_two_turns_witness :
  ∃ app',
    Chat.handle_user_message "harga BBCA" (Chat.app (Sample.state None 2026))
    = (Ok tt, app')
    ∧ ∃ reply,
        chat_history app'
        = [ user_turn "hai"; assistant_turn "halo" ]
          ++ [ user_turn "harga BBCA"; assistant_turn reply ]
        ∧ current_session app' = Some "b"
        ∧ vectorstore app' = None
        ∧ history_file app'
          = Holds (<[ "b" := chat_history app' ]> {[ "a" := [ user_turn "hai" ] ]}).
Proof.
  exists (snd (Chat.handle_user_message "harga BBCA" (Chat.app (Sample.state None 2026)))).
  assert (Chat.handle_user_message "harga BBCA" (Chat.app (Sample.state None 2026))
          = (Ok tt, snd (Chat.handle_user_message "harga BBCA"
                           (Chat.app (Sample.state None 2026))))) as H
    by (vm_compute; reflexivity).
  split; [exact H|].
  exact (handle_user_message_appends_two_turns Sample.World Sample.now_year Difflib.ratio
           true Sample.sectors_api Sample.tool_invoke Sample.get_chat_response unit
           Chat.retriever_invoke "harga BBCA" (Chat.app (Sample.state None 2026)) _ H).
Defined.

(** The reply to that message. *)
Lemma reply_answers_the_prompt_sent_twice_witness :
  ∃ app',
    Chat.handle_user_message "harga BBCA" (Chat.app (Sample.state None 2026))
    = (Ok tt, app')
    ∧ ∃ reply request w,
        last (chat_history app') = Some (assistant_turn reply)
        ∧ ends_with request [ user_turn "harga BBCA"; user_turn "harga BBCA" ]
        ∧ reply = reply_of (fst (Sample.get_chat_response request w)).
Proof.
  exists (snd (Chat.handle_user_message "harga BBCA" (Chat.app (Sample.state None 2026)))).
  assert (Chat.handle_user_message "harga BBCA" (Chat.app (Sample.state None 2026))
          = (Ok tt, snd (Chat.handle_user_message "harga BBCA"
                           (Chat.app (Sample.state None 2026))))) as H
    by (vm_compute; reflexivity).
  split; [exact H|].
  exact (reply_answers_the_prompt_sent_twice Sample.World Sample.now_year Difflib.ratio
           true Sample.sectors_api Sample.tool_invoke Sample.get_chat_response unit
           Chat.retriever_invoke "harga BBCA" (Chat.app (Sample.state None 2026)) _ H).
Defined.

(** The message "berita" when the provider fails once: the classifier
    raises on the list that the second request brings. *)
Lemma classifier_exception_escapes_witness :
  ∃ app',
    handle_user_message Flaky.World Flaky.now_year Difflib.ratio true Flaky.sectors_api
      Chat.tool_invoke Chat.get_chat_response unit Chat.retriever_invoke
      "berita" (Chat.app Flaky.state)
    = (Raise (AttributeError JNull "get"), app')
    ∧ chat_history app'
      = [ user_turn "hai"; assistant_turn "halo" ] ++ [ user_turn "berita" ]
    ∧ current_session app' = Some "b"
    ∧ vectorstore app' = None
    ∧ history_file app' = Holds {[ "a" := [ user_turn "hai" ] ]}.
Proof.
  apply (classifier_exception_escapes Flaky.World Flaky.now_year Difflib.ratio true
           Flaky.sectors_api Chat.tool_invoke Chat.get_chat_response unit
           Chat.retriever_invoke "berita" (Chat.app Flaky.state)
           (AttributeError JNull "get")
           {| COMPANY_CACHE := Some [ JNull ]; world := 2%nat |}).
  vm_compute. reflexivity.
Defined.

(** A financial question when the tools have no client. *)
Lemma without_a_client_the_reply_is_standard_witness :
  ∃ app',
    Chat.handle_user_message_without_client "harga BBCA"
      (Chat.app (Served.state (Some []) 2026 []))
    = (Ok tt, app')
    ∧ ∃ rag_context w,
        last (chat_history app')
        = Some (assistant_turn
                  (reply_of
                     (fst (Served.get_chat_response
                             ([ {| role := "system";
                                   content := standard_system_content rag_context |} ]
                              ++ [ user_turn "hai"; assistant_turn "halo" ]
                              ++ [ user_turn "harga BBCA"; user_turn "harga BBCA" ])
                             w)))).
Proof.
  exists (snd (Chat.handle_user_message_without_client "harga BBCA"
                 (Chat.app (Served.state (Some []) 2026 [])))).
  assert (Chat.handle_user_message_without_client "harga BBCA"
            (Chat.app (Served.state (Some []) 2026 []))
          = (Ok tt, snd (Chat.handle_user_message_without_client "harga BBCA"
                           (Chat.app (Served.state (Some []) 2026 []))))) as H
    by (vm_compute; reflexivity).
  split; [exact H|].
  exact (without_a_client_the_reply_is_standard Served.World Served.now_year
           Difflib.ratio true Served.sectors_api Served.requests_get Served.json_dumps
           Served.repr Served.error_text Served.format_exc Served.segments_report
           Served.idx_report Served.quarterly_filtered_report Served.get_chat_response
           unit Chat.retriever_invoke "harga BBCA"
           (Chat.app (Served.state (Some []) 2026 [])) _ H).
Defined.

